(** * Sale-order data-access layer (src/sale_order.py, class SaleOrderDao)

    A shallow embedding of the query builders and of the row shaping done
    by [SaleOrderDao], with the properties of the specification stated
    over it.  Python dictionaries used as maps are [gmap]s, dictionaries
    returned to the caller are association lists in insertion order,
    nullable columns are [option]s, raised exceptions are the [Raise]
    branch of [result]. *)

From Stdlib Require Import ZArith List String Ascii Bool Lia.
From stdpp Require Import base option gmap strings list sorting.

Open Scope string_scope.
Open Scope Z_scope.
Open Scope list_scope.

Set Warnings "-register-all".

(** ** Exceptions and the error monad *)

Inductive exn : Type :=
| KeyError
| InvalidOperation
| Overflow
| TypeError
| DataError
| ProgrammingError.

Inductive result (A : Type) : Type :=
| Return (a : A)
| Raise (e : exn).
Arguments Return {A} a.
Arguments Raise {A} e.

#[global] Instance result_ret : MRet result := fun A a => Return a.

#[global] Instance result_bind : MBind result := fun A B k m =>
  match m with
  | Return a => k a
  | Raise e => Raise e
  end.

(** ** Refund aggregation status *)

Module Refund.

(** [convert_aggregated_refund_result_code]: the status map sends a refund
    id to the success flag of its aggregated refund payment, a nullable
    boolean.  [m !! refund_id] is [None] when the id is not a key and
    [Some None] when the key is there with the value [None]. *)
Definition convert_aggregated_refund_result_code
    (refund_id : Z) (aggregated_status_by_refund_id_map : gmap Z (option bool)) : Z :=
  match aggregated_status_by_refund_id_map !! refund_id with
  | None => 0
  | Some is_aggregated_refund_success =>
      match is_aggregated_refund_success with
      | None => 1
      | Some true => 2
      | Some false => 3
      end
  end.

End Refund.

(** ** Decimal numbers

    [dec] is a finite decimal number [coeff * 10 ^ exp]: the value of a
    PostgreSQL [numeric] and the finite case of Python's [Decimal].  The
    sign is carried by the coefficient, so the negative zero of Python is
    not told apart from zero. *)

Module Dec.

Record dec : Type := mkDec { coeff : Z; exp : Z }.

#[global] Instance dec_eq_dec : EqDecision dec.
Proof. solve_decision. Defined.

(** Python's [Decimal]: finite numbers and the special values. *)
Inductive Decimal : Type :=
| Finite (d : dec)
| Inf (negative : bool)
| NaN (signaling : bool).

#[global] Instance Decimal_eq_dec : EqDecision Decimal.
Proof. solve_decision. Defined.

(** The default arithmetic context of the [decimal] module
    ([prec=28], [rounding=ROUND_HALF_EVEN], [Emin=-999999],
    [Emax=999999], [clamp=0], traps on InvalidOperation, DivisionByZero
    and Overflow); the source never changes it. *)
Definition prec : Z := 28.
Definition Emax : Z := 999999.
Definition Emin : Z := -999999.
Definition Etiny : Z := Emin - prec + 1.
Definition Etop : Z := Emax - prec + 1.

(** [ndigits n] is [len(str(abs(n)))], the length of the coefficient. *)
Fixpoint ndigits_aux (fuel : nat) (n : Z) : Z :=
  match fuel with
  | O => 1
  | S fuel' => if n <? 10 then 1 else 1 + ndigits_aux fuel' (n / 10)
  end.

Definition ndigits (n : Z) : Z :=
  ndigits_aux (Z.to_nat (Z.log2 (Z.abs n))) (Z.abs n).

(** [round_half_even c k]: drop the last [k >= 1] digits of [c >= 0]
    ([_round_half_even] followed by the increment of [_fix]). *)
Definition round_half_even (c k : Z) : Z * bool :=
  let q := c / 10 ^ k in
  let r := c mod 10 ^ k in
  let half := 5 * 10 ^ (k - 1) in
  let changed := (half <? r) || ((r =? half) && Z.odd q) in
  (if changed then q + 1 else q, changed).

Definition with_sign (negative : bool) (c : Z) : Z :=
  if negative then - c else c.

(** [Decimal._fix]: round a finite result to the context. *)
Definition fix_ (d : dec) : result dec :=
  let c := Z.abs (coeff d) in
  let negative := coeff d <? 0 in
  if c =? 0 then
    Return (mkDec 0 (Z.min (Z.max (exp d) Etiny) Emax))
  else
    let exp_min := ndigits c + exp d - prec in
    if Etop <? exp_min then Raise Overflow
    else
      let exp_min := if exp_min <? Etiny then Etiny else exp_min in
      if exp d <? exp_min then
        let digits := ndigits c + exp d - exp_min in
        let '(c1, e1) := if digits <? 0 then (1, exp_min - 1) else (c, exp d) in
        let '(coeff1, changed) := round_half_even c1 (exp_min - e1) in
        let '(coeff2, exp_min2) :=
          if changed && (prec <? ndigits coeff1)
          then (coeff1 / 10, exp_min + 1) else (coeff1, exp_min) in
        if Etop <? exp_min2 then Raise Overflow
        else Return (mkDec (with_sign negative coeff2) exp_min2)
      else Return d.

(** Exact sum of two finite decimals, at the smaller exponent. *)
Definition add_exact (a b : dec) : dec :=
  let e := Z.min (exp a) (exp b) in
  mkDec (coeff a * 10 ^ (exp a - e) + coeff b * 10 ^ (exp b - e)) e.

(** [Decimal.__add__] in the default context. *)
Definition Decimal_add (a b : Decimal) : result Decimal :=
  match a, b with
  | NaN true, _ | _, NaN true => Raise InvalidOperation
  | NaN false, _ | _, NaN false => Return (NaN false)
  | Inf sa, Inf sb => if Bool.eqb sa sb then Return (Inf sa) else Raise InvalidOperation
  | Inf sa, Finite _ => Return (Inf sa)
  | Finite _, Inf sb => Return (Inf sb)
  | Finite x, Finite y => r ← fix_ (add_exact x y); mret (Finite r)
  end.

(** [Decimal.__bool__]. *)
Definition Decimal_bool (d : Decimal) : bool :=
  match d with
  | Finite x => negb (coeff x =? 0)
  | _ => true
  end.

(** *** [Decimal(str)] *)

Definition is_digit (c : ascii) : bool :=
  let n := Z.of_N (N_of_ascii c) in (48 <=? n) && (n <=? 57).

Definition digit_value (c : ascii) : Z := Z.of_N (N_of_ascii c) - 48.

Definition is_space (c : ascii) : bool :=
  let n := Z.of_N (N_of_ascii c) in
  ((9 <=? n) && (n <=? 13)) || ((28 <=? n) && (n <=? 32)).

Definition lower (c : ascii) : ascii :=
  let n := N_of_ascii c in
  if ((65 <=? n) && (n <=? 90))%N then ascii_of_N (n + 32) else c.

Fixpoint lstrip (l : list ascii) : list ascii :=
  match l with
  | c :: l' => if is_space c then lstrip l' else l
  | [] => []
  end.

Definition strip (l : list ascii) : list ascii := rev (lstrip (rev (lstrip l))).

Fixpoint span_digits (l : list ascii) : list ascii * list ascii :=
  match l with
  | c :: l' =>
      if is_digit c then let '(ds, r) := span_digits l' in (c :: ds, r)
      else ([], l)
  | [] => ([], [])
  end.

Definition digits_to_Z (ds : list ascii) : Z :=
  fold_left (fun acc c => 10 * acc + digit_value c) ds 0.

Definition parse_sign (l : list ascii) : bool * list ascii :=
  match l with
  | "-"%char :: r => (true, r)
  | "+"%char :: r => (false, r)
  | _ => (false, l)
  end.

(** The optional exponent, an [E] with a signed digit string, up to the
    end of the input. *)
Definition parse_exponent (l : list ascii) : option Z :=
  match l with
  | [] => Some 0
  | "e"%char :: r =>
      let '(negative, r1) := parse_sign r in
      match span_digits r1 with
      | ((_ :: _) as ds, []) => Some (with_sign negative (digits_to_Z ds))
      | _ => None
      end
  | _ => None
  end.

(** The finite branch of the numeric syntax: digits with an optional
    fraction, at least one digit in all, and an optional exponent. *)
Definition parse_finite (negative : bool) (l : list ascii) : option dec :=
  let '(intpart, r1) := span_digits l in
  let '(fracpart, r2) :=
    match r1 with
    | "."%char :: r => span_digits r
    | _ => ([], r1)
    end in
  match intpart ++ fracpart with
  | [] => None
  | ds =>
      e ← parse_exponent r2;
      Some (mkDec (with_sign negative (digits_to_Z ds)) (e - Z.of_nat (length fracpart)))
  end.

Definition string_of (l : list ascii) : string := string_of_list_ascii l.

(** [Decimal(value)] for a [str]: surrounding white space and underscores
    are dropped, the syntax is matched without regard to case, and a
    string outside it raises [InvalidOperation].  The digits and the white
    space are those of ASCII: the decimal digits and the white space of
    other scripts, which Python reads as well, are outside the model. *)
Definition Decimal_of_str (s : string) : result Decimal :=
  let l := map lower (filter (fun c => c ≠ "_"%char) (strip (list_ascii_of_string s))) in
  let '(negative, body) := parse_sign l in
  if bool_decide (string_of body = "inf" ∨ string_of body = "infinity")
  then Return (Inf negative)
  else
    match body with
    | "n"%char :: "a"%char :: "n"%char :: diag =>
        if forallb is_digit diag then Return (NaN false) else Raise InvalidOperation
    | "s"%char :: "n"%char :: "a"%char :: "n"%char :: diag =>
        if forallb is_digit diag then Return (NaN true) else Raise InvalidOperation
    | _ =>
        match parse_finite negative body with
        | Some d => Return (Finite d)
        | None => Raise InvalidOperation
        end
    end.

End Dec.

(** ** Python values

    [scalar] is what the database driver hands back for one column (a
    [float] is not modelled); [value] is what the operations return. *)

Inductive scalar : Type :=
| SNone
| SBool (b : bool)
| SInt (z : Z)
| SStr (s : string)
| SDecimal (d : Dec.Decimal).

Inductive value : Type :=
| VNone
| VInt (z : Z)
| VStr (s : string)
| VDecimal (d : Dec.Decimal)
| VBool (b : bool)
| VList (l : list value)
| VDict (d : list (string * value)).

Definition value_of_scalar (c : scalar) : value :=
  match c with
  | SNone => VNone
  | SBool b => VBool b
  | SInt z => VInt z
  | SStr s => VStr s
  | SDecimal d => VDecimal d
  end.

(** Truth value of a scalar in an [if]. *)
Definition truthy (v : scalar) : bool :=
  match v with
  | SNone => false
  | SBool b => b
  | SInt z => negb (z =? 0)
  | SStr s => negb (String.eqb s "")
  | SDecimal d => Dec.Decimal_bool d
  end.

(** [Decimal(v)]. *)
Definition Decimal_of (v : scalar) : result Dec.Decimal :=
  match v with
  | SNone => Raise TypeError
  | SBool b => Return (Dec.Finite (Dec.mkDec (if b then 1 else 0) 0))
  | SInt z => Return (Dec.Finite (Dec.mkDec z 0))
  | SStr s => Dec.Decimal_of_str s
  | SDecimal d => Return d
  end.

(** Truth value of an optional string or list parameter. *)
Definition nonempty_str (s : option string) : option string :=
  match s with
  | Some "" => None
  | _ => s
  end.

Definition nonempty_list {A : Type} (l : option (list A)) : option (list A) :=
  match l with
  | Some [] => None
  | _ => l
  end.

(** ** The tables

    A nullable column is an [option].  The amount columns are kept as
    the value that [cast(column, Numeric)] reads from them. *)

Module SaleOrder.
Record t : Type := mk {
  id : Z;
  record_id : Z;
  disabled : option bool;
  company_id : option Z;
  order_source : option Z;
  order_number : option string;
  store_name : option string;
  channel_name : option string;
  member_name : option string;
  member_phone : option string;
  store_team_info_id : option Z;
  channel_id : option Z;
  state : option Z;
  operater_name : option string;
  operater_phone : option string;
  shopping_guide_name : option string;
  created_at : option Z;
  create_at : option Z;
  paid_at : option Z;
  business_day : option Z;
  total_origin_price : option Dec.dec;
  discount_price : option Dec.dec;
  remark : option string
}.
End SaleOrder.

Module SaleOrderPayment.
Record t : Type := mk {
  order_id : Z;
  company_id : option Z;
  payment_method_id : option Z;
  payment_method_name : option string;
  payment_amount : option Dec.dec;
  is_pay_success : option bool;
  sort : option Z
}.
End SaleOrderPayment.

Module SaleOrderItem.
Record t : Type := mk {
  id : Z;
  order_id : Z;
  order_number : option string;
  disabled : option bool;
  goods_sale_name : option string;
  barcode : option string;
  goods_custom_code : scalar;
  purchase_quantity : scalar;
  (** the columns that the item query selects after the quantity, by name *)
  columns : list (string * scalar)
}.
End SaleOrderItem.

Module SaleOrderDiscount.
Record t : Type := mk {
  order_id : Z;
  disabled : option bool
}.
End SaleOrderDiscount.

Module SaleOrderReturn.
Record t : Type := mk {
  id : Z;
  record_id : Z;
  order_id : Z
}.
End SaleOrderReturn.

Module SaleOrderRefundPayment.
Record t : Type := mk {
  order_refund_id : Z;
  refund_payment_amount : option Dec.dec;
  is_refund_success : option bool
}.
End SaleOrderRefundPayment.

Record database : Type := mkDatabase {
  orders : list SaleOrder.t;
  payments : list SaleOrderPayment.t;
  items : list SaleOrderItem.t;
  discounts : list SaleOrderDiscount.t;
  refunds : list SaleOrderReturn.t;
  refund_payments : list SaleOrderRefundPayment.t
}.

#[global] Instance scalar_eq_dec : EqDecision scalar.
Proof. solve_decision. Defined.

#[global] Instance order_eq_dec : EqDecision SaleOrder.t.
Proof. solve_decision. Defined.

(** ** Total purchased quantity *)

(** The loop of [get_total_purchase_quantity], from the running total. *)
Fixpoint accumulate_purchase_quantity
    (total_purchase_quantity : Dec.Decimal) (order_items : list SaleOrderItem.t)
    : result Dec.Decimal :=
  match order_items with
  | [] => Return total_purchase_quantity
  | order_item :: rest =>
      let purchase_quantity := SaleOrderItem.purchase_quantity order_item in
      if truthy purchase_quantity then
        d ← Decimal_of purchase_quantity;
        total ← Dec.Decimal_add total_purchase_quantity d;
        accumulate_purchase_quantity total rest
      else accumulate_purchase_quantity total_purchase_quantity rest
  end.

Definition get_total_purchase_quantity (order_items : list SaleOrderItem.t)
    : result Dec.Decimal :=
  let total_purchase_quantity := Dec.Finite (Dec.mkDec 0 0) in
  match order_items with
  | [] => Return total_purchase_quantity
  | _ => accumulate_purchase_quantity total_purchase_quantity order_items
  end.

(** ** Pattern matching of the storage engine

    [like_match esc pattern text] is PostgreSQL's [LIKE]: [%] matches any
    run of characters, [_] one character, and the character after the
    escape character stands for itself.  A pattern that ends in a lone
    escape character matches nothing.  A string is the list of its bytes:
    on text outside ASCII the engine matches [_] with a character and
    folds the case of letters, which the model does for ASCII alone. *)

Fixpoint like_match (esc : ascii) (pattern text : list ascii) : bool :=
  match pattern with
  | [] => match text with [] => true | _ => false end
  | c :: pattern' =>
      if Ascii.eqb c esc then
        match pattern' with
        | [] => false
        | c' :: pattern'' =>
            match text with
            | x :: text' => Ascii.eqb x c' && like_match esc pattern'' text'
            | [] => false
            end
        end
      else if Ascii.eqb c "%" then
        (fix any (t : list ascii) : bool :=
           like_match esc pattern' t
           || match t with [] => false | _ :: t' => any t' end) text
      else if Ascii.eqb c "_" then
        match text with
        | _ :: text' => like_match esc pattern' text'
        | [] => false
        end
      else
        match text with
        | x :: text' => Ascii.eqb x c && like_match esc pattern' text'
        | [] => false
        end
  end.

(** [column.ilike(pattern, escape=...)]: matching without regard to case;
    without an [ESCAPE] clause the engine's escape character is the
    backslash.  The result is NULL on a NULL column. *)
Definition ilike (column : option string) (pattern : string) (escape : option ascii)
    : option bool :=
  match column with
  | None => None
  | Some text =>
      Some (like_match (default "\"%char escape)
              (map Dec.lower (list_ascii_of_string pattern))
              (map Dec.lower (list_ascii_of_string text)))
  end.

(** The pattern of an f-string [%{s}%]. *)
Definition percent_wrap (s : string) : string :=
  String.append "%" (String.append s "%").

(** ** Numeric values of the storage engine *)

Definition dec_compare (a b : Dec.dec) : comparison :=
  let e := Z.min (Dec.exp a) (Dec.exp b) in
  (Dec.coeff a * 10 ^ (Dec.exp a - e)) ?= (Dec.coeff b * 10 ^ (Dec.exp b - e)).

(** [sum(...)]: NULL values are skipped, and the sum of no value is NULL. *)
Definition sql_sum (l : list (option Dec.dec)) : option Dec.dec :=
  fold_left
    (fun acc x =>
       match acc, x with
       | _, None => acc
       | None, Some d => Some d
       | Some a, Some d => Some (Dec.add_exact a d)
       end) l None.

(** [round(x, 2)] on a numeric: to two decimal places, ties away from
    zero; the result has scale 2. *)
Definition sql_round2 (d : Dec.dec) : Dec.dec :=
  if -2 <=? Dec.exp d then Dec.mkDec (Dec.coeff d * 10 ^ (Dec.exp d + 2)) (-2)
  else
    let k := - 2 - Dec.exp d in
    let c := Z.abs (Dec.coeff d) in
    let q := c / 10 ^ k in
    let r := c mod 10 ^ k in
    let q' := if 5 * 10 ^ (k - 1) <=? r then q + 1 else q in
    Dec.mkDec (Dec.with_sign (Dec.coeff d <? 0) q') (-2).

Definition digit_char (d : Z) : ascii := ascii_of_N (Z.to_N (48 + d)).

Fixpoint digits_of (fuel : nat) (n : Z) (acc : list ascii) : list ascii :=
  match fuel with
  | O => acc
  | S fuel' =>
      let acc' := digit_char (n mod 10) :: acc in
      if n <? 10 then acc' else digits_of fuel' (n / 10) acc'
  end.

Definition Z_to_string (n : Z) : string :=
  let a := Z.abs n in
  let ds := digits_of (S (Z.to_nat (Z.log2 a))) a [] in
  String.append (if n <? 0 then "-" else "") (string_of_list_ascii ds).

(** The digits [l] after as many zeros as it takes to make [n] digits. *)
Definition pad_left (n : nat) (l : list ascii) : list ascii :=
  replicate (n - length l) "0"%char ++ l.

(** [cast(x, String)] of a numeric: the digits with as many decimal
    places as the scale of the value. *)
Definition numeric_to_string (d : Dec.dec) : string :=
  if 0 <=? Dec.exp d then Z_to_string (Dec.coeff d * 10 ^ Dec.exp d)
  else
    let k := - Dec.exp d in
    let a := Z.abs (Dec.coeff d) in
    let frac := list_ascii_of_string (Z_to_string (a mod 10 ^ k)) in
    String.append (if Dec.coeff d <? 0 then "-" else "")
      (String.append (Z_to_string (a / 10 ^ k))
         (String.append "." (string_of_list_ascii (pad_left (Z.to_nat k) frac)))).

(** ** Three-valued logic of the WHERE clause *)

Definition and3 (a b : option bool) : option bool :=
  match a, b with
  | Some false, _ | _, Some false => Some false
  | Some true, Some true => Some true
  | _, _ => None
  end.

Definition or3 (a b : option bool) : option bool :=
  match a, b with
  | Some true, _ | _, Some true => Some true
  | Some false, Some false => Some false
  | _, _ => None
  end.

Definition is_true (a : option bool) : bool :=
  match a with Some true => true | _ => false end.

Definition is_false (a : option bool) : bool :=
  match a with Some false => true | _ => false end.

Definition in_ (x : option Z) (l : list Z) : option bool :=
  (fun v => bool_decide (v ∈ l)) <$> x.

(** ** Query fragments *)

Inductive ComparisonOperator : Type := GT | GTE | LT | LTE | EQ | NEQ.

(** The [operator] attribute of an amount filter: a member of
    [ComparisonOperator] among the six above, or any other value. *)
Inductive operator_code : Type :=
| Member (op : ComparisonOperator)
| OtherCode (code : string).

Inductive amount_field : Type :=
| total_origin_price_field
| discount_price_field
| payment_amount_field
| success_payment_sum_subquery.

Inductive item_condition : Type :=
| ItemIlike (column : SaleOrderItem.t -> option string)
            (pattern : string) (escape : option ascii).

Inductive condition : Type :=
| DisabledIsFalse
| CompanyIdEq (company_id : Z)
| OrderSourceEq (code : Z)
| Ilike (column : SaleOrder.t -> option string) (pattern : string) (escape : option ascii)
| Or_ (clauses : list condition)
| ExistsItem (any_of : list item_condition)
| ExistsPayment (payment_method : list Z)
| StoreTeamInfoIdIn (store_ids : list Z)
| ChannelIdIn (channel_ids : list Z)
| StateIn (states : list Z)
| CreatedAtGe (t : Z)
| CreatedAtLe (t : Z)
| BusinessDayGe (t : Z)
| BusinessDayLe (t : Z)
| AmountCompare (field : amount_field) (op : ComparisonOperator) (value : Dec.dec).

Definition compare_with (op : ComparisonOperator) (c : comparison) : bool :=
  match op, c with
  | GT, Gt | GTE, Gt | GTE, Eq | LT, Lt | LTE, Lt | LTE, Eq | EQ, Eq
  | NEQ, Lt | NEQ, Gt => true
  | _, _ => false
  end.

Definition eval_item_condition (c : item_condition) (i : SaleOrderItem.t) : option bool :=
  match c with
  | ItemIlike column pattern escape => ilike (column i) pattern escape
  end.

(** The successful payments of an order: the rows joined on
    [SaleOrder.record_id == SaleOrderPayment.order_id] with
    [is_pay_success IS TRUE]. *)
Definition success_payments (db : database) (o : SaleOrder.t) : list SaleOrderPayment.t :=
  filter (fun p => SaleOrderPayment.order_id p = SaleOrder.record_id o
                   ∧ SaleOrderPayment.is_pay_success p = Some true) (payments db).

Definition amount_value (db : database) (f : amount_field) (o : SaleOrder.t)
    : option Dec.dec :=
  match f with
  | total_origin_price_field => SaleOrder.total_origin_price o
  | discount_price_field => SaleOrder.discount_price o
  | payment_amount_field => None
  | success_payment_sum_subquery =>
      sql_sum (map SaleOrderPayment.payment_amount (success_payments db o))
  end.

Fixpoint eval_condition (db : database) (c : condition) (o : SaleOrder.t) : option bool :=
  match c with
  | DisabledIsFalse => Some (is_false (SaleOrder.disabled o))
  | CompanyIdEq company_id => Z.eqb company_id <$> SaleOrder.company_id o
  | OrderSourceEq code => Z.eqb code <$> SaleOrder.order_source o
  | Ilike column pattern escape => ilike (column o) pattern escape
  | Or_ clauses =>
      (fix any (l : list condition) : option bool :=
         match l with
         | [] => Some false
         | c' :: l' => or3 (eval_condition db c' o) (any l')
         end) clauses
  | ExistsItem any_of =>
      Some (existsb
              (fun i =>
                 bool_decide (SaleOrderItem.order_id i = SaleOrder.record_id o)
                 && is_false (SaleOrderItem.disabled i)
                 && is_true (fold_right or3 (Some false)
                               (map (fun ic => eval_item_condition ic i) any_of)))
              (items db))
  | ExistsPayment payment_method =>
      Some (existsb
              (fun p =>
                 bool_decide (SaleOrderPayment.order_id p = SaleOrder.record_id o)
                 && is_true (in_ (SaleOrderPayment.payment_method_id p) payment_method)
                 && is_true (SaleOrderPayment.is_pay_success p))
              (payments db))
  | StoreTeamInfoIdIn store_ids => in_ (SaleOrder.store_team_info_id o) store_ids
  | ChannelIdIn channel_ids => in_ (SaleOrder.channel_id o) channel_ids
  | StateIn states => in_ (SaleOrder.state o) states
  | CreatedAtGe t => (fun x => t <=? x) <$> SaleOrder.created_at o
  | CreatedAtLe t => (fun x => x <=? t) <$> SaleOrder.created_at o
  | BusinessDayGe t => (fun x => t <=? x) <$> SaleOrder.business_day o
  | BusinessDayLe t => (fun x => x <=? t) <$> SaleOrder.business_day o
  | AmountCompare field op value =>
      (fun x => compare_with op (dec_compare x value)) <$> amount_value db field o
  end.

(** [where(and_( *conditions))]: a row is kept when every condition is true. *)
Definition where_ (db : database) (conditions : list condition) (o : SaleOrder.t) : bool :=
  forallb (fun c => is_true (eval_condition db c o)) conditions.

(** ** What the sources import

    The enumerations, constants and helpers that [sale_order.py] imports
    from the rest of the application, and the choices that the storage
    engine makes, are parameters of the model. *)

Inductive sort_column : Type :=
| by_created_at
| by_success_pay_amount
| by_total_origin_price
| by_discount_price.

Record ordering : Type := mkOrdering { column : sort_column; descending : bool }.

Record environment : Type := mkEnvironment {
  (** the members of [OrderStateEnum], in order: value and description *)
  OrderStateEnum : list (Z * string);
  (** [OrderSourceEnum.STORE_ORDER.code] *)
  STORE_ORDER_code : Z;
  (** [DEFAULT_ESCAPE_CHAR] of [app.utils.sql_util] *)
  DEFAULT_ESCAPE_CHAR : ascii;
  (** [to_char(t, 'YYYY-MM-DD HH24:MI:SS')] *)
  to_char : Z -> string;
  (** [string_agg(distinct name, sep)], in the order the engine picks *)
  string_agg_distinct : list string -> string;
  (** [array_agg] of the method and amount of the payments, by [sort] *)
  array_agg_payment_info : list SaleOrderPayment.t -> value;
  (** [format_number_to_display] of [app.utils.decimal_helper] *)
  format_number_to_display : Dec.Decimal -> value;
  (** the rows in the order the engine gives them for an ORDER BY *)
  order_by : database -> ordering -> list SaleOrder.t -> list SaleOrder.t;
  (** whether [dict(row)] reads a row of a result as the mapping of its
      labels, which depends on the version of the database toolkit: the
      sources do not fix it *)
  row_as_mapping : bool
}.

(** Modelled from the spec: [fuzzy_search_string] of [app.utils.sql_util]
    is not among the sources.  The user's wildcard characters, and the
    escape character itself, are escaped with the escape character before
    the text is put between two [%]. *)
Definition escape_wildcards (escape_char : ascii) (l : list ascii) : list ascii :=
  flat_map
    (fun c =>
       if Ascii.eqb c escape_char || Ascii.eqb c "%" || Ascii.eqb c "_"
       then [escape_char; c] else [c]) l.

Definition fuzzy_search_string (s : string) (escape_char : ascii) : string :=
  percent_wrap
    (string_of_list_ascii (escape_wildcards escape_char (list_ascii_of_string s))).

(** ** Query parameters *)

Module QueryParamIn.
Record t : Type := mk {
  company_id : Z;
  order_num_or_user : option string;
  store_ids : option (list Z);
  channel_ids : option (list Z);
  states : option (list Z);
  operater_name_or_phone : option string;
  create_at_start : option Z;
  create_at_end : option Z;
  business_day_start : option Z;
  business_day_end : option Z;
  payment_method : option (list Z);
  page_size : Z;
  page_number : Z
}.
End QueryParamIn.

Module AmountFilter.
Record t : Type := mk {
  amount_type : string;
  operator : operator_code;
  value : Dec.dec
}.
End AmountFilter.

Module QueryParamPCIn.
Record t : Type := mk {
  company_id : Z;
  store_ids : option (list Z);
  order_number : option string;
  product_name : option string;
  states : option (list Z);
  amount_filter : option (list AmountFilter.t);
  payment_method : option (list Z);
  create_at_start : option Z;
  create_at_end : option Z;
  channel_ids : option (list Z);
  user_name_or_phone : option string;
  operater_name_or_phone : option string;
  business_day_start : option Z;
  business_day_end : option Z;
  receive_price : option string;
  total_origin_price : option string;
  discount_price : option string;
  page_size : Z;
  page_number : Z
}.
End QueryParamPCIn.

(** [if x: conditions.append(...)] *)
Definition when {A : Type} (x : option A) (f : A -> list condition) : list condition :=
  match x with
  | Some a => f a
  | None => []
  end.

(** The state filter of both list queries. *)
Definition state_condition (states : option (list Z)) : condition :=
  match nonempty_list states with
  | Some l => StateIn l
  | None => StateIn [4; 5; 6; 8; 9; 10; 11]
  end.

Section Dao.

Context (env : environment).

(** *** [do_get_local_order_list_info]: the conditions *)

Definition list_conditions (query_param_in : QueryParamIn.t) : list condition :=
  let esc := DEFAULT_ESCAPE_CHAR env in
  [ DisabledIsFalse;
    CompanyIdEq (QueryParamIn.company_id query_param_in);
    OrderSourceEq (STORE_ORDER_code env) ]
  ++ when (nonempty_str (QueryParamIn.order_num_or_user query_param_in))
       (fun s =>
          let keywords_search_ilike_str := fuzzy_search_string s esc in
          [ Or_ [ Ilike SaleOrder.order_number keywords_search_ilike_str (Some esc);
                  Ilike SaleOrder.member_name keywords_search_ilike_str (Some esc);
                  Ilike SaleOrder.member_phone keywords_search_ilike_str (Some esc);
                  ExistsItem
                    [ ItemIlike SaleOrderItem.goods_sale_name
                        keywords_search_ilike_str (Some esc);
                      ItemIlike SaleOrderItem.barcode
                        keywords_search_ilike_str (Some esc) ] ] ])
  ++ when (nonempty_list (QueryParamIn.store_ids query_param_in))
       (fun l => [StoreTeamInfoIdIn l])
  ++ when (nonempty_list (QueryParamIn.channel_ids query_param_in))
       (fun l => [ChannelIdIn l])
  ++ [ state_condition (QueryParamIn.states query_param_in) ]
  ++ when (nonempty_str (QueryParamIn.operater_name_or_phone query_param_in))
       (fun s =>
          [ Or_ [ Ilike SaleOrder.operater_name (percent_wrap s) None;
                  Ilike SaleOrder.operater_phone (percent_wrap s) None;
                  Ilike SaleOrder.shopping_guide_name (percent_wrap s) None ] ])
  ++ when (QueryParamIn.create_at_start query_param_in) (fun t => [CreatedAtGe t])
  ++ when (QueryParamIn.create_at_end query_param_in) (fun t => [CreatedAtLe t])
  ++ when (QueryParamIn.business_day_start query_param_in) (fun t => [BusinessDayGe t])
  ++ when (QueryParamIn.business_day_end query_param_in) (fun t => [BusinessDayLe t])
  ++ when (nonempty_list (QueryParamIn.payment_method query_param_in))
       (fun l => [ExistsPayment l]).

(** *** [get_amount_condition] *)

Definition amount_field_mapping : gmap string amount_field :=
  {[ "total_price" := total_origin_price_field;
     "discount_price" := discount_price_field;
     "receive_price" := payment_amount_field ]}.

Definition get_amount_condition (amount_filter : AmountFilter.t)
    : result (option condition) :=
  match amount_field_mapping !! AmountFilter.amount_type amount_filter with
  | None => Return None
  | Some field =>
      let field :=
        if String.eqb (AmountFilter.amount_type amount_filter) "receive_price"
        then success_payment_sum_subquery else field in
      let value := AmountFilter.value amount_filter in
      match AmountFilter.operator amount_filter with
      | Member op => Return (Some (AmountCompare field op value))
      | OtherCode _ => Raise KeyError
      end
  end.

(** *** [do_get_local_order_pc_list_info]: the conditions *)

Fixpoint amount_conditions (amount_filters : list AmountFilter.t)
    : result (list condition) :=
  match amount_filters with
  | [] => Return []
  | amount_filter :: rest =>
      condition ← get_amount_condition amount_filter;
      conditions ← amount_conditions rest;
      mret (match condition with
            | Some c => c :: conditions
            | None => conditions
            end)
  end.

Definition pc_conditions (query_param_in : QueryParamPCIn.t) : result (list condition) :=
  let esc := DEFAULT_ESCAPE_CHAR env in
  amounts ←
    match nonempty_list (QueryParamPCIn.amount_filter query_param_in) with
    | Some l => amount_conditions l
    | None => Return []
    end;
  mret
    ([ DisabledIsFalse;
       CompanyIdEq (QueryParamPCIn.company_id query_param_in);
       OrderSourceEq (STORE_ORDER_code env) ]
     ++ when (nonempty_list (QueryParamPCIn.store_ids query_param_in))
          (fun l => [StoreTeamInfoIdIn l])
     ++ when (nonempty_str (QueryParamPCIn.order_number query_param_in))
          (fun s => [Ilike SaleOrder.order_number (percent_wrap s) None])
     ++ when (nonempty_str (QueryParamPCIn.product_name query_param_in))
          (fun s =>
             let product_name_like_str := fuzzy_search_string s esc in
             [ ExistsItem
                 [ ItemIlike SaleOrderItem.goods_sale_name product_name_like_str (Some esc);
                   ItemIlike SaleOrderItem.barcode product_name_like_str (Some esc) ] ])
     ++ [ state_condition (QueryParamPCIn.states query_param_in) ]
     ++ amounts
     ++ when (nonempty_list (QueryParamPCIn.payment_method query_param_in))
          (fun l => [ExistsPayment l])
     ++ when (QueryParamPCIn.create_at_start query_param_in) (fun t => [CreatedAtGe t])
     ++ when (QueryParamPCIn.create_at_end query_param_in) (fun t => [CreatedAtLe t])
     ++ when (nonempty_list (QueryParamPCIn.channel_ids query_param_in))
          (fun l => [ChannelIdIn l])
     ++ when (nonempty_str (QueryParamPCIn.user_name_or_phone query_param_in))
          (fun s =>
             [ Or_ [ Ilike SaleOrder.member_name (percent_wrap s) None;
                     Ilike SaleOrder.member_phone (percent_wrap s) None ] ])
     ++ when (nonempty_str (QueryParamPCIn.operater_name_or_phone query_param_in))
          (fun s =>
             [ Or_ [ Ilike SaleOrder.operater_name (percent_wrap s) None;
                     Ilike SaleOrder.operater_phone (percent_wrap s) None ] ])
     ++ when (QueryParamPCIn.business_day_start query_param_in) (fun t => [BusinessDayGe t])
     ++ when (QueryParamPCIn.business_day_end query_param_in) (fun t => [BusinessDayLe t])).

End Dao.

(** ** Running the queries *)

(** The statements handed to [db_session.execute]. *)
Inductive statement : Type :=
| main_query
| count_query
| item_query
| order_query
| amount_count_query
| detail_query.

(** [LIMIT] and [OFFSET]: the engine rejects a negative value, and a value
    that is no 64-bit integer does not reach it. *)
Definition limit_offset {A : Type} (limit offset : Z) (rows : list A) : result (list A) :=
  if (limit <? 0) || (offset <? 0) || (2 ^ 63 <=? limit) || (2 ^ 63 <=? offset)
  then Raise DataError
  else Return (take (Z.to_nat limit) (drop (Z.to_nat offset) rows)).

Definition opt_str (s : option string) : value :=
  match s with Some x => VStr x | None => VNone end.

(** [concat(...)]: a NULL argument counts as the empty string. *)
Definition concat (l : list (option string)) : string :=
  fold_right (fun x acc => String.append (default "" x) acc) "" l.

Definition non_empty (s : option string) : bool :=
  match s with Some x => negb (String.eqb x "") | None => false end.

Definition member_name_phone (o : SaleOrder.t) : value :=
  if non_empty (SaleOrder.member_phone o) && non_empty (SaleOrder.member_name o)
  then VStr (concat [SaleOrder.member_name o; Some "("; SaleOrder.member_phone o; Some ")"])
  else if negb (non_empty (SaleOrder.member_name o)) then VStr "散客"
  else opt_str (SaleOrder.member_name o).

Definition price_display (prefix : string) (x : option Dec.dec) : value :=
  match x with
  | Some d => VStr (String.append prefix (numeric_to_string (sql_round2 d)))
  | None => VStr "-"
  end.

(** The joined rows of a payment aggregate: an order and a successful
    payment of it, for the orders that [keep] lets through. *)
Definition pay_success_rows (db : database) (keep : SaleOrder.t -> bool)
    : list (SaleOrder.t * SaleOrderPayment.t) :=
  flat_map
    (fun o =>
       if keep o then map (fun p => (o, p)) (success_payments db o) else [])
    (orders db).

(** [group_by(SaleOrder.id)] with [round(sum(cast(payment_amount, Numeric)), 2)]. *)
Definition pay_success_groups (db : database) (keep : SaleOrder.t -> bool)
    : list (Z * option Dec.dec) :=
  let rows := pay_success_rows db keep in
  map
    (fun i =>
       (i, sql_round2 <$>
             sql_sum (map (fun r => SaleOrderPayment.payment_amount (snd r))
                        (filter (fun r => SaleOrder.id (fst r) = i) rows))))
    (remove_dups (map (fun r => SaleOrder.id (fst r)) rows)).

(** The outer join of an order with a grouped aggregate, on the id. *)
Definition joined_amount (groups : list (Z * option Dec.dec)) (o : SaleOrder.t)
    : option Dec.dec :=
  match List.find (fun g => Z.eqb (fst g) (SaleOrder.id o)) groups with
  | Some (_, a) => a
  | None => None
  end.

(** [ORDER BY id] of the item query. *)
Definition item_id_le (a b : SaleOrderItem.t) : Prop :=
  SaleOrderItem.id a ≤ SaleOrderItem.id b.

#[global] Instance item_id_le_dec : RelDecision item_id_le.
Proof. intros a b. unfold item_id_le. apply _. Defined.

Section Execution.

Context (env : environment).

(** [sale_order_state_trans]: the CASE over the members of
    [OrderStateEnum], as a value of each order row. *)
Definition sale_order_state_trans (exclude_state : list Z) (o : SaleOrder.t) : string :=
  match List.find (fun m => bool_decide (SaleOrder.state o = Some (fst m)))
          (filter (fun m => fst m ∉ exclude_state) (OrderStateEnum env)) with
  | Some (_, description) => description
  | None => "未知状态"
  end.

(** The [receive_price] column of the two list projections. *)
Definition receive_price_case (state_name : string) (success_pay_amount : option Dec.dec)
    : value :=
  if bool_decide (state_name ∈ ["已创建"; "待支付"]) then VStr "-"
  else match success_pay_amount with
       | Some a => VStr (numeric_to_string a)
       | None => VStr "-"
       end.

(** [payment_methods_subquery], joined on the record id of the order. *)
Definition pay_channel (db : database) (keep : SaleOrderPayment.t -> bool)
    (o : SaleOrder.t) : value :=
  let rows := filter (fun p => SaleOrderPayment.order_id p = SaleOrder.record_id o
                               ∧ keep p = true) (payments db) in
  match rows, omap SaleOrderPayment.payment_method_name rows with
  | [], _ | _, [] => VNone
  | _, names => VStr (string_agg_distinct env names)
  end.

(** One row of the main query of the list projections. *)
Definition list_record (db : database) (groups : list (Z * option Dec.dec))
    (keep : SaleOrderPayment.t -> bool) (o : SaleOrder.t) : list (string * value) :=
  let state_case := sale_order_state_trans [] o in
  [ ("id", VInt (SaleOrder.id o));
    ("order_number", opt_str (SaleOrder.order_number o));
    ("store_name", opt_str (SaleOrder.store_name o));
    ("channel_name", opt_str (SaleOrder.channel_name o));
    ("store_channel_name",
     VStr (concat [SaleOrder.store_name o; Some " - "; SaleOrder.channel_name o]));
    ("member_name_phone", member_name_phone o);
    ("create_at", opt_str (to_char env <$> SaleOrder.create_at o));
    ("total_origin_price", price_display "" (SaleOrder.total_origin_price o));
    ("discount_price", price_display "" (SaleOrder.discount_price o));
    ("receive_price", receive_price_case state_case (joined_amount groups o));
    ("state_name", VStr state_case);
    ("operater_name_phone",
     match SaleOrder.operater_name o with Some n => VStr n | None => VStr "-" end);
    ("pay_channel", pay_channel db keep o) ].

(** *** Item enrichment *)

Definition item_row (i : SaleOrderItem.t) : value :=
  VDict ([ ("order_number", opt_str (SaleOrderItem.order_number i));
           ("goods_sale_name", opt_str (SaleOrderItem.goods_sale_name i));
           ("barcode", opt_str (SaleOrderItem.barcode i));
           ("goods_custom_code", value_of_scalar (SaleOrderItem.goods_custom_code i));
           ("purchase_quantity", value_of_scalar (SaleOrderItem.purchase_quantity i)) ]
         ++ map (fun c => (fst c, value_of_scalar (snd c))) (SaleOrderItem.columns i)).

(** [get_order_items_by_order_number] followed by the [get] of one order
    number: the rows of the item query, by id, that carry that number. *)
Definition order_items_of (db : database) (order_number_list : list (option string))
    (order_number : option string) : list SaleOrderItem.t :=
  match order_number with
  | None => []
  | Some n =>
      filter (fun i => SaleOrderItem.order_number i = Some n
                       ∧ Some n ∈ order_number_list
                       ∧ SaleOrderItem.disabled i = Some false)
        (merge_sort item_id_le (items db))
  end.

(** The loop that adds [goods_info] and [total_purchase_quantity]. *)
Definition enrich (db : database) (order_number_list : list (option string))
    (o : SaleOrder.t) (r : list (string * value)) : result (list (string * value)) :=
  let order_items := order_items_of db order_number_list (SaleOrder.order_number o) in
  total_purchase_quantity ← get_total_purchase_quantity order_items;
  mret (r ++ [ ("goods_info", VList (map item_row order_items));
               ("total_purchase_quantity",
                format_number_to_display env total_purchase_quantity) ]).

Fixpoint enrich_all (db : database) (order_number_list : list (option string))
    (rows : list SaleOrder.t) (project : SaleOrder.t -> list (string * value))
    : result (list value) :=
  match rows with
  | [] => Return []
  | o :: rest =>
      r ← enrich db order_number_list o (project o);
      rs ← enrich_all db order_number_list rest project;
      mret (VDict r :: rs)
  end.

Definition item_statements (order_number_list : list (option string)) : list statement :=
  match order_number_list with
  | [] => []
  | _ => [item_query]
  end.

End Execution.

Section Operations.

Context (env : environment).

(** The outer join with the discount rows that are not disabled: an order
    with [n] of them comes [max 1 n] times. *)
Definition discount_join (db : database) (o : SaleOrder.t) : list SaleOrder.t :=
  replicate
    (Nat.max 1
       (length (filter (fun d => SaleOrderDiscount.order_id d = SaleOrder.record_id o
                                 ∧ SaleOrderDiscount.disabled d = Some false)
                  (discounts db))))
    o.

(** [group_by(SaleOrder.id, ...)]: the id is the primary key of the order
    table, so a group holds the copies of one order row. *)
Definition group_by_order (rows : list SaleOrder.t) : list SaleOrder.t :=
  remove_dups rows.

(** *** [do_get_local_order_list_info] *)

Definition list_base_ids (db : database) (q : QueryParamIn.t) : list Z :=
  map SaleOrder.id (filter (fun o => where_ db (list_conditions env q) o = true) (orders db)).

Definition list_in_base (db : database) (q : QueryParamIn.t) (o : SaleOrder.t) : bool :=
  is_false (SaleOrder.disabled o) && bool_decide (SaleOrder.id o ∈ list_base_ids db q).

(** The main query without its LIMIT and OFFSET. *)
Definition list_main_rows (db : database) (q : QueryParamIn.t) : list SaleOrder.t :=
  order_by env db (mkOrdering by_created_at true)
    (group_by_order
       (flat_map (discount_join db)
          (filter (fun o => list_in_base db q o = true) (orders db)))).

Definition list_count (db : database) (q : QueryParamIn.t) : Z :=
  Z.of_nat (length (filter (fun o => SaleOrder.id o ∈ list_base_ids db q) (orders db))).

Definition list_projection (db : database) (q : QueryParamIn.t) (o : SaleOrder.t)
    : list (string * value) :=
  list_record env db (pay_success_groups db (list_in_base db q)) (fun _ => true) o.

Definition do_get_local_order_list_info (db : database) (query_param_in : QueryParamIn.t)
    : result (value * list statement) :=
  let offset_count :=
    QueryParamIn.page_size query_param_in * (QueryParamIn.page_number query_param_in - 1) in
  rows ← limit_offset (QueryParamIn.page_size query_param_in) offset_count
           (list_main_rows db query_param_in);
  let count_result := list_count db query_param_in in
  let order_numbers := map SaleOrder.order_number rows in
  records ← enrich_all env db order_numbers rows (list_projection db query_param_in);
  mret (VDict [ ("records_list", VList records); ("all_count", VInt count_result) ],
        ([main_query; count_query] ++ item_statements order_numbers)).

(** *** [do_get_local_order_pc_list_info] *)

Definition direction (s : string) : bool := String.eqb s "descend".

Definition pc_ordering (q : QueryParamPCIn.t) : ordering :=
  match nonempty_str (QueryParamPCIn.receive_price q) with
  | Some s => mkOrdering by_success_pay_amount (direction s)
  | None =>
      match nonempty_str (QueryParamPCIn.total_origin_price q) with
      | Some s => mkOrdering by_total_origin_price (direction s)
      | None =>
          match nonempty_str (QueryParamPCIn.discount_price q) with
          | Some s => mkOrdering by_discount_price (direction s)
          | None => mkOrdering by_created_at true
          end
      end
  end.

(** The rows of [base_query] in the order of [order_query], without its
    LIMIT and OFFSET.  [order_query] selects from the CTE [base_order]
    alone.  The branch of [receive_price] joins the payment aggregate that
    it orders by; the other three branches order by a column of
    [SaleOrder], a table that the statement does not select from, and the
    engine rejects the statement. *)
Definition pc_ordered_rows (db : database) (q : QueryParamPCIn.t)
    (conditions : list condition) : result (list SaleOrder.t) :=
  match column (pc_ordering q) with
  | by_success_pay_amount =>
      Return (order_by env db (pc_ordering q)
                (filter (fun o => where_ db conditions o = true) (orders db)))
  | _ => Raise ProgrammingError
  end.

(** [order_query] with its LIMIT and OFFSET: the rows of the page of ids. *)
Definition pc_id_rows (db : database) (q : QueryParamPCIn.t)
    (conditions : list condition) : result (list SaleOrder.t) :=
  let offset_count := QueryParamPCIn.page_size q * (QueryParamPCIn.page_number q - 1) in
  rows ← pc_ordered_rows db q conditions;
  limit_offset (QueryParamPCIn.page_size q) offset_count rows.

(** [dict(row)] on a row of a result, given as the mapping of its labels:
    a row that is read as a sequence of values is no sequence of pairs. *)
Definition dict_of_row (row : value) : result value :=
  if row_as_mapping env then Return row else Raise TypeError.

Definition coalesce0 (x : option Dec.dec) : value :=
  VDecimal (Dec.Finite (default (Dec.mkDec 0 0) x)).

(** [amount_count_query]: the totals over all the rows of [base_query]. *)
Definition amount_data (db : database) (conditions : list condition) : value :=
  let base_ids :=
    map SaleOrder.id (filter (fun o => where_ db conditions o = true) (orders db)) in
  let in_base := fun o => bool_decide (SaleOrder.id o ∈ base_ids) in
  let pay_amount_sub := pay_success_groups db in_base in
  let rows := filter (fun o => in_base o = true) (orders db) in
  VDict
    [ ("total_price",
       coalesce0 (sql_round2 <$> sql_sum (map SaleOrder.total_origin_price rows)));
      ("total_discount_price",
       coalesce0 (sql_round2 <$> sql_sum (map SaleOrder.discount_price rows)));
      ("total_receive_price",
       coalesce0 (sql_round2 <$> sql_sum (map (joined_amount pay_amount_sub) rows)));
      ("total_count", VInt (Z.of_nat (length rows))) ].

Definition pc_projection (db : database) (order_ids : list Z) (o : SaleOrder.t)
    : list (string * value) :=
  list_record env db
    (pay_success_groups db (fun o => bool_decide (SaleOrder.id o ∈ order_ids)))
    (fun p => bool_decide (SaleOrderPayment.order_id p ∈ order_ids)) o.

Definition do_get_local_order_pc_list_info (db : database) (query_param_in : QueryParamPCIn.t)
    : result (value * list statement) :=
  conditions ← pc_conditions env query_param_in;
  id_rows ← pc_id_rows db query_param_in conditions;
  let order_ids := map SaleOrder.id id_rows in
  let order_numbers := map SaleOrder.order_number id_rows in
  match order_ids with
  | [] =>
      Return
        (VDict [ ("records_list", VList []);
                 ("amount_data",
                  VDict [ ("total_price", VInt 0);
                          ("total_discount_price", VInt 0);
                          ("total_receive_price", VInt 0);
                          ("total_count", VInt 0) ]) ],
         [order_query])
  | _ =>
      let rows := filter (fun o => SaleOrder.id o ∈ order_ids) (orders db) in
      records ← enrich_all env db order_numbers rows (pc_projection db order_ids);
      amount_row ← dict_of_row (amount_data db conditions);
      mret (VDict [ ("records_list", VList records);
                    ("amount_data", amount_row) ],
            ([order_query; main_query] ++ item_statements order_numbers
             ++ [amount_count_query]))
  end.

(** *** [do_get_local_order_detail_info] *)

Definition detail_where (record_id company_id : Z) (o : SaleOrder.t) : bool :=
  is_false (SaleOrder.disabled o)
  && bool_decide (SaleOrder.company_id o = Some company_id)
  && bool_decide (SaleOrder.id o = record_id).

(** [refund_query]: the successful refund payments of the returns of the order. *)
Definition refund_amounts (db : database) (o : SaleOrder.t) : list Dec.dec :=
  flat_map
    (fun r =>
       if bool_decide (SaleOrderReturn.order_id r = SaleOrder.record_id o) then
         map (fun rp => default (Dec.mkDec 0 0)
                          (SaleOrderRefundPayment.refund_payment_amount rp))
           (filter (fun rp => SaleOrderRefundPayment.order_refund_id rp
                              = SaleOrderReturn.record_id r
                              ∧ SaleOrderRefundPayment.is_refund_success rp = Some true)
              (refund_payments db))
       else [])
    (refunds db).

Definition detail_record (db : database) (record_id company_id : Z) (o : SaleOrder.t)
    : list (string * value) :=
  let state_case := sale_order_state_trans env [] o in
  let paid := map snd (filter (fun r => SaleOrder.id (fst r) = SaleOrder.id o)
                         (pay_success_rows db (detail_where record_id company_id))) in
  let total_payment_amount := sql_sum (map SaleOrderPayment.payment_amount paid) in
  [ ("id", VInt (SaleOrder.id o));
    ("order_number", opt_str (SaleOrder.order_number o));
    ("remark", opt_str (SaleOrder.remark o));
    ("channel_name",
     match SaleOrder.channel_name o with Some c => VStr c | None => VStr "--" end);
    ("store_name", opt_str (SaleOrder.store_name o));
    ("store_channel_name",
     VStr (concat [SaleOrder.store_name o; Some " - "; SaleOrder.channel_name o]));
    ("state_name", VStr state_case);
    ("member_name_phone", member_name_phone o);
    ("create_at", opt_str (to_char env <$> SaleOrder.create_at o));
    ("operater_name_phone",
     match SaleOrder.operater_name o, SaleOrder.operater_phone o with
     | Some n, Some p => VStr (concat [Some n; Some "("; Some p; Some ")"])
     | Some n, None => VStr n
     | None, _ => VStr "-"
     end);
    ("paid_at", VStr (default "-" (to_char env <$> SaleOrder.paid_at o)));
    ("total_origin_price", price_display "¥" (SaleOrder.total_origin_price o));
    ("discount_price", price_display "¥" (SaleOrder.discount_price o));
    ("pay_channel",
     match paid with [] => VNone | _ => array_agg_payment_info env paid end);
    ("actually_refund_amount_all",
     match refund_amounts db o with
     | [] => VStr "0.00"
     | l => VStr (numeric_to_string
                    (sql_round2 (fold_left Dec.add_exact l (Dec.mkDec 0 0))))
     end);
    ("shopping_guide_name", opt_str (SaleOrder.shopping_guide_name o));
    ("receive_price",
     if bool_decide (state_case ∈ ["已创建"; "待支付"]) then VStr "-"
     else price_display "¥" total_payment_amount) ].

Definition do_get_local_order_detail_info (db : database) (record_id company_id : Z)
    : value * list statement :=
  let rows :=
    group_by_order
      (flat_map (discount_join db)
         (filter (fun o => detail_where record_id company_id o = true) (orders db))) in
  (match rows with
   | [] => VNone
   | record :: _ => VDict (detail_record db record_id company_id record)
   end,
   [detail_query]).

End Operations.

(** ** Sample data *)

Module Sample.

Definition env : environment :=
  {| OrderStateEnum := [ (1, "已创建"); (2, "待支付"); (4, "已支付"); (5, "已完成") ];
     STORE_ORDER_code := 1;
     DEFAULT_ESCAPE_CHAR := "/"%char;
     to_char := Z_to_string;
     string_agg_distinct := fun names => String.concat "、" (remove_dups names);
     array_agg_payment_info :=
       fun ps => VList (map (fun p => opt_str (SaleOrderPayment.payment_method_name p)) ps);
     format_number_to_display := VDecimal;
     order_by := fun _ _ rows => rows;
     row_as_mapping := true |}.

Definition order (id state : Z) (operater_name : string) : SaleOrder.t :=
  {| SaleOrder.id := id;
     SaleOrder.record_id := 100 + id;
     SaleOrder.disabled := Some false;
     SaleOrder.company_id := Some 7;
     SaleOrder.order_source := Some 1;
     SaleOrder.order_number := Some (String.append "SO" (Z_to_string id));
     SaleOrder.store_name := Some "Store";
     SaleOrder.channel_name := Some "POS";
     SaleOrder.member_name := None;
     SaleOrder.member_phone := None;
     SaleOrder.store_team_info_id := Some 3;
     SaleOrder.channel_id := Some 9;
     SaleOrder.state := Some state;
     SaleOrder.operater_name := Some operater_name;
     SaleOrder.operater_phone := None;
     SaleOrder.shopping_guide_name := None;
     SaleOrder.created_at := Some (1000 + id);
     SaleOrder.create_at := Some (1000 + id);
     SaleOrder.paid_at := None;
     SaleOrder.business_day := Some 20;
     SaleOrder.total_origin_price := Some (Dec.mkDec 5000 (-2));
     SaleOrder.discount_price := None;
     SaleOrder.remark := None |}.

Definition payment (order_id : Z) (amount : Dec.dec) (success : option bool)
    : SaleOrderPayment.t :=
  {| SaleOrderPayment.order_id := order_id;
     SaleOrderPayment.company_id := Some 7;
     SaleOrderPayment.payment_method_id := Some 1;
     SaleOrderPayment.payment_method_name := Some "cash";
     SaleOrderPayment.payment_amount := Some amount;
     SaleOrderPayment.is_pay_success := success;
     SaleOrderPayment.sort := Some 1 |}.

Definition item (id order_id : Z) (order_number : string) (quantity : scalar)
    : SaleOrderItem.t :=
  {| SaleOrderItem.id := id;
     SaleOrderItem.order_id := order_id;
     SaleOrderItem.order_number := Some order_number;
     SaleOrderItem.disabled := Some false;
     SaleOrderItem.goods_sale_name := Some "tea";
     SaleOrderItem.barcode := Some "690";
     SaleOrderItem.goods_custom_code := SNone;
     SaleOrderItem.purchase_quantity := quantity;
     SaleOrderItem.columns := [] |}.

(** Order 1 awaits payment and has a successful payment row of 50.00;
    order 2 is paid by 12.345 and 7.655; order 3 has no payment. *)
Definition db : database :=
  {| orders := [ order 1 2 "Zhang"; order 2 4 "Li"; order 3 5 "Wang" ];
     payments := [ payment 101 (Dec.mkDec 5000 (-2)) (Some true);
                   payment 102 (Dec.mkDec 12345 (-3)) (Some true);
                   payment 102 (Dec.mkDec 7655 (-3)) (Some true);
                   payment 102 (Dec.mkDec 100 0) (Some false);
                   payment 103 (Dec.mkDec 100 0) None ];
     items := [ item 1 101 "SO1" (SStr "2"); item 2 102 "SO2" (SStr "1.5");
                item 3 102 "SO2" SNone ];
     discounts := [ SaleOrderDiscount.mk 102 (Some false);
                    SaleOrderDiscount.mk 102 (Some false) ];
     refunds := [];
     refund_payments := [] |}.

Definition query (states : option (list Z)) (operater : option string)
    (page_size page_number : Z) : QueryParamIn.t :=
  {| QueryParamIn.company_id := 7;
     QueryParamIn.order_num_or_user := None;
     QueryParamIn.store_ids := None;
     QueryParamIn.channel_ids := None;
     QueryParamIn.states := states;
     QueryParamIn.operater_name_or_phone := operater;
     QueryParamIn.create_at_start := None;
     QueryParamIn.create_at_end := None;
     QueryParamIn.business_day_start := None;
     QueryParamIn.business_day_end := None;
     QueryParamIn.payment_method := None;
     QueryParamIn.page_size := page_size;
     QueryParamIn.page_number := page_number |}.

Definition pc_query (states : option (list Z)) (amount_filter : option (list AmountFilter.t))
    (page_size page_number : Z) : QueryParamPCIn.t :=
  {| QueryParamPCIn.company_id := 7;
     QueryParamPCIn.store_ids := None;
     QueryParamPCIn.order_number := None;
     QueryParamPCIn.product_name := None;
     QueryParamPCIn.states := states;
     QueryParamPCIn.amount_filter := amount_filter;
     QueryParamPCIn.payment_method := None;
     QueryParamPCIn.create_at_start := None;
     QueryParamPCIn.create_at_end := None;
     QueryParamPCIn.channel_ids := None;
     QueryParamPCIn.user_name_or_phone := None;
     QueryParamPCIn.operater_name_or_phone := None;
     QueryParamPCIn.business_day_start := None;
     QueryParamPCIn.business_day_end := None;
     QueryParamPCIn.receive_price := None;
     QueryParamPCIn.total_origin_price := None;
     QueryParamPCIn.discount_price := None;
     QueryParamPCIn.page_size := page_size;
     QueryParamPCIn.page_number := page_number |}.

(** The same query, sorted by the received amount. *)
Definition pc_query_by_receive_price (direction : string) (states : option (list Z))
    (amount_filter : option (list AmountFilter.t)) (page_size page_number : Z)
    : QueryParamPCIn.t :=
  {| QueryParamPCIn.company_id := 7;
     QueryParamPCIn.store_ids := None;
     QueryParamPCIn.order_number := None;
     QueryParamPCIn.product_name := None;
     QueryParamPCIn.states := states;
     QueryParamPCIn.amount_filter := amount_filter;
     QueryParamPCIn.payment_method := None;
     QueryParamPCIn.create_at_start := None;
     QueryParamPCIn.create_at_end := None;
     QueryParamPCIn.channel_ids := None;
     QueryParamPCIn.user_name_or_phone := None;
     QueryParamPCIn.operater_name_or_phone := None;
     QueryParamPCIn.business_day_start := None;
     QueryParamPCIn.business_day_end := None;
     QueryParamPCIn.receive_price := Some direction;
     QueryParamPCIn.total_origin_price := None;
     QueryParamPCIn.discount_price := None;
     QueryParamPCIn.page_size := page_size;
     QueryParamPCIn.page_number := page_number |}.

End Sample.

(** ** Notions used in the statements *)

(** [d.get(key)] on a dictionary in insertion order. *)
Definition dict_get (key : string) (d : list (string * value)) : option value :=
  snd <$> List.find (fun kv => String.eqb (fst kv) key) d.

Definition keys (v : value) : list string :=
  match v with
  | VDict d => map fst d
  | _ => []
  end.

Definition is_state_condition (c : condition) : bool :=
  match c with
  | StateIn _ => true
  | _ => false
  end.

Definition set_amount_filter (q : QueryParamPCIn.t) (l : option (list AmountFilter.t))
    : QueryParamPCIn.t :=
  {| QueryParamPCIn.company_id := QueryParamPCIn.company_id q;
     QueryParamPCIn.store_ids := QueryParamPCIn.store_ids q;
     QueryParamPCIn.order_number := QueryParamPCIn.order_number q;
     QueryParamPCIn.product_name := QueryParamPCIn.product_name q;
     QueryParamPCIn.states := QueryParamPCIn.states q;
     QueryParamPCIn.amount_filter := l;
     QueryParamPCIn.payment_method := QueryParamPCIn.payment_method q;
     QueryParamPCIn.create_at_start := QueryParamPCIn.create_at_start q;
     QueryParamPCIn.create_at_end := QueryParamPCIn.create_at_end q;
     QueryParamPCIn.channel_ids := QueryParamPCIn.channel_ids q;
     QueryParamPCIn.user_name_or_phone := QueryParamPCIn.user_name_or_phone q;
     QueryParamPCIn.operater_name_or_phone := QueryParamPCIn.operater_name_or_phone q;
     QueryParamPCIn.business_day_start := QueryParamPCIn.business_day_start q;
     QueryParamPCIn.business_day_end := QueryParamPCIn.business_day_end q;
     QueryParamPCIn.receive_price := QueryParamPCIn.receive_price q;
     QueryParamPCIn.total_origin_price := QueryParamPCIn.total_origin_price q;
     QueryParamPCIn.discount_price := QueryParamPCIn.discount_price q;
     QueryParamPCIn.page_size := QueryParamPCIn.page_size q;
     QueryParamPCIn.page_number := QueryParamPCIn.page_number q |}.

(** The states that a list query asks for: the supplied ones, or the
    allow-list of active states when none is supplied. *)
Definition effective_states (states : option (list Z)) : list Z :=
  match states with
  | Some (s :: l) => s :: l
  | _ => [4; 5; 6; 8; 9; 10; 11]
  end.

(** The page of the list query and the page of ids of the PC list query:
    [s] rows after the first [s * (p - 1)]. *)
Definition page_of {A : Type} (page_size page_number : Z) (rows : list A) : list A :=
  take (Z.to_nat page_size) (drop (Z.to_nat (page_size * (page_number - 1))) rows).

(** A page that the engine can be asked for: the size and the offset are
    64-bit integers that are not negative, and pages are counted from 1. *)
Definition page_in_range (page_size page_number : Z) : Prop :=
  0 ≤ page_size < 2 ^ 63 ∧ 1 ≤ page_number ∧ page_size * (page_number - 1) < 2 ^ 63.

(** The recognised targets of an amount filter. *)
Definition amount_types : list string := ["total_price"; "discount_price"; "receive_price"].

(** The decimal numbers that the items of an order contribute: an item
    whose quantity is absent, empty or zero contributes nothing, any other
    quantity has to be a finite decimal number. *)
Fixpoint quantities (order_items : list SaleOrderItem.t) : option (list Dec.dec) :=
  match order_items with
  | [] => Some []
  | i :: rest =>
      qs ← quantities rest;
      if truthy (SaleOrderItem.purchase_quantity i) then
        match Decimal_of (SaleOrderItem.purchase_quantity i) with
        | Return (Dec.Finite q) => Some (q :: qs)
        | _ => None
        end
      else Some qs
  end.

Definition zero : Dec.dec := Dec.mkDec 0 0.

(** The sum of decimal numbers in exact arithmetic. *)
Definition exact_sum (qs : list Dec.dec) : Dec.dec := fold_left Dec.add_exact qs zero.

(** A decimal number that the arithmetic context holds without rounding:
    at most [prec] digits and an exponent within the limits. *)
Definition fits (d : Dec.dec) : Prop :=
  Dec.ndigits (Dec.coeff d) ≤ Dec.prec ∧ Dec.Etiny ≤ Dec.exp d ∧ Dec.exp d ≤ Dec.Etop.

(** The integer [d * 10 ^ (- e)], for an exponent [e] below that of [d]. *)
Definition scaled (e : Z) (d : Dec.dec) : Z := Dec.coeff d * 10 ^ (Dec.exp d - e).

(** The total of the quantities can be computed for every row of a page,
    from the items fetched for the order numbers of the page. *)
Definition enrichable (db : database) (order_numbers : list (option string))
    (rows : list SaleOrder.t) : Prop :=
  ∀ o, o ∈ rows →
    ∃ d, get_total_purchase_quantity
           (order_items_of db order_numbers (SaleOrder.order_number o))
         = Return d.

(** A record of the result is the projection of a row, followed by the
    fields of the item enrichment. *)
Definition record_of (project : SaleOrder.t -> list (string * value))
    (o : SaleOrder.t) (r : value) : Prop :=
  ∃ extra, r = VDict (project o ++ extra).

(** The states whose orders show no received amount. *)
Definition pending (state_name : string) : Prop :=
  state_name = "已创建" ∨ state_name = "待支付".

(** The received amount of an order: the rounded sum of the amounts of its
    successful payments, absent when there is none to add. *)
Definition received_amount (db : database) (o : SaleOrder.t) : option Dec.dec :=
  sql_round2 <$> sql_sum (map SaleOrderPayment.payment_amount (success_payments db o)).

(** ** Further operations of the class *)

(** [get_state_name]: the description of the member of [OrderStateEnum]
    with the value, the fixed label when there is none. *)
Definition get_state_name (env : environment) (state_value : Z) : string :=
  match List.find (fun m => Z.eqb (fst m) state_value) (OrderStateEnum env) with
  | Some (_, description) => description
  | None => "未知状态"
  end.

Definition opt_int (x : option Z) : value :=
  match x with Some z => VInt z | None => VNone end.

(** *** [do_get_order_pay_anomaly_info]

    The class of the payment table is not among the sources:
    [amount_column] is the value that a row gives for the stored payment
    amount. *)

(** The rows of the join: the matching order with each of its payments
    whose success flag is false. *)
Definition pay_anomaly_rows (db : database) (record_id company_id : Z)
    : list (SaleOrder.t * SaleOrderPayment.t) :=
  flat_map
    (fun o =>
       map (fun p => (o, p))
         (filter (fun p => SaleOrderPayment.order_id p = SaleOrder.record_id o
                           ∧ SaleOrderPayment.is_pay_success p = Some false)
            (payments db)))
    (filter (fun o => detail_where record_id company_id o = true) (orders db)).

Definition do_get_order_pay_anomaly_info (env : environment)
    (amount_column : option Dec.dec -> value) (db : database)
    (record_id company_id : Z) : list value :=
  map
    (fun r =>
       VDict [ ("payment_method_name",
                opt_str (SaleOrderPayment.payment_method_name (snd r)));
               ("payment_amount", amount_column (SaleOrderPayment.payment_amount (snd r)));
               ("state_name", VStr (sale_order_state_trans env [] (fst r))) ])
    (pay_anomaly_rows db record_id company_id).

(** *** [do_get_order_pay_anomaly_pc_info] and [do_get_pay_info] *)

(** The outer join of the matching order with its payments: an order
    without a payment comes once, with no payment. *)
Definition payment_outer_join (db : database) (record_id company_id : Z)
    : list (SaleOrder.t * option SaleOrderPayment.t) :=
  flat_map
    (fun o =>
       match filter (fun p => SaleOrderPayment.order_id p = SaleOrder.record_id o)
               (payments db) with
       | [] => [(o, None)]
       | ps => map (fun p => (o, Some p)) ps
       end)
    (filter (fun o => detail_where record_id company_id o = true) (orders db)).

Definition do_get_order_pay_anomaly_pc_info (env : environment) (db : database)
    (record_id company_id : Z) : list value :=
  map
    (fun r =>
       VDict [ ("payment_method_name",
                opt_str (snd r ≫= SaleOrderPayment.payment_method_name));
               ("payment_amount", VDecimal (Dec.Finite (Dec.mkDec 0 (-2))));
               ("state_name", VStr (sale_order_state_trans env [] (fst r))) ])
    (filter (fun r => snd r ≫= SaleOrderPayment.is_pay_success = Some false)
       (payment_outer_join db record_id company_id)).

Definition do_get_pay_info (env : environment)
    (amount_column : option Dec.dec -> value) (db : database)
    (record_id company_id : Z) : list value :=
  map
    (fun r =>
       VDict [ ("payment_method_name",
                opt_str (snd r ≫= SaleOrderPayment.payment_method_name));
               ("payment_amount",
                if bool_decide (snd r ≫= SaleOrderPayment.is_pay_success = Some false)
                then VStr "0.00"
                else amount_column (snd r ≫= SaleOrderPayment.payment_amount));
               ("state_name", VStr (sale_order_state_trans env [] (fst r))) ])
    (payment_outer_join db record_id company_id).

(** *** [do_get_order_discount_detail_price] and [do_get_order_discount_price_info] *)

(** The columns of a row of the discount table that the two discount
    queries read; they do not read [disabled]. *)
Module SaleOrderDiscountPrice.
Record t : Type := mk {
  order_id : Z;
  discount_source : option Z;
  discount_name : option string;
  discount_amount : option Dec.dec
}.
End SaleOrderDiscountPrice.

(** The discount rows joined to the matching order. *)
Definition discount_rows (db : database) (lines : list SaleOrderDiscountPrice.t)
    (record_id company_id : Z) : list SaleOrderDiscountPrice.t :=
  flat_map
    (fun o => filter (fun d => SaleOrderDiscountPrice.order_id d = SaleOrder.record_id o)
                lines)
    (filter (fun o => detail_where record_id company_id o = true) (orders db)).

(** The outer join of the matching order with the discount rows. *)
Definition discount_outer_join (db : database) (lines : list SaleOrderDiscountPrice.t)
    (record_id company_id : Z) : list (option SaleOrderDiscountPrice.t) :=
  flat_map
    (fun o =>
       match filter (fun d => SaleOrderDiscountPrice.order_id d = SaleOrder.record_id o)
               lines with
       | [] => [None]
       | ds => map Some ds
       end)
    (filter (fun o => detail_where record_id company_id o = true) (orders db)).

(** [discount_source == 1] and [discount_source != 1]. *)
Definition source_eq_1 (source : option Z) : option bool :=
  (fun s => s =? 1) <$> source.

Definition source_ne_1 (source : option Z) : option bool :=
  (fun s => negb (s =? 1)) <$> source.

(** [round(sum(cast(discount_amount, Numeric)), 2)] over the rows of a group. *)
Definition discount_sum (rows : list SaleOrderDiscountPrice.t) : option Dec.dec :=
  sql_round2 <$> sql_sum (map SaleOrderDiscountPrice.discount_amount rows).

(** The group of the system discounts, when it has a row: [group_by] of the
    one source that the condition lets through. *)
Definition system_discount (rows : list SaleOrderDiscountPrice.t)
    : list (option string * option Dec.dec) :=
  match filter (fun d => is_true (source_eq_1 (SaleOrderDiscountPrice.discount_source d))
                         = true) rows with
  | [] => []
  | group => [(Some "系统抹零", discount_sum group)]
  end.

(** The groups of the other discounts, by name.  The queries have no
    ORDER BY and the engine is free in the order of the groups: the model
    lists them by the first row of each. *)
Definition other_discount (rows : list SaleOrderDiscountPrice.t)
    : list (option string * option Dec.dec) :=
  let rows :=
    filter (fun d => is_true (source_ne_1 (SaleOrderDiscountPrice.discount_source d)) = true)
      rows in
  map
    (fun name =>
       (name,
        discount_sum (filter (fun d => SaleOrderDiscountPrice.discount_name d = name) rows)))
    (remove_dups (map SaleOrderDiscountPrice.discount_name rows)).

Definition do_get_order_discount_detail_price (db : database)
    (lines : list SaleOrderDiscountPrice.t) (record_id company_id : Z) : list value :=
  let rows := discount_rows db lines record_id company_id in
  map
    (fun g => VDict [ ("name", opt_str (fst g));
                      ("amount", opt_str (numeric_to_string <$> snd g)) ])
    (system_discount rows ++ other_discount rows).

(** The name that the PC query shows for a group of the other discounts. *)
Definition discount_display_name (name : option string) : option string :=
  if bool_decide (name = Some "单品改价") then Some "单品让价" else name.

Definition do_get_order_discount_price_info (db : database)
    (lines : list SaleOrderDiscountPrice.t) (record_id company_id : Z) : list value :=
  let joined := discount_outer_join db lines record_id company_id in
  let system_rows :=
    omap id
      (filter (fun r => is_true (source_eq_1 (r ≫= SaleOrderDiscountPrice.discount_source))
                        = true) joined) in
  let other_rows :=
    omap id
      (filter (fun r => is_true (source_ne_1 (r ≫= SaleOrderDiscountPrice.discount_source))
                        = true) joined) in
  map
    (fun g => VDict [ ("name", opt_str (fst g));
                      ("amount",
                       match snd g with
                       | Some a => VDecimal (Dec.Finite a)
                       | None => VNone
                       end) ])
    (system_discount system_rows
     ++ map (fun g => (discount_display_name (fst g), snd g)) (other_discount other_rows)).

(** *** [do_get_order_state_info] *)

Definition state_info_exclude : list Z := [0; 1; 2; 3; 7; 12; 13; 14; 15; 16; 17].

(** The states of the groups, in the order of [order_by(SaleOrder.state)]:
    the rows that are kept have a label, hence a state that is not NULL. *)
Definition state_info_states (env : environment) (db : database) (company_id : Z)
    : list Z :=
  merge_sort Z.le
    (remove_dups
       (omap SaleOrder.state
          (filter
             (fun o => SaleOrder.disabled o = Some false
                       ∧ SaleOrder.company_id o = Some company_id
                       ∧ sale_order_state_trans env state_info_exclude o ≠ "未知状态")
             (orders db)))).

(** The label of a group, read from a row of the state of the group. *)
Definition state_label (env : environment) (exclude_state : list Z) (state : Z) : string :=
  match List.find (fun m => Z.eqb (fst m) state)
          (filter (fun m => fst m ∉ exclude_state) (OrderStateEnum env)) with
  | Some (_, description) => description
  | None => "未知状态"
  end.

Definition do_get_order_state_info (env : environment) (db : database) (company_id : Z)
    : list value :=
  map
    (fun s =>
       let label := state_label env state_info_exclude s in
       VDict [ ("id", VInt s); ("value", VInt s);
               ("label", VStr label); ("name", VStr label) ])
    (state_info_states env db company_id).

(** *** [do_get_order_payment_method_info] *)

(** The distinct pairs of method id and method name of the company. *)
Definition payment_methods (db : database) (company_id : Z)
    : list (option Z * option string) :=
  remove_dups
    (map (fun p => (SaleOrderPayment.payment_method_id p,
                    SaleOrderPayment.payment_method_name p))
       (filter (fun p => SaleOrderPayment.company_id p = Some company_id) (payments db))).

Definition do_get_order_payment_method_info (db : database) (company_id : Z) : list value :=
  map
    (fun m =>
       VDict [ ("id", opt_int (fst m)); ("name", opt_str (snd m));
               ("label", opt_str (snd m)); ("value", opt_int (fst m)) ])
    (payment_methods db company_id).

(** ** Further notions used in the statements *)

(** The database with one more payment row. *)
Definition add_payment (db : database) (p : SaleOrderPayment.t) : database :=
  {| orders := orders db;
     payments := payments db ++ [p];
     items := items db;
     discounts := discounts db;
     refunds := refunds db;
     refund_payments := refund_payments db |}.

(** The database with other item rows. *)
Definition set_items (db : database) (l : list SaleOrderItem.t) : database :=
  {| orders := orders db;
     payments := payments db;
     items := l;
     discounts := discounts db;
     refunds := refunds db;
     refund_payments := refund_payments db |}.

(** The keys of a record of the list queries. *)
Definition list_record_keys : list string :=
  [ "id"; "order_number"; "store_name"; "channel_name"; "store_channel_name";
    "member_name_phone"; "create_at"; "total_origin_price"; "discount_price";
    "receive_price"; "state_name"; "operater_name_phone"; "pay_channel";
    "goods_info"; "total_purchase_quantity" ].

(** The records of a result of a list query. *)
Definition records_of (v : value) : list value :=
  match v with
  | VDict (("records_list", VList records) :: _) => records
  | _ => []
  end.

(** [ORDER BY] gives back the rows it is given, in some order. *)
Definition order_by_permutes (env : environment) : Prop :=
  ∀ db ordering rows, order_by env db ordering rows ≡ₚ rows.

(** What the three conditions at the head of both lists of conditions and
    the state condition say of a row. *)
Definition own_active_order (env : environment) (company_id : Z) (states : option (list Z))
    (o : SaleOrder.t) : Prop :=
  SaleOrder.disabled o = Some false
  ∧ SaleOrder.company_id o = Some company_id
  ∧ SaleOrder.order_source o = Some (STORE_ORDER_code env)
  ∧ ∃ s, SaleOrder.state o = Some s ∧ s ∈ effective_states states.

(** A record of a list query: the projection of the row, the items of its
    order number and their total quantity. *)
Definition enriched (env : environment) (db : database) (order_numbers : list (option string))
    (project : SaleOrder.t -> list (string * value)) (o : SaleOrder.t) (r : value) : Prop :=
  let order_items := order_items_of db order_numbers (SaleOrder.order_number o) in
  ∃ total,
    get_total_purchase_quantity order_items = Return total
    ∧ r = VDict (project o
                 ++ [ ("goods_info", VList (map item_row order_items));
                      ("total_purchase_quantity", format_number_to_display env total) ]).

(** * Properties *)

(** ** Refund aggregation status *)

(** C2: the code is 0 exactly when the refund id is not a key of the
    map, 1 exactly when it is a key with the value [None], 2 exactly when
    its value is [True] and 3 exactly when its value is [False]. *)
Theorem convert_aggregated_refund_result_code_spec
    (refund_id : Z) (m : gmap Z (option bool)) :
  let code := Refund.convert_aggregated_refund_result_code refund_id m in
  (code = 0 ↔ m !! refund_id = None)
  ∧ (code = 1 ↔ m !! refund_id = Some None)
  ∧ (code = 2 ↔ m !! refund_id = Some (Some true))
  ∧ (code = 3 ↔ m !! refund_id = Some (Some false)).
Proof.
  unfold Refund.convert_aggregated_refund_result_code.
  destruct (m !! refund_id) as [[[|]|]|]; simpl;
    repeat split; intros H; try discriminate H; try reflexivity.
Qed.

Example refund_pending_is_not_absent :
  Refund.convert_aggregated_refund_result_code 5 (<[5 := None]> ∅) = 1.
Proof. reflexivity. Qed.

(** ** Amount filters *)

Lemma amount_field_mapping_unknown (t : string) :
  t ∉ amount_types → amount_field_mapping !! t = None.
Proof.
  intros H. unfold amount_field_mapping, amount_types in *.
  set_unfold.
  rewrite !lookup_insert_ne by (intros <-; tauto).
  apply lookup_singleton_ne. intros <-. tauto.
Qed.

Lemma amount_field_mapping_known (t : string) :
  t ∈ amount_types → is_Some (amount_field_mapping !! t).
Proof.
  intros H. unfold amount_field_mapping, amount_types in *.
  set_unfold. destruct H as [-> | [-> | [-> | []]]]; eexists; reflexivity.
Qed.

Lemma amount_conditions_skip (l1 l2 : list AmountFilter.t) (f : AmountFilter.t) :
  get_amount_condition f = Return None →
  amount_conditions (l1 ++ f :: l2) = amount_conditions (l1 ++ l2).
Proof.
  intros Hf. induction l1 as [|g l1 IH]; simpl.
  - rewrite Hf. simpl. destruct (amount_conditions l2); reflexivity.
  - rewrite IH. reflexivity.
Qed.

(** C5: an amount filter whose [amount_type] is none of [total_price],
    [discount_price] and [receive_price] gives no predicate, and the PC
    list query builds the same conditions with it as without it. *)
Theorem unknown_amount_type_contributes_nothing
    (env : environment) (f : AmountFilter.t) (q : QueryParamPCIn.t)
    (l1 l2 : list AmountFilter.t)
    (Htype : AmountFilter.amount_type f ∉ amount_types)
    (Hq : QueryParamPCIn.amount_filter q = Some (l1 ++ f :: l2)) :
  get_amount_condition f = Return None
  ∧ pc_conditions env q = pc_conditions env (set_amount_filter q (Some (l1 ++ l2))).
Proof.
  assert (Hf : get_amount_condition f = Return None).
  { unfold get_amount_condition.
    rewrite (amount_field_mapping_unknown _ Htype). reflexivity. }
  split; [exact Hf|].
  unfold pc_conditions. simpl. rewrite Hq.
  assert (Hl : nonempty_list (Some (l1 ++ f :: l2)) = Some (l1 ++ f :: l2))
    by (destruct l1; reflexivity).
  rewrite Hl, (amount_conditions_skip l1 l2 f Hf).
  destruct (l1 ++ l2) as [|g l] eqn:E; reflexivity.
Qed.

Lemma unknown_amount_type_contributes_nothing_witness :
  let f := AmountFilter.mk "tax" (Member GT) (Dec.mkDec 10 0) in
  let g := AmountFilter.mk "total_price" (Member GTE) (Dec.mkDec 10 0) in
  let q := Sample.pc_query None (Some [g; f]) 10 1 in
  get_amount_condition f = Return None
  ∧ pc_conditions Sample.env q
    = pc_conditions Sample.env (set_amount_filter q (Some [g])).
Proof.
  intros f g q.
  apply (unknown_amount_type_contributes_nothing Sample.env f q [g] []).
  - unfold amount_types. simpl. set_unfold. intros [H | [H | [H | []]]]; discriminate H.
  - reflexivity.
Defined.

Lemma amount_conditions_raise (l : list AmountFilter.t) (e : exn) :
  amount_conditions l = Raise e → e = KeyError.
Proof.
  induction l as [|g l IH]; simpl; [discriminate|].
  unfold get_amount_condition at 1.
  destruct (amount_field_mapping !! AmountFilter.amount_type g); simpl.
  - destruct (AmountFilter.operator g); simpl.
    + destruct (amount_conditions l); simpl; [discriminate|].
      intros [= <-]. apply IH. reflexivity.
    + intros [= <-]. reflexivity.
  - destruct (amount_conditions l); simpl; [discriminate|].
    intros [= <-]. apply IH. reflexivity.
Qed.

Lemma amount_conditions_raise_elem (l : list AmountFilter.t) (f : AmountFilter.t) :
  f ∈ l → get_amount_condition f = Raise KeyError →
  amount_conditions l = Raise KeyError.
Proof.
  intros Hin Hf. induction l as [|g l IH]; [set_solver|].
  destruct (amount_conditions (g :: l)) as [cs|e] eqn:E.
  - exfalso. simpl in E. set_unfold. destruct Hin as [-> | Hin].
    + rewrite Hf in E. discriminate E.
    + rewrite (IH Hin) in E. destruct (get_amount_condition g); discriminate E.
  - f_equal. eapply amount_conditions_raise. exact E.
Qed.

(** C6: an amount filter with a recognised [amount_type] and an operator
    outside the six comparison operators makes [get_amount_condition]
    raise [KeyError], and with it the building of the PC list query. *)
Theorem unknown_operator_fails_fast
    (env : environment) (f : AmountFilter.t) (code : string)
    (q : QueryParamPCIn.t) (l : list AmountFilter.t)
    (Htype : AmountFilter.amount_type f ∈ amount_types)
    (Hop : AmountFilter.operator f = OtherCode code)
    (Hq : QueryParamPCIn.amount_filter q = Some l)
    (Hin : f ∈ l) :
  get_amount_condition f = Raise KeyError
  ∧ pc_conditions env q = Raise KeyError.
Proof.
  assert (Hf : get_amount_condition f = Raise KeyError).
  { unfold get_amount_condition.
    destruct (amount_field_mapping_known _ Htype) as [field ->].
    rewrite Hop. reflexivity. }
  split; [exact Hf|].
  unfold pc_conditions. rewrite Hq.
  assert (Hl : nonempty_list (Some l) = Some l)
    by (destruct l; [set_solver | reflexivity]).
  rewrite Hl, (amount_conditions_raise_elem l f Hin Hf). reflexivity.
Qed.

Lemma unknown_operator_fails_fast_witness :
  let f := AmountFilter.mk "receive_price" (OtherCode "~") (Dec.mkDec 10 0) in
  let q := Sample.pc_query None (Some [f]) 10 1 in
  get_amount_condition f = Raise KeyError
  ∧ pc_conditions Sample.env q = Raise KeyError.
Proof.
  intros f q.
  apply (unknown_operator_fails_fast Sample.env f "~" q [f]).
  - unfold amount_types. simpl. set_solver.
  - reflexivity.
  - reflexivity.
  - set_solver.
Defined.

(** ** The default state filter *)

Lemma state_condition_effective (states : option (list Z)) :
  state_condition states = StateIn (effective_states states).
Proof. destruct states as [[|s l]|]; reflexivity. Qed.

Lemma filter_state_when {A : Type} (x : option A) (f : A -> list condition) :
  (∀ a, filter (fun c => is_state_condition c = true) (f a) = []) →
  filter (fun c => is_state_condition c = true) (when x f) = [].
Proof. intros H. destruct x; simpl; [apply H | reflexivity]. Qed.

Lemma amount_conditions_no_state (l : list AmountFilter.t) (cs : list condition) :
  amount_conditions l = Return cs →
  filter (fun c => is_state_condition c = true) cs = [].
Proof.
  revert cs. induction l as [|g l IH]; simpl; intros cs.
  - intros [= <-]. reflexivity.
  - unfold get_amount_condition at 1.
    destruct (amount_field_mapping !! AmountFilter.amount_type g); simpl.
    + destruct (AmountFilter.operator g); simpl; [|discriminate].
      destruct (amount_conditions l); simpl; [|discriminate].
      intros [= <-]. rewrite filter_cons. simpl.
      destruct (decide (false = true)) as [E|_]; [discriminate E|]. apply IH. reflexivity.
    + destruct (amount_conditions l); simpl; [|discriminate].
      intros [= <-]. apply IH. reflexivity.
Qed.

Lemma amount_conditions_return (l : list AmountFilter.t) :
  (∀ f, f ∈ l → ∃ op, AmountFilter.operator f = Member op) →
  ∃ cs, amount_conditions l = Return cs.
Proof.
  induction l as [|g l IH]; intros H; simpl; [eexists; reflexivity|].
  destruct IH as [cs ->]; [intros f Hf; apply H; set_solver|].
  destruct (H g) as [op Hop]; [set_solver|].
  unfold get_amount_condition. rewrite Hop.
  destruct (amount_field_mapping !! AmountFilter.amount_type g); simpl;
    eexists; reflexivity.
Qed.

Ltac filter_state :=
  repeat first
    [ rewrite filter_app
    | rewrite filter_state_when by (intros; reflexivity)
    | rewrite filter_cons_False by (simpl; discriminate)
    | rewrite filter_cons_True by reflexivity
    | rewrite filter_nil ];
  try reflexivity.

(** C7: in both list queries the assembled conditions hold exactly one
    constraint on the order state: the supplied states when a non-empty
    list is supplied, the allow-list 4, 5, 6, 8, 9, 10, 11 when the
    parameter is absent or empty.  The conditions of the PC list query are
    assembled whenever every amount filter carries one of the six
    operators. *)
Theorem default_state_filter
    (env : environment) (q : QueryParamIn.t) (qpc : QueryParamPCIn.t) :
  (effective_states None = [4; 5; 6; 8; 9; 10; 11]
   ∧ effective_states (Some []) = [4; 5; 6; 8; 9; 10; 11]
   ∧ ∀ s l, effective_states (Some (s :: l)) = s :: l)
  ∧ filter (fun c => is_state_condition c = true) (list_conditions env q)
    = [StateIn (effective_states (QueryParamIn.states q))]
  ∧ (∀ cs, pc_conditions env qpc = Return cs →
       filter (fun c => is_state_condition c = true) cs
       = [StateIn (effective_states (QueryParamPCIn.states qpc))])
  ∧ ((∀ f, f ∈ default [] (QueryParamPCIn.amount_filter qpc) →
        ∃ op, AmountFilter.operator f = Member op) →
     ∃ cs, pc_conditions env qpc = Return cs).
Proof.
  split; [repeat split|]. split; [|split].
  - unfold list_conditions. rewrite state_condition_effective. filter_state.
  - intros cs. unfold pc_conditions.
    destruct (match nonempty_list (QueryParamPCIn.amount_filter qpc) with
              | Some l => amount_conditions l
              | None => Return []
              end) as [amounts|e] eqn:E; simpl; [|discriminate].
    intros [= <-].
    assert (Ha : filter (fun c => is_state_condition c = true) amounts = []).
    { destruct (nonempty_list (QueryParamPCIn.amount_filter qpc)).
      - eapply amount_conditions_no_state. exact E.
      - injection E as <-. reflexivity. }
    rewrite state_condition_effective. filter_state. rewrite Ha. filter_state.
  - intros H. unfold pc_conditions.
    destruct (QueryParamPCIn.amount_filter qpc) as [[|f l]|]; simpl;
      try (eexists; reflexivity).
    destruct (amount_conditions_return (f :: l) H) as [cs Hcs].
    simpl in Hcs. rewrite Hcs. simpl. eexists. reflexivity.
Qed.

(** ** Total purchased quantity *)

Ltac unfold_context :=
  unfold Dec.Etop, Dec.Etiny, Dec.Emax, Dec.Emin, Dec.prec in *.

Lemma fix_fits (d : Dec.dec) : fits d → Dec.fix_ d = Return d.
Proof.
  destruct d as [c e]. unfold fits, Dec.fix_, Dec.ndigits. simpl.
  rewrite Z.abs_idemp. intros (Hd & Hlo & Hhi).
  destruct (Z.abs c =? 0) eqn:Hc.
  - apply Z.eqb_eq in Hc. assert (c = 0) as -> by lia.
    f_equal. f_equal. unfold_context. lia.
  - set (n := Dec.ndigits_aux (Z.to_nat (Z.log2 (Z.abs c))) (Z.abs c)) in *.
    destruct (Dec.Etop <? n + e - Dec.prec) eqn:H1;
      [apply Z.ltb_lt in H1; unfold_context; lia|].
    destruct (n + e - Dec.prec <? Dec.Etiny) eqn:H2.
    + destruct (e <? Dec.Etiny) eqn:H3;
        [apply Z.ltb_lt in H3; unfold_context; lia | reflexivity].
    + destruct (e <? n + e - Dec.prec) eqn:H3;
        [apply Z.ltb_lt in H3; unfold_context; lia | reflexivity].
Qed.

Lemma accumulate_exact (order_items : list SaleOrderItem.t) :
  ∀ (qs : list Dec.dec) (acc : Dec.dec),
    quantities order_items = Some qs →
    (∀ n, fits (fold_left Dec.add_exact (take n qs) acc)) →
    accumulate_purchase_quantity (Dec.Finite acc) order_items
    = Return (Dec.Finite (fold_left Dec.add_exact qs acc)).
Proof.
  induction order_items as [|i rest IH]; intros qs acc Hq Hfit; simpl in *.
  - injection Hq as <-. reflexivity.
  - destruct (quantities rest) as [qs'|]; simpl in Hq; [|discriminate].
    destruct (truthy (SaleOrderItem.purchase_quantity i)).
    + destruct (Decimal_of (SaleOrderItem.purchase_quantity i)) as [[q| |]|];
        try discriminate.
      injection Hq as <-. simpl.
      rewrite (fix_fits (Dec.add_exact acc q)) by exact (Hfit 1%nat). simpl.
      apply IH; [reflexivity|]. intros n. exact (Hfit (S n)).
    + injection Hq as <-. apply IH; [reflexivity | exact Hfit].
Qed.

Lemma add_exact_scaled (e : Z) (a b : Dec.dec) :
  e ≤ Dec.exp a → e ≤ Dec.exp b →
  scaled e (Dec.add_exact a b) = scaled e a + scaled e b.
Proof.
  intros Ha Hb. unfold scaled, Dec.add_exact. simpl.
  set (m := Z.min (Dec.exp a) (Dec.exp b)).
  assert (Hm : e ≤ m) by (unfold m; lia).
  replace (Dec.exp a - e) with ((Dec.exp a - m) + (m - e)) by lia.
  replace (Dec.exp b - e) with ((Dec.exp b - m) + (m - e)) by lia.
  rewrite !Z.pow_add_r by (unfold m; lia). ring.
Qed.

Lemma fold_add_exact_scaled (e : Z) (qs : list Dec.dec) :
  ∀ acc, e ≤ Dec.exp acc → Forall (fun q => e ≤ Dec.exp q) qs →
    e ≤ Dec.exp (fold_left Dec.add_exact qs acc)
    ∧ scaled e (fold_left Dec.add_exact qs acc)
      = scaled e acc + foldr (fun q s => scaled e q + s) 0 qs.
Proof.
  induction qs as [|q qs IH]; intros acc Hacc Hqs; simpl.
  - split; [exact Hacc | lia].
  - inversion Hqs as [|? ? Hq Hqs']; subst.
    destruct (IH (Dec.add_exact acc q)) as [He Hs].
    + simpl. lia.
    + exact Hqs'.
    + split; [exact He|]. rewrite Hs, add_exact_scaled by assumption. lia.
Qed.

(** C9, as the code has it: the total of an empty list is zero; for items
    whose quantities are absent or finite decimal numbers, and whose
    running totals the decimal context holds without rounding (28 digits),
    the result is the exact sum of the quantities, which no binary
    floating point enters. *)
Theorem get_total_purchase_quantity_exact
    (order_items : list SaleOrderItem.t) (qs : list Dec.dec)
    (Hq : quantities order_items = Some qs)
    (Hfit : ∀ n, fits (exact_sum (take n qs))) :
  get_total_purchase_quantity [] = Return (Dec.Finite zero)
  ∧ get_total_purchase_quantity order_items = Return (Dec.Finite (exact_sum qs))
  ∧ ∀ e, e ≤ 0 → Forall (fun q => e ≤ Dec.exp q) qs →
      scaled e (exact_sum qs) = foldr (fun q s => scaled e q + s) 0 qs.
Proof.
  split; [reflexivity|]. split.
  - unfold get_total_purchase_quantity.
    destruct order_items as [|i rest].
    + injection Hq as <-. reflexivity.
    + apply (accumulate_exact (i :: rest) qs (Dec.mkDec 0 0) Hq Hfit).
  - intros e He Hqs.
    destruct (fold_add_exact_scaled e qs zero) as [_ Hs]; [exact He | exact Hqs|].
    unfold exact_sum. rewrite Hs. reflexivity.
Qed.

Lemma get_total_purchase_quantity_exact_witness :
  let order_items :=
    [ Sample.item 1 102 "SO2" (SStr "12.345"); Sample.item 2 102 "SO2" SNone;
      Sample.item 3 102 "SO2" (SStr "7.655") ] in
  let qs := [ Dec.mkDec 12345 (-3); Dec.mkDec 7655 (-3) ] in
  get_total_purchase_quantity [] = Return (Dec.Finite zero)
  ∧ get_total_purchase_quantity order_items = Return (Dec.Finite (exact_sum qs))
  ∧ ∀ e, e ≤ 0 → Forall (fun q => e ≤ Dec.exp q) qs →
      scaled e (exact_sum qs) = foldr (fun q s => scaled e q + s) 0 qs.
Proof.
  intros order_items qs.
  apply (get_total_purchase_quantity_exact order_items qs).
  - reflexivity.
  - intros [|[|[|n]]]; vm_compute; repeat split; discriminate.
Defined.

(** C9, as stated, fails on a quantity of 29 digits: the addition to the
    zero total rounds it to 28 digits, and the result is not the sum. *)
Lemma get_total_purchase_quantity_rounds :
  let order_items := [ Sample.item 1 101 "SO1" (SStr "12345678901234567890123456789") ] in
  quantities order_items = Some [ Dec.mkDec 12345678901234567890123456789 0 ]
  ∧ get_total_purchase_quantity order_items
    = Return (Dec.Finite (Dec.mkDec 1234567890123456789012345679 1))
  ∧ dec_compare (Dec.mkDec 1234567890123456789012345679 1)
      (exact_sum [ Dec.mkDec 12345678901234567890123456789 0 ]) = Gt
  ∧ ¬ (∀ (items : list SaleOrderItem.t) (qs : list Dec.dec),
         quantities items = Some qs →
         get_total_purchase_quantity items = Return (Dec.Finite (exact_sum qs))).
Proof.
  intros order_items. split; [reflexivity|]. split; [vm_compute; reflexivity|].
  split; [reflexivity|].
  intros H.
  specialize (H order_items _ eq_refl). vm_compute in H. discriminate H.
Qed.

(** ** Text filters *)

(** C3 fails on the operator filter of the list query: the search text
    [%] is put into the pattern as it is, with no escape character, and
    matches an operator name that holds no [%]; the pattern that
    [fuzzy_search_string] builds for the same text, as the order number
    filter of the same query uses it, does not. *)
Theorem operator_filter_wildcard_unescaped :
  let q := Sample.query None (Some "%") 10 1 in
  let o := Sample.order 2 4 "Li" in
  let unescaped :=
    Or_ [ Ilike SaleOrder.operater_name "%%%" None;
          Ilike SaleOrder.operater_phone "%%%" None;
          Ilike SaleOrder.shopping_guide_name "%%%" None ] in
  unescaped ∈ list_conditions Sample.env q
  ∧ eval_condition Sample.db unescaped o = Some true
  ∧ fuzzy_search_string "%" "/" = "%/%%"
  ∧ eval_condition Sample.db
      (Ilike SaleOrder.operater_name (fuzzy_search_string "%" "/") (Some "/"%char)) o
    = Some false.
Proof.
  intros q o unescaped. split; [|repeat split; reflexivity].
  unfold list_conditions. simpl. set_solver.
Qed.

(** The same holds for the order number, member and operator filters of
    the PC list query. *)
Example pc_text_filters_unescaped :
  ∀ s : string, s ≠ "" →
    pc_conditions Sample.env
      {| QueryParamPCIn.company_id := 7;
         QueryParamPCIn.store_ids := None;
         QueryParamPCIn.order_number := Some s;
         QueryParamPCIn.product_name := Some s;
         QueryParamPCIn.states := None;
         QueryParamPCIn.amount_filter := None;
         QueryParamPCIn.payment_method := None;
         QueryParamPCIn.create_at_start := None;
         QueryParamPCIn.create_at_end := None;
         QueryParamPCIn.channel_ids := None;
         QueryParamPCIn.user_name_or_phone := Some s;
         QueryParamPCIn.operater_name_or_phone := Some s;
         QueryParamPCIn.business_day_start := None;
         QueryParamPCIn.business_day_end := None;
         QueryParamPCIn.receive_price := None;
         QueryParamPCIn.total_origin_price := None;
         QueryParamPCIn.discount_price := None;
         QueryParamPCIn.page_size := 10;
         QueryParamPCIn.page_number := 1 |}
    = Return
        [ DisabledIsFalse; CompanyIdEq 7; OrderSourceEq 1;
          Ilike SaleOrder.order_number (percent_wrap s) None;
          ExistsItem
            [ ItemIlike SaleOrderItem.goods_sale_name (fuzzy_search_string s "/")
                (Some "/"%char);
              ItemIlike SaleOrderItem.barcode (fuzzy_search_string s "/")
                (Some "/"%char) ];
          StateIn [4; 5; 6; 8; 9; 10; 11];
          Or_ [ Ilike SaleOrder.member_name (percent_wrap s) None;
                Ilike SaleOrder.member_phone (percent_wrap s) None ];
          Or_ [ Ilike SaleOrder.operater_name (percent_wrap s) None;
                Ilike SaleOrder.operater_phone (percent_wrap s) None ] ].
Proof.
  intros s Hs. unfold pc_conditions. simpl.
  destruct s as [|c s]; [contradiction|]. reflexivity.
Qed.

(** ** Received amount *)

Lemma find_group {B : Type} (f : Z -> B) (k : Z) (l : list Z) :
  List.find (fun g : Z * B => Z.eqb (fst g) k) (map (fun i => (i, f i)) l)
  = if bool_decide (k ∈ l) then Some (k, f k) else None.
Proof.
  induction l as [|i l IH]; simpl; [reflexivity|].
  destruct (Z.eqb_spec i k) as [->|Hne].
  - rewrite bool_decide_eq_true_2 by set_solver. reflexivity.
  - rewrite IH. apply (f_equal (fun b : bool => if b then Some (k, f k) else None)).
    apply bool_decide_ext. set_solver.
Qed.

Lemma rows_of_order (db : database) (keep : SaleOrder.t -> bool) (o : SaleOrder.t)
    (l : list SaleOrder.t) :
  NoDup (map SaleOrder.id l) → o ∈ l → keep o = true →
  filter (fun r : SaleOrder.t * SaleOrderPayment.t => SaleOrder.id (fst r) = SaleOrder.id o)
    (flat_map (fun o' => if keep o' then map (fun p => (o', p)) (success_payments db o')
                         else []) l)
  = map (fun p => (o, p)) (success_payments db o).
Proof.
  intros Hnd Hin Hkeep.
  assert (Hsame : ∀ (x : SaleOrder.t) ps,
             filter (fun r : SaleOrder.t * SaleOrderPayment.t =>
                       SaleOrder.id (fst r) = SaleOrder.id x)
               (map (fun p => (x, p)) ps) = map (fun p => (x, p)) ps).
  { intros x ps. induction ps as [|p ps IHp]; simpl; [reflexivity|].
    rewrite filter_cons_True by reflexivity. rewrite IHp. reflexivity. }
  assert (Hother : ∀ (x : SaleOrder.t) ps, SaleOrder.id x ≠ SaleOrder.id o →
             filter (fun r : SaleOrder.t * SaleOrderPayment.t =>
                       SaleOrder.id (fst r) = SaleOrder.id o)
               (map (fun p => (x, p)) ps) = []).
  { intros x ps Hx. induction ps as [|p ps IHp]; simpl; [reflexivity|].
    rewrite filter_cons_False by exact Hx. exact IHp. }
  assert (Hnone : ∀ l', SaleOrder.id o ∉ map SaleOrder.id l' →
             filter (fun r : SaleOrder.t * SaleOrderPayment.t =>
                       SaleOrder.id (fst r) = SaleOrder.id o)
               (flat_map (fun o' => if keep o' then map (fun p => (o', p))
                                                      (success_payments db o')
                                    else []) l') = []).
  { induction l' as [|x l' IHl]; intros Hx; simpl; [reflexivity|].
    rewrite filter_app, IHl by set_solver.
    destruct (keep x); [rewrite Hother by set_solver|]; reflexivity. }
  induction l as [|x l IH]; [set_solver|].
  simpl in *. apply NoDup_cons in Hnd as [Hx Hnd]. rewrite filter_app.
  apply elem_of_cons in Hin as [<-|Hin].
  - rewrite Hkeep, Hsame, Hnone by exact Hx. apply app_nil_r.
  - rewrite IH by assumption.
    assert (Hne : SaleOrder.id x ≠ SaleOrder.id o).
    { intros E. apply Hx. rewrite E. apply list_elem_of_fmap_2. exact Hin. }
    destruct (keep x); [rewrite Hother by exact Hne|]; reflexivity.
Qed.

Lemma joined_amount_received (db : database) (keep : SaleOrder.t -> bool)
    (o : SaleOrder.t) :
  NoDup (map SaleOrder.id (orders db)) → o ∈ orders db → keep o = true →
  joined_amount (pay_success_groups db keep) o = received_amount db o.
Proof.
  intros Hnd Hin Hkeep. unfold joined_amount, pay_success_groups, received_amount.
  rewrite (find_group
             (fun i => sql_round2 <$>
                sql_sum (map (fun r => SaleOrderPayment.payment_amount (snd r))
                           (filter (fun r : SaleOrder.t * SaleOrderPayment.t =>
                                      SaleOrder.id (fst r) = i)
                              (pay_success_rows db keep))))).
  unfold pay_success_rows.
  pose proof (rows_of_order db keep o (orders db) Hnd Hin Hkeep) as Hrows.
  case_bool_decide as Hmem.
  - rewrite Hrows, map_map. reflexivity.
  - destruct (success_payments db o) as [|p ps] eqn:E; [reflexivity|].
    exfalso. apply Hmem. rewrite elem_of_remove_dups.
    apply list_elem_of_fmap. exists (o, p). split; [reflexivity|].
    apply list_elem_of_In, in_flat_map. exists o.
    split; [apply list_elem_of_In; exact Hin|].
    rewrite Hkeep, E. left. reflexivity.
Qed.




Example receive_price_paid_order :
  received_amount Sample.db (Sample.order 1 2 "Zhang") = Some (Dec.mkDec 5000 (-2))
  ∧ dict_get "receive_price"
      (list_projection Sample.env Sample.db (Sample.query (Some [2; 4; 5]) None 10 1)
         (Sample.order 2 4 "Li"))
    = Some (VStr "20.00").
Proof. split; vm_compute; reflexivity. Qed.

(** ** Running the list queries *)

Lemma limit_offset_page {A : Type} (page_size page_number : Z) (rows : list A) :
  page_in_range page_size page_number →
  limit_offset page_size (page_size * (page_number - 1)) rows
  = Return (page_of page_size page_number rows).
Proof.
  intros (Hs & Hp & Ho). unfold limit_offset, page_of.
  destruct (page_size <? 0) eqn:E1; [apply Z.ltb_lt in E1; lia|].
  destruct (page_size * (page_number - 1) <? 0) eqn:E2; [apply Z.ltb_lt in E2; nia|].
  destruct (2 ^ 63 <=? page_size) eqn:E3; [apply Z.leb_le in E3; lia|].
  destruct (2 ^ 63 <=? page_size * (page_number - 1)) eqn:E4;
    [apply Z.leb_le in E4; lia|].
  reflexivity.
Qed.

Lemma enrich_all_records (env : environment) (db : database)
    (order_numbers : list (option string))
    (project : SaleOrder.t -> list (string * value)) (rows : list SaleOrder.t) :
  enrichable db order_numbers rows →
  ∃ records,
    enrich_all env db order_numbers rows project = Return records
    ∧ Forall2 (record_of project) rows records.
Proof.
  induction rows as [|o rows IH]; intros H; simpl.
  - exists []. split; [reflexivity | constructor].
  - destruct IH as (records & Hrec & Hall); [intros x Hx; apply H; set_solver|].
    destruct (H o) as [d Hd]; [set_solver|].
    unfold enrich. rewrite Hd. simpl. rewrite Hrec. simpl.
    eexists. split; [reflexivity|].
    constructor; [|exact Hall]. eexists. reflexivity.
Qed.

Lemma order_key_inj (l : list SaleOrder.t) (x y : SaleOrder.t) :
  NoDup (map SaleOrder.id l) → x ∈ l → y ∈ l → SaleOrder.id x = SaleOrder.id y → x = y.
Proof.
  induction l as [|z l IH]; intros Hnd Hx Hy E; [set_solver|].
  simpl in Hnd. apply NoDup_cons in Hnd as [Hz Hnd].
  apply elem_of_cons in Hx as [->|Hx]; apply elem_of_cons in Hy as [->|Hy].
  - reflexivity.
  - exfalso. apply Hz. rewrite E. apply list_elem_of_fmap_2. exact Hy.
  - exfalso. apply Hz. rewrite <- E. apply list_elem_of_fmap_2. exact Hx.
  - apply IH; assumption.
Qed.

Lemma filter_by_key (l : list SaleOrder.t) (P : SaleOrder.t -> Prop)
    `{!∀ o, Decision (P o)} :
  NoDup (map SaleOrder.id l) →
  filter (fun o => SaleOrder.id o ∈ map SaleOrder.id (filter P l)) l = filter P l.
Proof.
  intros Hkey.
  assert (Hgen : ∀ l', l' ⊆ l →
             filter (fun o => SaleOrder.id o ∈ map SaleOrder.id (filter P l)) l'
             = filter P l').
  { induction l' as [|x l' IHl]; intros Hsub; [reflexivity|].
    rewrite !filter_cons. rewrite IHl by set_solver.
    destruct (decide (P x)) as [HP|HP].
    - rewrite decide_True; [reflexivity|].
      apply list_elem_of_fmap. exists x. split; [reflexivity|].
      apply list_elem_of_filter. split; [exact HP | set_solver].
    - rewrite decide_False; [reflexivity|].
      intros Hin. apply list_elem_of_fmap in Hin as (y & Hid & Hy).
      apply list_elem_of_filter in Hy as [HPy Hy].
      assert (x = y); [|subst; contradiction].
      apply (order_key_inj l); [exact Hkey | set_solver | exact Hy | exact Hid]. }
  apply Hgen. reflexivity.
Qed.

Lemma list_count_base (env : environment) (db : database) (q : QueryParamIn.t) :
  NoDup (map SaleOrder.id (orders db)) →
  list_count env db q
  = Z.of_nat (length (filter (fun o => where_ db (list_conditions env q) o = true)
                        (orders db))).
Proof.
  intros Hkey. unfold list_count, list_base_ids.
  rewrite (filter_by_key (orders db) _ Hkey). reflexivity.
Qed.

Lemma list_run (env : environment) (db : database) (q : QueryParamIn.t) :
  let page := page_of (QueryParamIn.page_size q) (QueryParamIn.page_number q)
                (list_main_rows env db q) in
  page_in_range (QueryParamIn.page_size q) (QueryParamIn.page_number q) →
  enrichable db (map SaleOrder.order_number page) page →
  ∃ records,
    do_get_local_order_list_info env db q
    = Return (VDict [ ("records_list", VList records);
                      ("all_count", VInt (list_count env db q)) ],
              [main_query; count_query]
              ++ item_statements (map SaleOrder.order_number page))
    ∧ Forall2 (record_of (list_projection env db q)) page records.
Proof.
  intros page Hpage Hen. unfold do_get_local_order_list_info.
  rewrite (limit_offset_page _ _ _ Hpage). simpl. fold page.
  destruct (enrich_all_records env db _ (list_projection env db q) page Hen)
    as (records & Hrec & Hall).
  rewrite Hrec. simpl. exists records. split; [reflexivity | exact Hall].
Qed.

Lemma filter_no_ids (l : list SaleOrder.t) :
  filter (fun o => SaleOrder.id o ∈ @nil Z) l = [].
Proof.
  induction l as [|x l IHl]; [reflexivity|].
  rewrite filter_cons_False by apply not_elem_of_nil. exact IHl.
Qed.

Lemma pc_sorted_rows (env : environment) (db : database) (q : QueryParamPCIn.t)
    (conditions : list condition) (s : string) :
  nonempty_str (QueryParamPCIn.receive_price q) = Some s →
  pc_ordered_rows env db q conditions
  = Return (order_by env db (mkOrdering by_success_pay_amount (direction s))
              (filter (fun o => where_ db conditions o = true) (orders db))).
Proof. intros E. unfold pc_ordered_rows, pc_ordering. rewrite E. reflexivity. Qed.

(** Without a sort by the received amount the id query is rejected. *)
Lemma pc_unsorted_rows (env : environment) (db : database) (q : QueryParamPCIn.t)
    (conditions : list condition) :
  nonempty_str (QueryParamPCIn.receive_price q) = None →
  pc_ordered_rows env db q conditions = Raise ProgrammingError.
Proof.
  intros E. unfold pc_ordered_rows, pc_ordering. rewrite E.
  destruct (nonempty_str (QueryParamPCIn.total_origin_price q));
    [reflexivity|].
  destruct (nonempty_str (QueryParamPCIn.discount_price q)); reflexivity.
Qed.

Lemma pc_unsorted_run (env : environment) (db : database) (q : QueryParamPCIn.t)
    (conditions : list condition) :
  pc_conditions env q = Return conditions →
  nonempty_str (QueryParamPCIn.receive_price q) = None →
  do_get_local_order_pc_list_info env db q = Raise ProgrammingError.
Proof.
  intros Hc Hsort. unfold do_get_local_order_pc_list_info, pc_id_rows.
  rewrite Hc. simpl. rewrite (pc_unsorted_rows env db q conditions Hsort). reflexivity.
Qed.

Lemma pc_run (env : environment) (db : database) (q : QueryParamPCIn.t)
    (conditions : list condition) (ordered : list SaleOrder.t) :
  let id_rows := page_of (QueryParamPCIn.page_size q) (QueryParamPCIn.page_number q)
                   ordered in
  let order_ids := map SaleOrder.id id_rows in
  let rows := filter (fun o => SaleOrder.id o ∈ order_ids) (orders db) in
  pc_conditions env q = Return conditions →
  pc_ordered_rows env db q conditions = Return ordered →
  page_in_range (QueryParamPCIn.page_size q) (QueryParamPCIn.page_number q) →
  enrichable db (map SaleOrder.order_number id_rows) rows →
  row_as_mapping env = true →
  ∃ records data statements,
    do_get_local_order_pc_list_info env db q
    = Return (VDict [ ("records_list", VList records); ("amount_data", VDict data) ],
              statements)
    ∧ map fst data
      = ["total_price"; "total_discount_price"; "total_receive_price"; "total_count"]
    ∧ Forall2 (record_of (pc_projection env db order_ids)) rows records.
Proof.
  intros id_rows order_ids rows Hc Ho Hpage Hen Hrow.
  unfold do_get_local_order_pc_list_info, pc_id_rows.
  rewrite Hc. simpl. rewrite Ho. simpl. rewrite (limit_offset_page _ _ _ Hpage). simpl.
  fold id_rows. fold order_ids.
  destruct order_ids as [|i ids] eqn:E.
  - eexists [], _, _. split; [reflexivity|]. split; [reflexivity|].
    subst rows. rewrite filter_no_ids. constructor.
  - destruct (enrich_all_records env db _ (pc_projection env db (i :: ids)) rows Hen)
      as (records & Hrec & Hall).
    fold rows. rewrite Hrec. simpl. unfold dict_of_row. rewrite Hrow. simpl.
    eexists records, _, _. split; [reflexivity|]. split; [reflexivity | exact Hall].
Qed.

(** C8: for a page size [s] and a page number [p] from 1 that the engine
    can be asked for, the list query returns the records of the [s] rows
    that follow the first [s * (p - 1)] rows of its ordered result, with a
    total count that is the number of rows that match the base conditions,
    whatever the page.  The PC list query sorted by the received amount
    returns the records of the orders whose ids are the [s] ids after the
    first [s * (p - 1)].  With any other sort, the default one included,
    the PC list query returns no page: its id query orders by a column of
    a table that it does not select from, and the engine rejects it. *)
Theorem pagination
    (env : environment) (db : database) (q : QueryParamIn.t) (qpc : QueryParamPCIn.t)
    (conditions : list condition)
    (Hpage : page_in_range (QueryParamIn.page_size q) (QueryParamIn.page_number q))
    (Hc : pc_conditions env qpc = Return conditions)
    (Hkey : NoDup (map SaleOrder.id (orders db)))
    (Hen : enrichable db
             (map SaleOrder.order_number
                (page_of (QueryParamIn.page_size q) (QueryParamIn.page_number q)
                   (list_main_rows env db q)))
             (page_of (QueryParamIn.page_size q) (QueryParamIn.page_number q)
                (list_main_rows env db q))) :
  let page := page_of (QueryParamIn.page_size q) (QueryParamIn.page_number q)
                (list_main_rows env db q) in
  (∃ records statements,
     do_get_local_order_list_info env db q
     = Return (VDict [ ("records_list", VList records);
                       ("all_count",
                        VInt (Z.of_nat
                                (length (filter
                                           (fun o => where_ db (list_conditions env q) o
                                                     = true) (orders db))))) ],
               statements)
     ∧ Forall2 (record_of (list_projection env db q)) page records)
  ∧ (∀ ordered,
       pc_ordered_rows env db qpc conditions = Return ordered →
       page_in_range (QueryParamPCIn.page_size qpc) (QueryParamPCIn.page_number qpc) →
       let order_ids :=
         map SaleOrder.id
           (page_of (QueryParamPCIn.page_size qpc) (QueryParamPCIn.page_number qpc)
              ordered) in
       enrichable db
         (map SaleOrder.order_number
            (page_of (QueryParamPCIn.page_size qpc) (QueryParamPCIn.page_number qpc)
               ordered))
         (filter (fun o => SaleOrder.id o ∈ order_ids) (orders db)) →
       row_as_mapping env = true →
       ∃ records data statements,
         do_get_local_order_pc_list_info env db qpc
         = Return (VDict [ ("records_list", VList records); ("amount_data", data) ],
                   statements)
         ∧ Forall2 (record_of (pc_projection env db order_ids))
             (filter (fun o => SaleOrder.id o ∈ order_ids) (orders db)) records)
  ∧ (nonempty_str (QueryParamPCIn.receive_price qpc) = None →
     do_get_local_order_pc_list_info env db qpc = Raise ProgrammingError).
Proof.
  intros page. split; [|split].
  - destruct (list_run env db q Hpage Hen) as (records & Hrun & Hall).
    exists records. eexists. rewrite <- (list_count_base env db q Hkey).
    split; [exact Hrun | exact Hall].
  - intros ordered Ho Hpc order_ids Henpc Hrow.
    destruct (pc_run env db qpc conditions ordered Hc Ho Hpc Henpc Hrow)
      as (records & data & statements & Hrun & _ & Hall).
    exists records, (VDict data), statements. split; [exact Hrun | exact Hall].
  - apply (pc_unsorted_run env db qpc conditions Hc).
Qed.

Ltac one_row H :=
  apply elem_of_cons in H as [-> | H]; [eexists; vm_compute; reflexivity|].

Lemma pagination_witness :
  let q := Sample.query (Some [2; 4; 5]) None 1 2 in
  let qpc := Sample.pc_query (Some [2; 4; 5]) None 2 1 in
  let sorted := Sample.pc_query_by_receive_price "descend" (Some [2; 4; 5]) None 2 1 in
  (∃ records statements,
     do_get_local_order_list_info Sample.env Sample.db q
     = Return (VDict [ ("records_list", VList records);
                       ("all_count",
                        VInt (Z.of_nat
                                (length (filter
                                           (fun o => where_ Sample.db
                                                       (list_conditions Sample.env q) o
                                                     = true) (orders Sample.db))))) ],
               statements)
     ∧ Forall2 (record_of (list_projection Sample.env Sample.db q))
         (page_of 1 2 (list_main_rows Sample.env Sample.db q)) records)
  ∧ do_get_local_order_pc_list_info Sample.env Sample.db qpc = Raise ProgrammingError
  ∧ (∃ records data statements,
       do_get_local_order_pc_list_info Sample.env Sample.db sorted
       = Return (VDict [ ("records_list", VList records); ("amount_data", data) ],
                 statements)
       ∧ Forall2 (record_of (pc_projection Sample.env Sample.db [1; 2]))
           [Sample.order 1 2 "Zhang"; Sample.order 2 4 "Li"] records).
Proof.
  intros q qpc sorted.
  assert (Hlist : page_in_range 1 2) by (unfold page_in_range; lia).
  assert (Hkey : NoDup (map SaleOrder.id (orders Sample.db))).
  { vm_compute. repeat constructor; set_solver. }
  assert (Hen : enrichable Sample.db
                  (map SaleOrder.order_number
                     (page_of 1 2 (list_main_rows Sample.env Sample.db q)))
                  (page_of 1 2 (list_main_rows Sample.env Sample.db q))).
  { intros o Ho. vm_compute in Ho. one_row Ho.
    apply elem_of_nil in Ho. contradiction. }
  destruct (pagination Sample.env Sample.db q qpc
              [ DisabledIsFalse; CompanyIdEq 7; OrderSourceEq 1; StateIn [2; 4; 5] ]
              Hlist eq_refl Hkey Hen) as (H1 & _ & H2).
  destruct (pagination Sample.env Sample.db q sorted
              [ DisabledIsFalse; CompanyIdEq 7; OrderSourceEq 1; StateIn [2; 4; 5] ]
              Hlist eq_refl Hkey Hen) as (_ & H3 & _).
  split; [exact H1|]. split; [apply H2; reflexivity|].
  apply (H3 (orders Sample.db)).
  - reflexivity.
  - unfold page_in_range. simpl. lia.
  - intros o Ho. vm_compute in Ho. one_row Ho. one_row Ho.
    apply elem_of_nil in Ho. contradiction.
  - reflexivity.
Defined.



(** A page that holds an id runs the main, item and aggregate queries. *)
Example pc_page_statements :
  snd <$> (match do_get_local_order_pc_list_info Sample.env Sample.db
                   (Sample.pc_query_by_receive_price "descend" (Some [2; 4; 5]) None 2 1)
           with
           | Return r => Some r
           | Raise _ => None
           end)
  = Some [order_query; main_query; item_query; amount_count_query].
Proof. vm_compute. reflexivity. Qed.

(** ** Shape of the results *)

Lemma detail_rows_nil (db : database) (l : list SaleOrder.t) :
  group_by_order (flat_map (discount_join db) l) = [] ↔ l = [].
Proof.
  split; [|intros ->; reflexivity].
  destruct l as [|o l]; [reflexivity|]. intros H. exfalso.
  assert (Ho : o ∈ group_by_order (flat_map (discount_join db) (o :: l))).
  { unfold group_by_order. rewrite elem_of_remove_dups. simpl.
    apply elem_of_app. left. unfold discount_join.
    destruct (Nat.max 1 _) as [|n] eqn:E; [lia|]. simpl. set_solver. }
  rewrite H in Ho. set_solver.
Qed.

Lemma pc_result_shape (env : environment) (db : database) (q : QueryParamPCIn.t)
    (v : value) (statements : list statement) :
  do_get_local_order_pc_list_info env db q = Return (v, statements) →
  ∃ records data,
    v = VDict [ ("records_list", VList records); ("amount_data", VDict data) ]
    ∧ map fst data
      = ["total_price"; "total_discount_price"; "total_receive_price"; "total_count"].
Proof.
  unfold do_get_local_order_pc_list_info.
  destruct (pc_conditions env q) as [conditions|e]; [|discriminate]. simpl.
  destruct (pc_id_rows env db q conditions) as [id_rows|e]; [|discriminate]. simpl.
  destruct (map SaleOrder.id id_rows) as [|i ids].
  - intros [= <- <-]. eexists _, _. split; reflexivity.
  - destruct (enrich_all _ _ _ _ _) as [records|e]; [|discriminate]. simpl.
    unfold dict_of_row. destruct (row_as_mapping env); [|discriminate]. simpl.
    intros [= <- <-]. eexists _, _. split; reflexivity.
Qed.

(** C4, as the code has it: for a page that the engine can be asked for,
    whose orders have items with quantities that add up, the list query
    returns a dictionary with the keys [records_list] and [all_count]; the
    PC list query, whenever it returns, returns one with the keys
    [records_list] and [amount_data], the latter holding the four totals;
    the detail query returns [None] exactly when no row that is not
    disabled has the record id and the company id. *)
Theorem result_shapes
    (env : environment) (db : database) (q : QueryParamIn.t) (qpc : QueryParamPCIn.t)
    (record_id company_id : Z)
    (Hpage : page_in_range (QueryParamIn.page_size q) (QueryParamIn.page_number q))
    (Hen : enrichable db
             (map SaleOrder.order_number
                (page_of (QueryParamIn.page_size q) (QueryParamIn.page_number q)
                   (list_main_rows env db q)))
             (page_of (QueryParamIn.page_size q) (QueryParamIn.page_number q)
                (list_main_rows env db q))) :
  (∃ records n statements,
     do_get_local_order_list_info env db q
     = Return (VDict [ ("records_list", VList records); ("all_count", VInt n) ],
               statements))
  ∧ (∀ v statements,
       do_get_local_order_pc_list_info env db qpc = Return (v, statements) →
       ∃ records data,
         v = VDict [ ("records_list", VList records); ("amount_data", VDict data) ]
         ∧ map fst data
           = ["total_price"; "total_discount_price"; "total_receive_price";
              "total_count"])
  ∧ (fst (do_get_local_order_detail_info env db record_id company_id) = VNone
     ↔ ∀ o, o ∈ orders db →
         ¬ (SaleOrder.disabled o = Some false
            ∧ SaleOrder.company_id o = Some company_id
            ∧ SaleOrder.id o = record_id)).
Proof.
  split; [|split].
  - destruct (list_run env db q Hpage Hen) as (records & Hrun & _).
    eexists records, _, _. exact Hrun.
  - intros v statements. apply pc_result_shape.
  - unfold do_get_local_order_detail_info. simpl.
    set (matching := filter (fun o => detail_where record_id company_id o = true)
                       (orders db)).
    assert (Hwhere : ∀ o, detail_where record_id company_id o = true
                          ↔ SaleOrder.disabled o = Some false
                            ∧ SaleOrder.company_id o = Some company_id
                            ∧ SaleOrder.id o = record_id).
    { intros o. unfold detail_where.
      rewrite !andb_true_iff, !bool_decide_eq_true.
      destruct (SaleOrder.disabled o) as [[|]|]; simpl; intuition congruence. }
    split.
    + intros Hnone o Ho Hmatch.
      assert (Hnil : matching = []).
      { apply (detail_rows_nil db).
        destruct (group_by_order (flat_map (discount_join db) matching));
          [reflexivity | discriminate Hnone]. }
      assert (Hin : o ∈ matching).
      { apply list_elem_of_filter. split; [apply Hwhere; exact Hmatch | exact Ho]. }
      rewrite Hnil in Hin. set_solver.
    + intros Hno.
      assert (Hnil : matching = []).
      { destruct matching as [|o l] eqn:E; [reflexivity|]. exfalso.
        assert (Hin : o ∈ matching) by (rewrite E; set_solver).
        apply list_elem_of_filter in Hin as [Hm Ho].
        apply (Hno o Ho). apply Hwhere. exact Hm. }
      rewrite Hnil. reflexivity.
Qed.

Lemma result_shapes_witness :
  let q := Sample.query (Some [2; 4; 5]) None 1 2 in
  let qpc := Sample.pc_query_by_receive_price "descend" (Some [2; 4; 5]) None 2 1 in
  (∃ records n statements,
     do_get_local_order_list_info Sample.env Sample.db q
     = Return (VDict [ ("records_list", VList records); ("all_count", VInt n) ],
               statements))
  ∧ (∃ records data statements,
       do_get_local_order_pc_list_info Sample.env Sample.db qpc
       = Return (VDict [ ("records_list", VList records); ("amount_data", VDict data) ],
                 statements)
       ∧ length records = 2%nat
       ∧ map fst data
         = ["total_price"; "total_discount_price"; "total_receive_price"; "total_count"])
  ∧ (fst (do_get_local_order_detail_info Sample.env Sample.db 9 7) = VNone
     ↔ ∀ o, o ∈ orders Sample.db →
         ¬ (SaleOrder.disabled o = Some false
            ∧ SaleOrder.company_id o = Some 7
            ∧ SaleOrder.id o = 9)).
Proof.
  intros q qpc.
  destruct (result_shapes Sample.env Sample.db q qpc 9 7) as (H1 & H2 & H3).
  - unfold page_in_range. simpl. lia.
  - intros o Ho. vm_compute in Ho. one_row Ho.
    apply elem_of_nil in Ho. contradiction.
  - split; [exact H1|]. split; [|exact H3].
    assert (E : ∃ v statements,
               do_get_local_order_pc_list_info Sample.env Sample.db qpc
               = Return (v, statements) ∧ length (records_of v) = 2%nat).
    { eexists _, _. split; [vm_compute; reflexivity | reflexivity]. }
    destruct E as (v & statements & E & Hlen).
    destruct (H2 v statements E) as (records & data & -> & Hkeys).
    exists records, data, statements. split; [exact E|]. split; [exact Hlen | exact Hkeys].
Defined.

(** C4, as stated, fails on the PC list query: its result has no
    [all_count] key. *)
Lemma pc_empty_page_result :
  do_get_local_order_pc_list_info Sample.env Sample.db
    (Sample.pc_query_by_receive_price "descend" (Some [2; 4; 5]) None 2 3)
  = Return (VDict [ ("records_list", VList []);
                    ("amount_data",
                     VDict [ ("total_price", VInt 0);
                             ("total_discount_price", VInt 0);
                             ("total_receive_price", VInt 0);
                             ("total_count", VInt 0) ]) ],
            [order_query]).
Proof. vm_compute. reflexivity. Qed.

Lemma pc_result_has_no_all_count :
  ¬ (∀ (env : environment) (db : database) (q : QueryParamPCIn.t)
       (v : value) (statements : list statement),
       do_get_local_order_pc_list_info env db q = Return (v, statements) →
       keys v = ["records_list"; "all_count"]).
Proof.
  intros H.
  specialize (H Sample.env Sample.db
                (Sample.pc_query_by_receive_price "descend" (Some [2; 4; 5]) None 2 3)
                _ _ pc_empty_page_result).
  discriminate H.
Qed.

(** * Further properties *)

(** ** State names *)

Lemma find_state (l : list (Z * string)) (s : Z) :
  List.find (fun m => bool_decide (Some s = Some (fst m))) l
  = List.find (fun m => Z.eqb (fst m) s) l.
Proof.
  induction l as [|m l IH]; [reflexivity|]. simpl. rewrite IH.
  destruct (Z.eqb_spec (fst m) s) as [E|E].
  - rewrite bool_decide_eq_true_2 by (rewrite E; reflexivity). reflexivity.
  - rewrite bool_decide_eq_false_2 by (intros [= ->]; apply E; reflexivity). reflexivity.
Qed.

Lemma find_state_null (l : list (Z * string)) :
  List.find (fun m => bool_decide (@None Z = Some (fst m))) l = None.
Proof. induction l as [|m l IH]; [reflexivity|]. simpl. exact IH. Qed.

Lemma state_trans_some (env : environment) (exclude_state : list Z) (o : SaleOrder.t) (s : Z) :
  SaleOrder.state o = Some s →
  sale_order_state_trans env exclude_state o = state_label env exclude_state s.
Proof.
  intros E. unfold sale_order_state_trans, state_label. rewrite E, find_state. reflexivity.
Qed.

Lemma state_trans_null (env : environment) (exclude_state : list Z) (o : SaleOrder.t) :
  SaleOrder.state o = None →
  sale_order_state_trans env exclude_state o = "未知状态".
Proof.
  intros E. unfold sale_order_state_trans. rewrite E, find_state_null. reflexivity.
Qed.

Lemma state_label_excluded (env : environment) (exclude_state : list Z) (s : Z) :
  s ∈ exclude_state → state_label env exclude_state s = "未知状态".
Proof.
  intros Hin. unfold state_label.
  destruct (List.find _ _) as [[v d]|] eqn:E; [|reflexivity].
  apply find_some in E as [Hm Hv]. apply Z.eqb_eq in Hv. simpl in Hv. subst v.
  apply list_elem_of_In, list_elem_of_filter in Hm as [Hex _]. contradiction.
Qed.

Lemma state_label_kept (env : environment) (exclude_state : list Z) (s : Z) :
  s ∉ exclude_state → state_label env exclude_state s = get_state_name env s.
Proof.
  intros Hout. unfold state_label, get_state_name.
  induction (OrderStateEnum env) as [|m l IH]; [reflexivity|].
  rewrite filter_cons. simpl. destruct (Z.eqb_spec (fst m) s) as [E|E].
  - rewrite decide_True by (rewrite E; exact Hout). simpl.
    rewrite (proj2 (Z.eqb_eq _ _) E). reflexivity.
  - destruct (decide (fst m ∉ exclude_state)); [|exact IH].
    simpl. rewrite (proj2 (Z.eqb_neq _ _) E). exact IH.
Qed.

(** X1: the label that the queries compute for a row is the name that
    [get_state_name] gives to the state of the row; a row without a state
    has the label of an unknown state. *)
Theorem state_name_agrees (env : environment) (o : SaleOrder.t) :
  sale_order_state_trans env [] o
  = match SaleOrder.state o with
    | Some s => get_state_name env s
    | None => "未知状态"
    end.
Proof.
  destruct (SaleOrder.state o) as [s|] eqn:E.
  - rewrite (state_trans_some env [] o s E). apply state_label_kept, not_elem_of_nil.
  - apply state_trans_null, E.
Qed.

(** ** The states and the payment methods of a company *)

Lemma state_info_states_elem (env : environment) (db : database) (company_id s : Z) :
  s ∈ state_info_states env db company_id
  ↔ (s ∉ state_info_exclude)
    ∧ get_state_name env s ≠ "未知状态"
    ∧ ∃ o, o ∈ orders db ∧ SaleOrder.disabled o = Some false
           ∧ SaleOrder.company_id o = Some company_id ∧ SaleOrder.state o = Some s.
Proof.
  unfold state_info_states. rewrite merge_sort_Permutation, elem_of_remove_dups.
  rewrite list_elem_of_omap. split.
  - intros (o & Ho & Es). apply list_elem_of_filter in Ho as [(Hd & Hc & Hl) Ho].
    rewrite (state_trans_some env _ o s Es) in Hl.
    assert (Hout : s ∉ state_info_exclude).
    { intros Hin. apply Hl, state_label_excluded, Hin. }
    rewrite (state_label_kept env _ s Hout) in Hl.
    split; [exact Hout|]. split; [exact Hl|]. exists o. tauto.
  - intros (Hout & Hn & o & Ho & Hd & Hc & Es). exists o. split; [|exact Es].
    apply list_elem_of_filter. split; [|exact Ho].
    split; [exact Hd|]. split; [exact Hc|].
    rewrite (state_trans_some env _ o s Es), (state_label_kept env _ s Hout). exact Hn.
Qed.

(** X2: a record of [do_get_order_state_info] stands for a state exactly
    when the state is none of the excluded ones, is a member of the
    enumeration with a name of its own, and is the state of an order of the
    company that is not disabled. *)
Theorem state_info_states_spec (env : environment) (db : database) (company_id s : Z) :
  VDict [ ("id", VInt s); ("value", VInt s);
          ("label", VStr (get_state_name env s)); ("name", VStr (get_state_name env s)) ]
  ∈ do_get_order_state_info env db company_id
  ↔ (s ∉ state_info_exclude)
    ∧ get_state_name env s ≠ "未知状态"
    ∧ ∃ o, o ∈ orders db ∧ SaleOrder.disabled o = Some false
           ∧ SaleOrder.company_id o = Some company_id ∧ SaleOrder.state o = Some s.
Proof.
  rewrite <- state_info_states_elem. unfold do_get_order_state_info.
  rewrite list_elem_of_fmap. split.
  - intros (s' & E & Hs'). injection E as E _. subst s'. exact Hs'.
  - intros Hs. exists s. split; [|exact Hs]. simpl.
    apply state_info_states_elem in Hs as (Hout & _).
    rewrite (state_label_kept env _ s Hout). reflexivity.
Qed.

Lemma sorted_nodup_lt (l : list Z) :
  StronglySorted Z.le l → NoDup l → StronglySorted Z.lt l.
Proof.
  induction 1 as [|x l Hs IH Hall]; intros Hnd; [constructor|].
  apply NoDup_cons in Hnd as [Hx Hnd]. constructor; [apply IH, Hnd|].
  apply Forall_forall. intros y Hy.
  assert (x ≤ y) by (eapply Forall_forall in Hall; [exact Hall | exact Hy]).
  assert (x ≠ y) by (intros ->; contradiction). lia.
Qed.

(** X3: the records of [do_get_order_state_info] come by strictly
    increasing state, one for each state, and the label and the name of a
    record are the name that [get_state_name] gives to its state. *)
Theorem state_info_sorted (env : environment) (db : database) (company_id : Z) :
  ∃ states,
    do_get_order_state_info env db company_id
    = map (fun s => VDict [ ("id", VInt s); ("value", VInt s);
                            ("label", VStr (get_state_name env s));
                            ("name", VStr (get_state_name env s)) ]) states
    ∧ StronglySorted Z.lt states.
Proof.
  exists (state_info_states env db company_id). split.
  - unfold do_get_order_state_info. apply map_ext_in. intros s Hs.
    apply list_elem_of_In, state_info_states_elem in Hs as (Hout & _).
    simpl. rewrite (state_label_kept env _ s Hout). reflexivity.
  - apply sorted_nodup_lt.
    + unfold state_info_states. apply StronglySorted_merge_sort; apply _.
    + unfold state_info_states. rewrite merge_sort_Permutation. apply NoDup_remove_dups.
Qed.

(** X4: [do_get_order_payment_method_info] lists each pair of a method id
    and a method name once, and lists a pair exactly when a payment of the
    company carries it, whether the payment succeeded or not. *)
Theorem payment_method_info_distinct (db : database) (company_id : Z) :
  NoDup (do_get_order_payment_method_info db company_id)
  ∧ ∀ (i : option Z) (n : option string),
      VDict [ ("id", opt_int i); ("name", opt_str n);
              ("label", opt_str n); ("value", opt_int i) ]
      ∈ do_get_order_payment_method_info db company_id
      ↔ ∃ p, p ∈ payments db
             ∧ SaleOrderPayment.company_id p = Some company_id
             ∧ SaleOrderPayment.payment_method_id p = i
             ∧ SaleOrderPayment.payment_method_name p = n.
Proof.
  assert (Hinj : ∀ (i i' : option Z) (n n' : option string),
             opt_int i = opt_int i' → opt_str n = opt_str n' → i = i' ∧ n = n').
  { intros [i|] [i'|] [n|] [n'|] Hi Hn; simpl in *; split; congruence. }
  unfold do_get_order_payment_method_info. split.
  - apply NoDup_fmap_2_strong; [|apply NoDup_remove_dups].
    intros [i n] [i' n'] _ _ E. simpl in E. injection E as Hi Hn _ _.
    destruct (Hinj i i' n n' Hi Hn) as [-> ->]. reflexivity.
  - intros i n. rewrite list_elem_of_fmap. split.
    + intros ([i' n'] & E & Hm). simpl in E. injection E as Hi Hn _ _.
      destruct (Hinj i i' n n' Hi Hn) as [-> ->].
      unfold payment_methods in Hm. rewrite elem_of_remove_dups in Hm.
      apply list_elem_of_fmap in Hm as (p & E & Hp).
      apply list_elem_of_filter in Hp as [Hc Hp]. injection E as -> ->.
      exists p. tauto.
    + intros (p & Hp & Hc & <- & <-). eexists (_, _). split; [reflexivity|].
      unfold payment_methods. rewrite elem_of_remove_dups. apply list_elem_of_fmap.
      exists p. split; [reflexivity|]. apply list_elem_of_filter. tauto.
Qed.

(** ** The payments of one order *)

Lemma filter_iff_in {A : Type} (P Q : A → Prop)
    `{!∀ x, Decision (P x)} `{!∀ x, Decision (Q x)} (l : list A) :
  (∀ x, x ∈ l → P x ↔ Q x) → filter P l = filter Q l.
Proof.
  induction l as [|x l IH]; intros Hall; [reflexivity|].
  rewrite !filter_cons, IH by (intros y Hy; apply Hall; set_solver).
  destruct (decide (P x)) as [HP|HP].
  - rewrite decide_True by (apply Hall; [set_solver | exact HP]). reflexivity.
  - rewrite decide_False; [reflexivity|].
    intros HQ. apply HP, Hall; [set_solver | exact HQ].
Qed.

Lemma filter_none {A : Type} (P : A → Prop) `{!∀ x, Decision (P x)} (l : list A) :
  (∀ x, x ∈ l → ¬ P x) → filter P l = [].
Proof.
  induction l as [|x l IH]; intros Hall; [reflexivity|].
  rewrite filter_cons_False by (apply Hall; set_solver). apply IH.
  intros y Hy. apply Hall. set_solver.
Qed.

Lemma filter_single {A : Type} (P : A → Prop) `{!∀ x, Decision (P x)}
    (l : list A) (o : A) :
  NoDup l → o ∈ l → P o → (∀ x, x ∈ l → P x → x = o) → filter P l = [o].
Proof.
  induction l as [|x l IH]; intros Hnd Ho HP Hu; [set_solver|].
  apply NoDup_cons in Hnd as [Hx Hnd]. destruct (decide (P x)) as [HPx|HPx].
  - assert (x = o) by (apply Hu; [set_solver | exact HPx]). subst x.
    rewrite filter_cons_True by exact HP. f_equal. apply filter_none.
    intros y Hy HPy. assert (y = o) by (apply Hu; [set_solver | exact HPy]).
    subst y. contradiction.
  - rewrite filter_cons_False by exact HPx.
    assert (o ∈ l).
    { apply elem_of_cons in Ho as [->|Ho]; [contradiction | exact Ho]. }
    apply IH; [exact Hnd | assumption | exact HP |].
    intros y Hy. apply Hu. set_solver.
Qed.

Lemma detail_where_spec (record_id company_id : Z) (o : SaleOrder.t) :
  detail_where record_id company_id o = true
  ↔ SaleOrder.disabled o = Some false
    ∧ SaleOrder.company_id o = Some company_id
    ∧ SaleOrder.id o = record_id.
Proof.
  unfold detail_where. rewrite !andb_true_iff, !bool_decide_eq_true.
  destruct (SaleOrder.disabled o) as [[|]|]; simpl; intuition congruence.
Qed.

Lemma detail_rows (db : database) (record_id company_id : Z) (o : SaleOrder.t) :
  NoDup (map SaleOrder.id (orders db)) → o ∈ orders db →
  detail_where record_id company_id o = true →
  filter (fun o => detail_where record_id company_id o = true) (orders db) = [o].
Proof.
  intros Hkey Ho Hw. apply filter_single; [| exact Ho | exact Hw |].
  - eapply NoDup_fmap_1. exact Hkey.
  - intros x Hx Hwx. apply (order_key_inj (orders db)); [exact Hkey | exact Hx | exact Ho |].
    apply detail_where_spec in Hw as (_ & _ & Hw).
    apply detail_where_spec in Hwx as (_ & _ & Hwx). congruence.
Qed.

Lemma remove_dups_replicate {A : Type} `{!EqDecision A} (n : nat) (x : A) :
  remove_dups (replicate (S n) x) = [x].
Proof.
  induction n as [|n IH]; [reflexivity|].
  change (replicate (S (S n)) x) with (x :: replicate (S n) x).
  change (remove_dups (x :: replicate (S n) x))
    with (if decide_rel (∈) x (replicate (S n) x) then remove_dups (replicate (S n) x)
          else x :: remove_dups (replicate (S n) x)).
  destruct (decide_rel (∈) x (replicate (S n) x)) as [_|Hn]; [exact IH|].
  exfalso. apply Hn. simpl. set_solver.
Qed.

Lemma group_by_discount_join (db : database) (o : SaleOrder.t) :
  group_by_order (flat_map (discount_join db) [o]) = [o].
Proof.
  unfold group_by_order, discount_join. simpl. rewrite app_nil_r.
  destruct (Nat.max 1 _) as [|n] eqn:E; [lia|]. apply remove_dups_replicate.
Qed.

(** X5: with the id the primary key of the order table, the anomaly query
    of an order of the company that is not disabled gives one record for
    each payment of the order whose success flag is false, all with the
    state name of the order; a payment that succeeded, or whose flag is
    not set, gives none. *)
Theorem pay_anomaly_of_order
    (env : environment) (amount_column : option Dec.dec -> value) (db : database)
    (record_id company_id : Z) (o : SaleOrder.t)
    (Hkey : NoDup (map SaleOrder.id (orders db)))
    (Ho : o ∈ orders db)
    (Hw : detail_where record_id company_id o = true) :
  do_get_order_pay_anomaly_info env amount_column db record_id company_id
  = map
      (fun p =>
         VDict [ ("payment_method_name", opt_str (SaleOrderPayment.payment_method_name p));
                 ("payment_amount", amount_column (SaleOrderPayment.payment_amount p));
                 ("state_name",
                  VStr (default "未知状态" (get_state_name env <$> SaleOrder.state o))) ])
      (filter (fun p => SaleOrderPayment.order_id p = SaleOrder.record_id o
                        ∧ SaleOrderPayment.is_pay_success p = Some false)
         (payments db)).
Proof.
  assert (Hname : sale_order_state_trans env [] o
                  = default "未知状态" (get_state_name env <$> SaleOrder.state o)).
  { destruct (SaleOrder.state o) as [s|] eqn:E; simpl.
    - rewrite (state_trans_some env [] o s E). apply state_label_kept, not_elem_of_nil.
    - apply state_trans_null, E. }
  unfold do_get_order_pay_anomaly_info, pay_anomaly_rows.
  rewrite (detail_rows db record_id company_id o Hkey Ho Hw). simpl.
  rewrite app_nil_r, map_map. apply map_ext. intros p. simpl.
  rewrite Hname. reflexivity.
Qed.

Lemma pay_anomaly_of_order_witness :
  do_get_order_pay_anomaly_info Sample.env (fun a => opt_str (numeric_to_string <$> a))
    Sample.db 2 7
  = [ VDict [ ("payment_method_name", VStr "cash");
              ("payment_amount", VStr "100");
              ("state_name", VStr "已支付") ] ].
Proof.
  rewrite (pay_anomaly_of_order Sample.env _ Sample.db 2 7 (Sample.order 2 4 "Li")).
  - vm_compute. reflexivity.
  - vm_compute. repeat constructor; set_solver.
  - vm_compute. set_solver.
  - vm_compute. reflexivity.
Defined.

Lemma filter_flat_map {A B : Type} (P : B → Prop) `{!∀ x, Decision (P x)}
    (f : A → list B) (l : list A) :
  filter P (flat_map f l) = flat_map (fun x => filter P (f x)) l.
Proof.
  induction l as [|x l IH]; [reflexivity|].
  simpl. rewrite filter_app, IH. reflexivity.
Qed.

Lemma map_flat_map {A B C : Type} (g : B → C) (f : A → list B) (l : list A) :
  map g (flat_map f l) = flat_map (fun x => map g (f x)) l.
Proof.
  induction l as [|x l IH]; [reflexivity|].
  simpl. rewrite map_app, IH. reflexivity.
Qed.

Lemma anomaly_rows_of_join (db : database) (record_id company_id : Z) :
  filter (fun r : SaleOrder.t * option SaleOrderPayment.t =>
            snd r ≫= SaleOrderPayment.is_pay_success = Some false)
    (payment_outer_join db record_id company_id)
  = map (fun r => (fst r, Some (snd r))) (pay_anomaly_rows db record_id company_id).
Proof.
  unfold payment_outer_join, pay_anomaly_rows.
  rewrite filter_flat_map, map_flat_map. apply flat_map_ext. intros o.
  assert (Hrows : ∀ ps : list SaleOrderPayment.t,
             filter (fun r : SaleOrder.t * option SaleOrderPayment.t =>
                       snd r ≫= SaleOrderPayment.is_pay_success = Some false)
               (map (fun p => (o, Some p)) ps)
             = map (fun r : SaleOrder.t * SaleOrderPayment.t => (fst r, Some (snd r)))
                 (map (fun p => (o, p))
                    (filter (fun p => SaleOrderPayment.is_pay_success p = Some false) ps))).
  { induction ps as [|p ps IHp]; [reflexivity|].
    simpl. rewrite !filter_cons. simpl.
    destruct (decide (SaleOrderPayment.is_pay_success p = Some false));
      simpl; rewrite IHp; reflexivity. }
  rewrite (filter_iff_in
             (fun p => SaleOrderPayment.order_id p = SaleOrder.record_id o
                       ∧ SaleOrderPayment.is_pay_success p = Some false)
             (fun p => SaleOrderPayment.is_pay_success p = Some false
                       ∧ SaleOrderPayment.order_id p = SaleOrder.record_id o))
    by (intros; tauto).
  rewrite <- (list_filter_filter
                (fun p => SaleOrderPayment.is_pay_success p = Some false)
                (fun p => SaleOrderPayment.order_id p = SaleOrder.record_id o)).
  destruct (filter (fun p => SaleOrderPayment.order_id p = SaleOrder.record_id o)
              (payments db)) as [|p ps] eqn:E.
  - reflexivity.
  - rewrite <- Hrows. reflexivity.
Qed.

(** X6: the anomaly query of the PC detail page joins the payments by an
    outer join, yet gives the same rows as the anomaly query: a record for
    each payment of the matching order whose success flag is false, none
    for an order without such a payment, and always with the amount 0.00. *)
Theorem pay_anomaly_pc_rows (env : environment) (db : database) (record_id company_id : Z) :
  do_get_order_pay_anomaly_pc_info env db record_id company_id
  = map
      (fun r =>
         VDict [ ("payment_method_name",
                  opt_str (SaleOrderPayment.payment_method_name (snd r)));
                 ("payment_amount", VDecimal (Dec.Finite (Dec.mkDec 0 (-2))));
                 ("state_name", VStr (sale_order_state_trans env [] (fst r))) ])
      (pay_anomaly_rows db record_id company_id).
Proof.
  unfold do_get_order_pay_anomaly_pc_info.
  rewrite anomaly_rows_of_join, map_map. reflexivity.
Qed.

(** X7: with the id the primary key of the order table, the payment
    information of an order of the company that is not disabled has a
    record for each payment of the order, with the amount 0.00 for a
    payment whose success flag is false and the stored amount otherwise;
    an order without a payment has one record, without method or amount. *)
Theorem pay_info_of_order
    (env : environment) (amount_column : option Dec.dec -> value) (db : database)
    (record_id company_id : Z) (o : SaleOrder.t)
    (Hkey : NoDup (map SaleOrder.id (orders db)))
    (Ho : o ∈ orders db)
    (Hw : detail_where record_id company_id o = true) :
  do_get_pay_info env amount_column db record_id company_id
  = match filter (fun p => SaleOrderPayment.order_id p = SaleOrder.record_id o)
            (payments db) with
    | [] => [ VDict [ ("payment_method_name", VNone);
                      ("payment_amount", amount_column None);
                      ("state_name", VStr (sale_order_state_trans env [] o)) ] ]
    | ps =>
        map
          (fun p =>
             VDict [ ("payment_method_name",
                      opt_str (SaleOrderPayment.payment_method_name p));
                     ("payment_amount",
                      if bool_decide (SaleOrderPayment.is_pay_success p = Some false)
                      then VStr "0.00"
                      else amount_column (SaleOrderPayment.payment_amount p));
                     ("state_name", VStr (sale_order_state_trans env [] o)) ])
          ps
    end.
Proof.
  unfold do_get_pay_info, payment_outer_join.
  rewrite (detail_rows db record_id company_id o Hkey Ho Hw). simpl.
  rewrite app_nil_r.
  destruct (filter (fun p => SaleOrderPayment.order_id p = SaleOrder.record_id o)
              (payments db)) as [|p ps]; [reflexivity|].
  simpl. rewrite ?map_map. reflexivity.
Qed.

Lemma pay_info_of_order_witness :
  do_get_pay_info Sample.env (fun a => opt_str (numeric_to_string <$> a)) Sample.db 3 7
  = [ VDict [ ("payment_method_name", VStr "cash");
              ("payment_amount", VStr "100");
              ("state_name", VStr "已完成") ] ]
  ∧ do_get_pay_info Sample.env (fun a => opt_str (numeric_to_string <$> a))
      (mkDatabase (orders Sample.db) [] [] [] [] []) 3 7
    = [ VDict [ ("payment_method_name", VNone);
                ("payment_amount", VNone);
                ("state_name", VStr "已完成") ] ].
Proof.
  split.
  - rewrite (pay_info_of_order Sample.env _ Sample.db 3 7 (Sample.order 3 5 "Wang")).
    + vm_compute. reflexivity.
    + vm_compute. repeat constructor; set_solver.
    + vm_compute. set_solver.
    + vm_compute. reflexivity.
  - rewrite (pay_info_of_order Sample.env _ _ 3 7 (Sample.order 3 5 "Wang")).
    + vm_compute. reflexivity.
    + vm_compute. repeat constructor; set_solver.
    + vm_compute. set_solver.
    + vm_compute. reflexivity.
Defined.

(** X8: when the detail query of a record id and a company finds no order,
    the two anomaly queries and the payment information of the same record
    id and company have no record. *)
Theorem payments_without_order
    (env : environment) (amount_column : option Dec.dec -> value) (db : database)
    (record_id company_id : Z)
    (Hnone : fst (do_get_local_order_detail_info env db record_id company_id) = VNone) :
  do_get_order_pay_anomaly_info env amount_column db record_id company_id = []
  ∧ do_get_order_pay_anomaly_pc_info env db record_id company_id = []
  ∧ do_get_pay_info env amount_column db record_id company_id = [].
Proof.
  unfold do_get_local_order_detail_info in Hnone. simpl in Hnone.
  destruct (group_by_order _) as [|r rows] eqn:E; [|discriminate].
  apply detail_rows_nil in E.
  unfold do_get_order_pay_anomaly_info, do_get_order_pay_anomaly_pc_info, do_get_pay_info,
    pay_anomaly_rows, payment_outer_join.
  rewrite E. split; [reflexivity|]. split; reflexivity.
Qed.

Lemma payments_without_order_witness :
  do_get_order_pay_anomaly_info Sample.env (fun a => opt_str (numeric_to_string <$> a))
    Sample.db 2 8 = []
  ∧ do_get_order_pay_anomaly_pc_info Sample.env Sample.db 2 8 = []
  ∧ do_get_pay_info Sample.env (fun a => opt_str (numeric_to_string <$> a))
      Sample.db 2 8 = [].
Proof.
  apply (payments_without_order Sample.env _ Sample.db 2 8). vm_compute. reflexivity.
Defined.

(** X9: with the id the primary key of the order table, the detail of an
    order of the company that is not disabled carries the record id, and
    its received amount is a dash while the order is created or awaits
    payment, and otherwise the rounded sum of the successful payments of
    the order after the currency sign, or a dash when there is none. *)
Theorem detail_receive_price
    (env : environment) (db : database) (record_id company_id : Z) (o : SaleOrder.t)
    (Hkey : NoDup (map SaleOrder.id (orders db)))
    (Ho : o ∈ orders db)
    (Hw : detail_where record_id company_id o = true) :
  ∃ record,
    fst (do_get_local_order_detail_info env db record_id company_id) = VDict record
    ∧ dict_get "id" record = Some (VInt record_id)
    ∧ dict_get "state_name" record = Some (VStr (sale_order_state_trans env [] o))
    ∧ dict_get "receive_price" record
      = Some (if bool_decide (pending (sale_order_state_trans env [] o)) then VStr "-"
              else match received_amount db o with
                   | Some a => VStr (String.append "¥" (numeric_to_string a))
                   | None => VStr "-"
                   end).
Proof.
  unfold do_get_local_order_detail_info.
  rewrite (detail_rows db record_id company_id o Hkey Ho Hw), group_by_discount_join.
  eexists. split; [reflexivity|].
  split; [|split].
  - apply detail_where_spec in Hw as (_ & _ & <-). reflexivity.
  - reflexivity.
  - unfold detail_record, dict_get. simpl. f_equal.
    rewrite (bool_decide_ext (sale_order_state_trans env [] o ∈ ["已创建"; "待支付"])
               (pending (sale_order_state_trans env [] o)))
      by (unfold pending; set_solver).
    destruct (bool_decide (pending _)); [reflexivity|].
    unfold pay_success_rows.
    rewrite (rows_of_order db _ o (orders db) Hkey Ho Hw), !map_map. simpl.
    change (sql_sum _)
      with (sql_sum (map SaleOrderPayment.payment_amount (success_payments db o))).
    unfold received_amount, price_display.
    destruct (sql_sum _); reflexivity.
Qed.

Lemma detail_receive_price_witness :
  ∃ record,
    fst (do_get_local_order_detail_info Sample.env Sample.db 2 7) = VDict record
    ∧ dict_get "id" record = Some (VInt 2)
    ∧ dict_get "state_name" record = Some (VStr "已支付")
    ∧ dict_get "receive_price" record = Some (VStr "¥20.00").
Proof.
  destruct (detail_receive_price Sample.env Sample.db 2 7 (Sample.order 2 4 "Li"))
    as (record & H1 & H2 & H3 & H4).
  - vm_compute. repeat constructor; set_solver.
  - vm_compute. set_solver.
  - vm_compute. reflexivity.
  - exists record. split; [exact H1|]. split; [exact H2|]. split; [exact H3|exact H4].
Defined.

(** ** The rows and the records of the list query *)

Lemma remove_dups_fresh {A : Type} `{!EqDecision A} (x : A) (l : list A) :
  x ∉ l → remove_dups (x :: l) = x :: remove_dups l.
Proof.
  intros Hx.
  change (remove_dups (x :: l))
    with (if decide_rel (∈) x l then remove_dups l else x :: remove_dups l).
  destruct (decide_rel (∈) x l); [contradiction | reflexivity].
Qed.

Lemma remove_dups_seen {A : Type} `{!EqDecision A} (x : A) (l : list A) :
  x ∈ l → remove_dups (x :: l) = remove_dups l.
Proof.
  intros Hx.
  change (remove_dups (x :: l))
    with (if decide_rel (∈) x l then remove_dups l else x :: remove_dups l).
  destruct (decide_rel (∈) x l); [reflexivity | contradiction].
Qed.

Lemma remove_dups_copies {A : Type} `{!EqDecision A} (n : nat) (x : A) (l : list A) :
  x ∉ l → remove_dups (replicate (S n) x ++ l) = x :: remove_dups l.
Proof.
  intros Hx. induction n as [|n IH]; [apply remove_dups_fresh, Hx|].
  change (replicate (S (S n)) x ++ l) with (x :: (replicate (S n) x ++ l)).
  rewrite remove_dups_seen; [exact IH|]. simpl. set_solver.
Qed.

Lemma discount_join_elem (db : database) (l : list SaleOrder.t) (o : SaleOrder.t) :
  o ∈ flat_map (discount_join db) l → o ∈ l.
Proof.
  intros Ho. apply list_elem_of_In, in_flat_map in Ho as (x & Hx & Ho).
  unfold discount_join in Ho. apply list_elem_of_In, elem_of_replicate in Ho as [-> _].
  apply list_elem_of_In, Hx.
Qed.

(** The outer join with the discounts and the grouping by the columns of
    the order give each order once. *)
Lemma group_by_discount_rows (db : database) (l : list SaleOrder.t) :
  NoDup l → group_by_order (flat_map (discount_join db) l) = l.
Proof.
  unfold group_by_order. induction l as [|x l IH]; intros Hnd; [reflexivity|].
  apply NoDup_cons in Hnd as [Hx Hnd]. simpl. unfold discount_join at 1.
  destruct (Nat.max 1 _) as [|n] eqn:E; [lia|].
  rewrite remove_dups_copies, IH by (try exact Hnd; intros Hin; apply Hx, (discount_join_elem db), Hin).
  reflexivity.
Qed.

Lemma where_cons (db : database) (c : condition) (cs : list condition) (o : SaleOrder.t) :
  where_ db (c :: cs) o = true
  ↔ eval_condition db c o = Some true ∧ where_ db cs o = true.
Proof.
  unfold where_. simpl. rewrite andb_true_iff.
  destruct (eval_condition db c o) as [[|]|]; simpl; intuition congruence.
Qed.

Lemma where_app (db : database) (cs cs' : list condition) (o : SaleOrder.t) :
  where_ db (cs ++ cs') o = true ↔ where_ db cs o = true ∧ where_ db cs' o = true.
Proof. unfold where_. rewrite forallb_app, andb_true_iff. reflexivity. Qed.

Lemma where_elem (db : database) (c : condition) (cs : list condition) (o : SaleOrder.t) :
  where_ db cs o = true → c ∈ cs → eval_condition db c o = Some true.
Proof.
  unfold where_. intros Hw Hc. rewrite forallb_forall in Hw.
  specialize (Hw c (proj1 (list_elem_of_In _ _) Hc)).
  destruct (eval_condition db c o) as [[|]|]; [reflexivity | discriminate | discriminate].
Qed.

Lemma state_condition_holds (db : database) (states : option (list Z)) (o : SaleOrder.t) :
  eval_condition db (state_condition states) o = Some true →
  ∃ s, SaleOrder.state o = Some s ∧ s ∈ effective_states states.
Proof.
  assert (E : state_condition states = StateIn (effective_states states)).
  { destruct states as [[|x l]|]; reflexivity. }
  rewrite E. simpl. unfold in_.
  destruct (SaleOrder.state o) as [s|]; simpl; [|discriminate].
  intros [= H]. apply bool_decide_eq_true in H. exists s. split; [reflexivity | exact H].
Qed.

Lemma head_conditions_hold (env : environment) (db : database) (company_id : Z)
    (states : option (list Z)) (cs : list condition) (o : SaleOrder.t) :
  where_ db ([DisabledIsFalse; CompanyIdEq company_id; OrderSourceEq (STORE_ORDER_code env)]
             ++ cs) o = true →
  state_condition states ∈ cs →
  own_active_order env company_id states o.
Proof.
  intros Hw Hs. apply where_app in Hw as [Hh Hw].
  apply where_cons in Hh as [Hd Hh]. apply where_cons in Hh as [Hc Hh].
  apply where_cons in Hh as [Hsrc _]. simpl in Hd, Hc, Hsrc.
  split; [|split; [|split]].
  - destruct (SaleOrder.disabled o) as [[|]|]; simpl in Hd; congruence.
  - destruct (SaleOrder.company_id o) as [c|]; [|discriminate].
    simpl in Hc. injection Hc as Hc. apply Z.eqb_eq in Hc. congruence.
  - destruct (SaleOrder.order_source o) as [c|]; [|discriminate].
    simpl in Hsrc. injection Hsrc as Hsrc. apply Z.eqb_eq in Hsrc. congruence.
  - apply (state_condition_holds db). apply (where_elem db _ cs); assumption.
Qed.

Lemma list_conditions_hold (env : environment) (db : database) (q : QueryParamIn.t)
    (o : SaleOrder.t) :
  where_ db (list_conditions env q) o = true →
  own_active_order env (QueryParamIn.company_id q) (QueryParamIn.states q) o.
Proof.
  intros Hw. apply (head_conditions_hold env db _ _ _ o Hw).
  rewrite !elem_of_app. do 3 right. left. set_solver.
Qed.

Lemma list_in_base_spec (env : environment) (db : database) (q : QueryParamIn.t)
    (o : SaleOrder.t) :
  NoDup (map SaleOrder.id (orders db)) → o ∈ orders db →
  list_in_base env db q o = true ↔ where_ db (list_conditions env q) o = true.
Proof.
  intros Hkey Ho. unfold list_in_base, list_base_ids.
  rewrite andb_true_iff, bool_decide_eq_true. split.
  - intros [_ Hin]. apply list_elem_of_fmap in Hin as (y & Hid & Hy).
    apply list_elem_of_filter in Hy as [Hw Hy].
    rewrite (order_key_inj (orders db) o y Hkey Ho Hy Hid). exact Hw.
  - intros Hw. split.
    + apply list_conditions_hold in Hw as (Hd & _). rewrite Hd. reflexivity.
    + apply list_elem_of_fmap. exists o. split; [reflexivity|].
      apply list_elem_of_filter. split; assumption.
Qed.

Lemma list_main_rows_perm (env : environment) (db : database) (q : QueryParamIn.t) :
  order_by_permutes env → NoDup (map SaleOrder.id (orders db)) →
  list_main_rows env db q
  ≡ₚ filter (fun o => where_ db (list_conditions env q) o = true) (orders db).
Proof.
  intros Hperm Hkey. unfold list_main_rows. rewrite (Hperm db _ _).
  rewrite group_by_discount_rows.
  - rewrite (filter_iff_in _ (fun o => where_ db (list_conditions env q) o = true));
      [reflexivity|].
    intros o Ho. apply list_in_base_spec; assumption.
  - apply NoDup_filter. eapply NoDup_fmap_1. exact Hkey.
Qed.

(** *** What a run that returns has done *)

Lemma limit_offset_inv {A : Type} (limit offset : Z) (rows page : list A) :
  limit_offset limit offset rows = Return page →
  0 ≤ limit ∧ 0 ≤ offset ∧ page = take (Z.to_nat limit) (drop (Z.to_nat offset) rows).
Proof.
  unfold limit_offset.
  destruct (limit <? 0) eqn:E1; [discriminate|].
  destruct (offset <? 0) eqn:E2; [discriminate|]. simpl.
  destruct ((2 ^ 63 <=? limit) || (2 ^ 63 <=? offset)); [discriminate|].
  intros [= <-]. apply Z.ltb_ge in E1, E2. auto.
Qed.

Lemma enrich_all_inv (env : environment) (db : database)
    (order_numbers : list (option string))
    (project : SaleOrder.t -> list (string * value))
    (rows : list SaleOrder.t) (records : list value) :
  enrich_all env db order_numbers rows project = Return records →
  Forall2 (enriched env db order_numbers project) rows records.
Proof.
  revert records. induction rows as [|o rows IH]; intros records; simpl.
  - intros [= <-]. constructor.
  - unfold enrich.
    destruct (get_total_purchase_quantity _) as [total|e] eqn:Et; [|discriminate].
    simpl. destruct (enrich_all env db order_numbers rows project) as [rs|e] eqn:Er;
      [|discriminate].
    simpl. intros [= <-]. constructor; [|apply IH; reflexivity].
    exists total. split; [exact Et | reflexivity].
Qed.

Lemma list_inv (env : environment) (db : database) (q : QueryParamIn.t)
    (v : value) (t : list statement) :
  do_get_local_order_list_info env db q = Return (v, t) →
  let page := page_of (QueryParamIn.page_size q) (QueryParamIn.page_number q)
                (list_main_rows env db q) in
  ∃ records,
    v = VDict [ ("records_list", VList records);
                ("all_count", VInt (list_count env db q)) ]
    ∧ t = [main_query; count_query] ++ item_statements (map SaleOrder.order_number page)
    ∧ 0 ≤ QueryParamIn.page_size q
    ∧ Forall2 (enriched env db (map SaleOrder.order_number page)
                 (list_projection env db q)) page records.
Proof.
  intros H page. unfold do_get_local_order_list_info in H.
  destruct (limit_offset _ _ _) as [rows|e] eqn:El; [|discriminate].
  apply limit_offset_inv in El as (Hs & _ & ->). fold (page_of (QueryParamIn.page_size q)
    (QueryParamIn.page_number q) (list_main_rows env db q)) in H. fold page in H.
  simpl in H. destruct (enrich_all _ _ _ _ _) as [records|e] eqn:Er; [|discriminate].
  simpl in H. injection H as <- <-. exists records.
  split; [reflexivity|]. split; [reflexivity|]. split; [exact Hs|].
  apply enrich_all_inv, Er.
Qed.

Lemma Forall2_elem_r {A B : Type} (P : A → B → Prop) (l : list A) (k : list B) (y : B) :
  Forall2 P l k → y ∈ k → ∃ x, x ∈ l ∧ P x y.
Proof.
  induction 1 as [|x y' l k HP Hall IH]; intros Hy; [set_solver|].
  apply elem_of_cons in Hy as [->|Hy].
  - exists x. split; [set_solver | exact HP].
  - destruct (IH Hy) as (x' & Hx' & HP'). exists x'. split; [set_solver | exact HP'].
Qed.

Lemma Forall2_enriched_record (env : environment) (db : database)
    (order_numbers : list (option string))
    (project : SaleOrder.t -> list (string * value))
    (rows : list SaleOrder.t) (records : list value) :
  Forall2 (enriched env db order_numbers project) rows records →
  Forall2 (record_of project) rows records.
Proof.
  intros H. eapply Forall2_impl; [exact H|].
  intros o r (total & _ & ->). eexists. reflexivity.
Qed.

(** X10: every record of a page of the list query has the same fifteen
    fields, the thirteen columns of the main query followed by the items
    and the total quantity that the enrichment adds. *)
Theorem list_records_keys
    (env : environment) (db : database) (q : QueryParamIn.t)
    (v : value) (t : list statement)
    (Hrun : do_get_local_order_list_info env db q = Return (v, t)) :
  Forall (fun r => keys r = list_record_keys) (records_of v).
Proof.
  apply list_inv in Hrun as (records & -> & _ & _ & Hall). simpl.
  apply Forall_forall. intros r Hr.
  destruct (Forall2_elem_r _ _ _ r Hall Hr) as (o & _ & total & _ & ->). reflexivity.
Qed.

Lemma list_records_keys_witness :
  ∃ v t,
    do_get_local_order_list_info Sample.env Sample.db (Sample.query None None 2 1)
    = Return (v, t)
    ∧ length (records_of v) = 2%nat
    ∧ Forall (fun r => keys r = list_record_keys) (records_of v).
Proof.
  eexists _, _. split; [vm_compute; reflexivity|]. split; [reflexivity|].
  eapply (list_records_keys Sample.env Sample.db (Sample.query None None 2 1)).
  vm_compute. reflexivity.
Defined.

Lemma page_of_length {A : Type} (page_size page_number : Z) (rows : list A) :
  0 ≤ page_size →
  Z.of_nat (length (page_of page_size page_number rows)) ≤ page_size
  ∧ (length (page_of page_size page_number rows) ≤ length rows)%nat.
Proof.
  intros Hs. unfold page_of. rewrite length_take, length_drop. lia.
Qed.

(** X11: with the id the primary key of the order table and an engine
    whose ordering keeps the rows, a page of the list query never has more
    records than the page size, nor more than the total count, and the
    total count is the number of rows of the main query before the page is
    cut: an order that has several discount rows counts once. *)
Theorem list_page_bound
    (env : environment) (db : database) (q : QueryParamIn.t)
    (v : value) (t : list statement)
    (Hperm : order_by_permutes env)
    (Hkey : NoDup (map SaleOrder.id (orders db)))
    (Hrun : do_get_local_order_list_info env db q = Return (v, t)) :
  ∃ records all_count,
    v = VDict [ ("records_list", VList records); ("all_count", VInt all_count) ]
    ∧ Z.of_nat (length records) ≤ QueryParamIn.page_size q
    ∧ Z.of_nat (length records) ≤ all_count
    ∧ all_count = Z.of_nat (length (list_main_rows env db q)).
Proof.
  apply list_inv in Hrun as (records & -> & _ & Hs & Hall).
  exists records, (list_count env db q). split; [reflexivity|].
  apply Forall2_length in Hall. rewrite <- Hall.
  assert (Hc : list_count env db q = Z.of_nat (length (list_main_rows env db q))).
  { rewrite (list_count_base env db q Hkey).
    rewrite (list_main_rows_perm env db q Hperm Hkey). reflexivity. }
  destruct (page_of_length (QueryParamIn.page_size q) (QueryParamIn.page_number q)
              (list_main_rows env db q) Hs) as [H1 H2].
  split; [exact H1|]. split; [lia | exact Hc].
Qed.

Lemma sample_order_by : order_by_permutes Sample.env.
Proof. intros db o rows. reflexivity. Qed.

Lemma sample_key : NoDup (map SaleOrder.id (orders Sample.db)).
Proof. vm_compute. repeat constructor; set_solver. Qed.

Lemma list_page_bound_witness :
  ∃ records all_count t,
    do_get_local_order_list_info Sample.env Sample.db (Sample.query None None 1 2)
    = Return (VDict [ ("records_list", VList records); ("all_count", VInt all_count) ], t)
    ∧ Z.of_nat (length records) ≤ 1
    ∧ Z.of_nat (length records) ≤ all_count
    ∧ all_count = 2.
Proof.
  assert (E : ∃ v t, do_get_local_order_list_info Sample.env Sample.db
                       (Sample.query None None 1 2) = Return (v, t)).
  { eexists _, _. vm_compute. reflexivity. }
  destruct E as (v & t & E).
  destruct (list_page_bound Sample.env Sample.db (Sample.query None None 1 2) v t
              sample_order_by sample_key E)
    as (records & all_count & -> & H1 & H2 & H3).
  exists records, all_count, t.
  split; [exact E|]. split; [exact H1|]. split; [exact H2|].
  rewrite H3. vm_compute. reflexivity.
Defined.

(** X12: a run of the list query that returns has executed the main query
    and the count query, and the item query after them exactly when the
    page has a record. *)
Theorem list_statements
    (env : environment) (db : database) (q : QueryParamIn.t)
    (v : value) (t : list statement)
    (Hrun : do_get_local_order_list_info env db q = Return (v, t)) :
  t = [main_query; count_query]
      ++ match records_of v with
         | [] => []
         | _ => [item_query]
         end.
Proof.
  apply list_inv in Hrun as (records & -> & -> & _ & Hall). simpl.
  destruct Hall; reflexivity.
Qed.

Lemma list_statements_witness :
  ∃ v t,
    do_get_local_order_list_info Sample.env Sample.db (Sample.query None None 2 5)
    = Return (v, t)
    ∧ t = [main_query; count_query]
          ++ match records_of v with
             | [] => []
             | _ => [item_query]
             end.
Proof.
  assert (E : ∃ v t, do_get_local_order_list_info Sample.env Sample.db
                       (Sample.query None None 2 5) = Return (v, t)).
  { eexists _, _. vm_compute. reflexivity. }
  destruct E as (v & t & E). exists v, t. split; [exact E|].
  apply (list_statements Sample.env Sample.db (Sample.query None None 2 5) v t E).
Defined.

Lemma page_of_sublist {A : Type} (page_size page_number : Z) (rows : list A) :
  page_of page_size page_number rows `sublist_of` rows.
Proof.
  unfold page_of. etransitivity; [apply sublist_take | apply sublist_drop].
Qed.

Lemma matching_rows_key (db : database) (P : SaleOrder.t → Prop)
    `{!∀ o, Decision (P o)} (rows page : list SaleOrder.t) :
  NoDup (map SaleOrder.id (orders db)) →
  rows ≡ₚ filter P (orders db) → page `sublist_of` rows →
  NoDup (map SaleOrder.id page) ∧ Forall (fun o => o ∈ orders db ∧ P o) page.
Proof.
  intros Hkey Hperm Hsub. split.
  - apply (sublist_NoDup _ (map SaleOrder.id rows)); [|apply fmap_sublist, Hsub].
    rewrite Hperm.
    apply (sublist_NoDup _ (map SaleOrder.id (orders db)) Hkey).
    apply fmap_sublist, sublist_filter.
  - apply Forall_forall. intros o Ho.
    apply (elem_of_sublist _ _ _ Ho) in Hsub. rewrite Hperm in Hsub.
    apply list_elem_of_filter in Hsub. tauto.
Qed.

(** X13: with the id the primary key of the order table and an engine
    whose ordering keeps the rows, the records of a page of the list query
    stand for different orders, each of them an order of the company of
    the query that is not disabled, was made in a store, and is in one of
    the states asked for, or in one of the active states when none is. *)
Theorem list_records_of_company
    (env : environment) (db : database) (q : QueryParamIn.t)
    (v : value) (t : list statement)
    (Hperm : order_by_permutes env)
    (Hkey : NoDup (map SaleOrder.id (orders db)))
    (Hrun : do_get_local_order_list_info env db q = Return (v, t)) :
  ∃ page,
    NoDup (map SaleOrder.id page)
    ∧ Forall (fun o => o ∈ orders db
                       ∧ own_active_order env (QueryParamIn.company_id q)
                           (QueryParamIn.states q) o) page
    ∧ Forall2 (record_of (list_projection env db q)) page (records_of v).
Proof.
  apply list_inv in Hrun as (records & -> & _ & _ & Hall).
  eexists. split; [|split; [|apply (Forall2_enriched_record _ _ _ _ _ _ Hall)]].
  - eapply matching_rows_key;
      [exact Hkey | apply (list_main_rows_perm env db q Hperm Hkey) | apply page_of_sublist].
  - eapply Forall_impl.
    + eapply matching_rows_key;
        [exact Hkey | apply (list_main_rows_perm env db q Hperm Hkey)
        | apply page_of_sublist].
    + intros o [Ho Hw]. split; [exact Ho|]. apply (list_conditions_hold env db q o Hw).
Qed.

Lemma list_records_of_company_witness :
  ∃ v t page,
    do_get_local_order_list_info Sample.env Sample.db (Sample.query None None 2 1)
    = Return (v, t)
    ∧ NoDup (map SaleOrder.id page)
    ∧ Forall (fun o => o ∈ orders Sample.db
                       ∧ own_active_order Sample.env 7 None o) page
    ∧ Forall2 (record_of (list_projection Sample.env Sample.db
                            (Sample.query None None 2 1))) page (records_of v).
Proof.
  assert (E : ∃ v t, do_get_local_order_list_info Sample.env Sample.db
                       (Sample.query None None 2 1) = Return (v, t)).
  { eexists _, _. vm_compute. reflexivity. }
  destruct E as (v & t & E).
  destruct (list_records_of_company Sample.env Sample.db (Sample.query None None 2 1) v t
              sample_order_by sample_key E) as (page & H1 & H2 & H3).
  exists v, t, page. split; [exact E|]. split; [exact H1|]. split; [exact H2 | exact H3].
Defined.

(** *** The PC list query *)

Lemma pc_head_conditions (env : environment) (q : QueryParamPCIn.t)
    (conditions : list condition) :
  pc_conditions env q = Return conditions →
  ∃ cs, conditions
        = [ DisabledIsFalse; CompanyIdEq (QueryParamPCIn.company_id q);
            OrderSourceEq (STORE_ORDER_code env) ] ++ cs
        ∧ state_condition (QueryParamPCIn.states q) ∈ cs.
Proof.
  unfold pc_conditions.
  destruct (match nonempty_list (QueryParamPCIn.amount_filter q) with
            | Some l => amount_conditions l
            | None => Return []
            end) as [amounts|e]; [|discriminate].
  simpl. intros [= <-]. eexists. split; [reflexivity|].
  rewrite !elem_of_app. do 3 right. rewrite elem_of_cons. left. reflexivity.
Qed.

Lemma pc_inv (env : environment) (db : database) (q : QueryParamPCIn.t)
    (v : value) (t : list statement) :
  do_get_local_order_pc_list_info env db q = Return (v, t) →
  ∃ conditions ordered,
    pc_conditions env q = Return conditions
    ∧ pc_ordered_rows env db q conditions = Return ordered
    ∧ 0 ≤ QueryParamPCIn.page_size q
    ∧ let id_rows := page_of (QueryParamPCIn.page_size q) (QueryParamPCIn.page_number q)
                       ordered in
      let order_ids := map SaleOrder.id id_rows in
      Forall2 (enriched env db (map SaleOrder.order_number id_rows)
                 (pc_projection env db order_ids))
        (filter (fun o => SaleOrder.id o ∈ order_ids) (orders db)) (records_of v).
Proof.
  intros H. unfold do_get_local_order_pc_list_info, pc_id_rows in H.
  destruct (pc_conditions env q) as [conditions|e] eqn:Ec; [|discriminate].
  simpl in H.
  destruct (pc_ordered_rows env db q conditions) as [ordered|e] eqn:Eo; [|discriminate].
  simpl in H. destruct (limit_offset _ _ _) as [id_rows|e] eqn:El; [|discriminate].
  apply limit_offset_inv in El as (Hs & _ & El).
  fold (page_of (QueryParamPCIn.page_size q) (QueryParamPCIn.page_number q) ordered) in El.
  exists conditions, ordered. split; [reflexivity|]. split; [exact Eo|].
  split; [exact Hs|].
  rewrite <- El. simpl in H. simpl.
  destruct (map SaleOrder.id id_rows) as [|i ids] eqn:Ei.
  - injection H as <- <-. simpl. rewrite filter_no_ids. constructor.
  - destruct (enrich_all _ _ _ _ _) as [records|e] eqn:Er; [|discriminate].
    simpl in H. destruct (dict_of_row env _) as [amount_row|e]; [|discriminate].
    simpl in H. injection H as <- <-. simpl. apply enrich_all_inv, Er.
Qed.

Lemma pc_ordered_rows_perm (env : environment) (db : database) (q : QueryParamPCIn.t)
    (conditions : list condition) (ordered : list SaleOrder.t) :
  order_by_permutes env →
  pc_ordered_rows env db q conditions = Return ordered →
  ordered ≡ₚ filter (fun o => where_ db conditions o = true) (orders db).
Proof.
  intros Hperm. unfold pc_ordered_rows.
  destruct (column (pc_ordering q)); try discriminate.
  intros [= <-]. apply (Hperm db).
Qed.

(** X14: with the id the primary key of the order table and an engine
    whose ordering keeps the rows, a page of the PC list query has at most
    as many records as the page size, and each record stands for an order
    of the company of the query that is not disabled, was made in a store,
    and is in one of the states asked for, or in one of the active states
    when none is; the records have the fifteen fields of those of the list
    query. *)
Theorem pc_records_of_company
    (env : environment) (db : database) (q : QueryParamPCIn.t)
    (v : value) (t : list statement)
    (Hperm : order_by_permutes env)
    (Hkey : NoDup (map SaleOrder.id (orders db)))
    (Hrun : do_get_local_order_pc_list_info env db q = Return (v, t)) :
  ∃ rows order_ids,
    Z.of_nat (length (records_of v)) ≤ QueryParamPCIn.page_size q
    ∧ Forall (fun o => o ∈ orders db
                       ∧ own_active_order env (QueryParamPCIn.company_id q)
                           (QueryParamPCIn.states q) o) rows
    ∧ Forall2 (record_of (pc_projection env db order_ids)) rows (records_of v)
    ∧ Forall (fun r => keys r = list_record_keys) (records_of v).
Proof.
  apply pc_inv in Hrun as (conditions & ordered & Hc & Hord & Hs & Hall).
  set (id_rows := page_of (QueryParamPCIn.page_size q) (QueryParamPCIn.page_number q)
                    ordered) in *.
  assert (Hpage : NoDup (map SaleOrder.id id_rows)
                  ∧ Forall (fun o => o ∈ orders db ∧ where_ db conditions o = true) id_rows).
  { eapply matching_rows_key;
      [exact Hkey | apply (pc_ordered_rows_perm env db q conditions ordered Hperm Hord)
      | apply page_of_sublist]. }
  destruct Hpage as [Hnd Hpage].
  assert (Hrows : filter (fun o => SaleOrder.id o ∈ map SaleOrder.id id_rows) (orders db)
                  ≡ₚ id_rows).
  { apply NoDup_Permutation.
    - apply NoDup_filter. eapply NoDup_fmap_1. exact Hkey.
    - eapply NoDup_fmap_1. exact Hnd.
    - intros o. rewrite list_elem_of_filter, list_elem_of_fmap. split.
      + intros [(y & Hid & Hy) Ho].
        assert (Hyo : y ∈ orders db).
        { rewrite Forall_forall in Hpage. apply (Hpage y Hy). }
        rewrite (order_key_inj (orders db) o y Hkey Ho Hyo Hid). exact Hy.
      + intros Ho. split; [exists o; split; [reflexivity | exact Ho]|].
        rewrite Forall_forall in Hpage. apply (Hpage o Ho). }
  eexists _, _.
  split; [|split; [|split; [apply (Forall2_enriched_record _ _ _ _ _ _ Hall)|]]].
  - apply Forall2_length in Hall. rewrite <- Hall, Hrows.
    apply page_of_length, Hs.
  - apply Forall_forall. intros o Ho. rewrite Hrows in Ho.
    rewrite Forall_forall in Hpage. destruct (Hpage o Ho) as [Hin Hw].
    split; [exact Hin|].
    destruct (pc_head_conditions env q conditions Hc) as (cs & -> & Hstate).
    apply (head_conditions_hold env db _ _ cs o Hw Hstate).
  - apply Forall_forall. intros r Hr.
    destruct (Forall2_elem_r _ _ _ r Hall Hr) as (o & _ & total & _ & ->). reflexivity.
Qed.

Lemma pc_records_of_company_witness :
  ∃ v t rows order_ids,
    do_get_local_order_pc_list_info Sample.env Sample.db
      (Sample.pc_query_by_receive_price "ascend" None None 2 1)
    = Return (v, t)
    ∧ length (records_of v) = 2%nat
    ∧ Z.of_nat (length (records_of v)) ≤ 2
    ∧ Forall (fun o => o ∈ orders Sample.db
                       ∧ own_active_order Sample.env 7 None o) rows
    ∧ Forall2 (record_of (pc_projection Sample.env Sample.db order_ids)) rows
        (records_of v)
    ∧ Forall (fun r => keys r = list_record_keys) (records_of v).
Proof.
  assert (E : ∃ v t, do_get_local_order_pc_list_info Sample.env Sample.db
                       (Sample.pc_query_by_receive_price "ascend" None None 2 1)
                     = Return (v, t)
                     ∧ length (records_of v) = 2%nat).
  { eexists _, _. split; [vm_compute; reflexivity | reflexivity]. }
  destruct E as (v & t & E & Hlen).
  destruct (pc_records_of_company Sample.env Sample.db
              (Sample.pc_query_by_receive_price "ascend" None None 2 1) v t
              sample_order_by sample_key E) as (rows & order_ids & H1 & H2 & H3 & H4).
  exists v, t, rows, order_ids.
  split; [exact E|]. split; [exact Hlen|]. split; [exact H1|]. split; [exact H2|].
  split; [exact H3 | exact H4].
Defined.

(** ** Quantities and items *)

Lemma get_total_accumulate (order_items : list SaleOrderItem.t) :
  get_total_purchase_quantity order_items
  = accumulate_purchase_quantity (Dec.Finite (Dec.mkDec 0 0)) order_items.
Proof. destruct order_items; reflexivity. Qed.

Lemma accumulate_skips (order_items : list SaleOrderItem.t) (total : Dec.Decimal) :
  accumulate_purchase_quantity total
    (filter (fun i => truthy (SaleOrderItem.purchase_quantity i) = true) order_items)
  = accumulate_purchase_quantity total order_items.
Proof.
  revert total. induction order_items as [|i l IH]; intros total; [reflexivity|].
  rewrite filter_cons. simpl.
  destruct (truthy (SaleOrderItem.purchase_quantity i)) eqn:E.
  - rewrite decide_True by reflexivity. simpl. rewrite E.
    destruct (Decimal_of _) as [d|e]; [|reflexivity]. simpl.
    destruct (Dec.Decimal_add total d) as [s|e]; [|reflexivity]. simpl. apply IH.
  - rewrite decide_False by discriminate. apply IH.
Qed.

(** X15: the items whose quantity is absent, empty or zero take no part in
    the total: the total of a list of items is the total of those of them
    that have a quantity, errors included. *)
Theorem get_total_purchase_quantity_skips (order_items : list SaleOrderItem.t) :
  get_total_purchase_quantity
    (filter (fun i => truthy (SaleOrderItem.purchase_quantity i) = true) order_items)
  = get_total_purchase_quantity order_items.
Proof. rewrite !get_total_accumulate. apply accumulate_skips. Qed.

Lemma accumulate_raises (order_items : list SaleOrderItem.t) (total : Dec.Decimal)
    (i : SaleOrderItem.t) (e : exn) :
  i ∈ order_items →
  truthy (SaleOrderItem.purchase_quantity i) = true →
  Decimal_of (SaleOrderItem.purchase_quantity i) = Raise e →
  ∃ e', accumulate_purchase_quantity total order_items = Raise e'.
Proof.
  intros Hi Ht He. revert total.
  induction order_items as [|j l IH]; intros total; [set_solver|].
  simpl. destruct (decide (truthy (SaleOrderItem.purchase_quantity j) = true)) as [Hj|Hj].
  - rewrite Hj. destruct (Decimal_of (SaleOrderItem.purchase_quantity j)) as [d|e1] eqn:Ed;
      [|eexists; reflexivity].
    simpl. destruct (Dec.Decimal_add total d) as [s|e2]; [|eexists; reflexivity].
    simpl. apply IH. apply elem_of_cons in Hi as [->|Hi]; [congruence | exact Hi].
  - apply not_true_is_false in Hj. rewrite Hj. apply IH.
    apply elem_of_cons in Hi as [->|Hi]; [congruence | exact Hi].
Qed.

Lemma enrich_all_raises (env : environment) (db : database)
    (order_numbers : list (option string))
    (project : SaleOrder.t -> list (string * value))
    (rows : list SaleOrder.t) (o : SaleOrder.t) (e : exn) :
  o ∈ rows →
  get_total_purchase_quantity (order_items_of db order_numbers (SaleOrder.order_number o))
  = Raise e →
  ∃ e', enrich_all env db order_numbers rows project = Raise e'.
Proof.
  intros Ho He. induction rows as [|x rows IH]; [set_solver|].
  simpl. unfold enrich.
  destruct (get_total_purchase_quantity
              (order_items_of db order_numbers (SaleOrder.order_number x)))
    as [total|e1] eqn:Ex; [|eexists; reflexivity].
  simpl. apply elem_of_cons in Ho as [->|Ho]; [congruence|].
  destruct (IH Ho) as [e' ->]. eexists. reflexivity.
Qed.

(** X16: one item with a quantity that is no decimal number, among the
    items of one order of the page, makes the whole list query fail: no
    record of the page is returned. *)
Theorem malformed_quantity_fails_page
    (env : environment) (db : database) (q : QueryParamIn.t)
    (o : SaleOrder.t) (i : SaleOrderItem.t) (e : exn)
    (Hs : 0 ≤ QueryParamIn.page_size q) (Hp : 1 ≤ QueryParamIn.page_number q)
    (Ho : o ∈ page_of (QueryParamIn.page_size q) (QueryParamIn.page_number q)
              (list_main_rows env db q))
    (Hi : i ∈ order_items_of db
              (map SaleOrder.order_number
                 (page_of (QueryParamIn.page_size q) (QueryParamIn.page_number q)
                    (list_main_rows env db q)))
              (SaleOrder.order_number o))
    (Ht : truthy (SaleOrderItem.purchase_quantity i) = true)
    (He : Decimal_of (SaleOrderItem.purchase_quantity i) = Raise e) :
  ∃ e', do_get_local_order_list_info env db q = Raise e'.
Proof.
  unfold do_get_local_order_list_info.
  destruct (limit_offset (QueryParamIn.page_size q)
              (QueryParamIn.page_size q * (QueryParamIn.page_number q - 1))
              (list_main_rows env db q)) as [rows|e0] eqn:El;
    [|eexists; reflexivity].
  apply limit_offset_inv in El as (_ & _ & ->). simpl.
  fold (page_of (QueryParamIn.page_size q) (QueryParamIn.page_number q)
          (list_main_rows env db q)).
  destruct (accumulate_raises _ (Dec.Finite (Dec.mkDec 0 0)) i e Hi Ht He) as [e1 H1].
  rewrite <- get_total_accumulate in H1.
  destruct (enrich_all_raises env db _ (list_projection env db q) _ o e1 Ho H1) as [e' ->].
  exists e'. reflexivity.
Qed.

Lemma malformed_quantity_fails_page_witness :
  ∃ e',
    do_get_local_order_list_info Sample.env
      (set_items Sample.db [ Sample.item 1 102 "SO2" (SStr "1");
                             Sample.item 2 103 "SO3" (SStr "1,5") ])
      (Sample.query None None 2 1)
    = Raise e'.
Proof.
  apply (malformed_quantity_fails_page Sample.env _ (Sample.query None None 2 1)
           (Sample.order 3 5 "Wang") (Sample.item 2 103 "SO3" (SStr "1,5"))
           InvalidOperation).
  - simpl. lia.
  - simpl. lia.
  - vm_compute. set_solver.
  - vm_compute. set_solver.
  - vm_compute. reflexivity.
  - vm_compute. reflexivity.
Defined.

Lemma item_id_le_trans : Transitive item_id_le.
Proof. intros a b c. unfold item_id_le. lia. Qed.

Lemma item_id_le_total : Total item_id_le.
Proof. intros a b. unfold item_id_le. lia. Qed.

Lemma StronglySorted_filter {A : Type} (R : relation A) (P : A → Prop)
    `{!∀ x, Decision (P x)} (l : list A) :
  StronglySorted R l → StronglySorted R (filter P l).
Proof.
  induction 1 as [|x l Hs IH Hall]; [constructor|].
  rewrite filter_cons. destruct (decide (P x)); [|exact IH].
  constructor; [exact IH|]. apply Forall_forall. intros y Hy.
  apply list_elem_of_filter in Hy as [_ Hy].
  rewrite Forall_forall in Hall. apply Hall, Hy.
Qed.

(** X17: the items that a record of a list query carries for an order
    number are the rows of the item table with that number that are not
    disabled, whatever company or order they belong to, by increasing id;
    a record without an order number carries none. *)
Theorem order_items_of_spec
    (db : database) (order_numbers : list (option string)) (order_number : option string) :
  StronglySorted item_id_le (order_items_of db order_numbers order_number)
  ∧ ∀ i, i ∈ order_items_of db order_numbers order_number
         ↔ i ∈ items db
           ∧ SaleOrderItem.disabled i = Some false
           ∧ order_number ∈ order_numbers
           ∧ ∃ n, order_number = Some n ∧ SaleOrderItem.order_number i = Some n.
Proof.
  unfold order_items_of. destruct order_number as [n|].
  - split.
    + apply StronglySorted_filter, StronglySorted_merge_sort;
        [exact item_id_le_trans | exact item_id_le_total].
    + intros i. rewrite list_elem_of_filter, merge_sort_Permutation. split.
      * intros [(Hn & Hin & Hd) Hi]. split; [exact Hi|]. split; [exact Hd|].
        split; [exact Hin|]. exists n. split; [reflexivity | exact Hn].
      * intros (Hi & Hd & Hin & n' & [= <-] & Hn). tauto.
  - split; [constructor|]. intros i. split; [set_solver|].
    intros (_ & _ & _ & n & Hn & _). discriminate Hn.
Qed.

(** ** Payments and amounts *)

Lemma success_payments_add (db : database) (p : SaleOrderPayment.t) (o : SaleOrder.t) :
  SaleOrderPayment.is_pay_success p ≠ Some true →
  success_payments (add_payment db p) o = success_payments db o.
Proof.
  intros Hp. unfold success_payments, add_payment. simpl.
  rewrite filter_app, filter_cons_False by tauto. rewrite filter_nil. apply app_nil_r.
Qed.

Lemma eval_condition_add (db : database) (p : SaleOrderPayment.t) :
  SaleOrderPayment.is_pay_success p ≠ Some true →
  ∀ c o, eval_condition (add_payment db p) c o = eval_condition db c o.
Proof.
  intros Hp. fix IH 1. intros c o. destruct c; try reflexivity.
  - simpl. induction clauses as [|c' l IHl]; [reflexivity|].
    rewrite IH, IHl. reflexivity.
  - simpl. rewrite existsb_app. simpl.
    destruct (SaleOrderPayment.is_pay_success p) as [[|]|]; [congruence | |];
      simpl; rewrite !andb_false_r, !orb_false_r; reflexivity.
  - simpl. destruct field; try reflexivity.
    simpl. rewrite success_payments_add by exact Hp. reflexivity.
Qed.

Lemma where_add (db : database) (p : SaleOrderPayment.t) (cs : list condition)
    (o : SaleOrder.t) :
  SaleOrderPayment.is_pay_success p ≠ Some true →
  where_ (add_payment db p) cs o = where_ db cs o.
Proof.
  intros Hp. unfold where_. induction cs as [|c cs IH]; [reflexivity|].
  simpl. rewrite (eval_condition_add db p Hp), IH. reflexivity.
Qed.

Lemma pay_success_groups_add (db : database) (p : SaleOrderPayment.t)
    (keep : SaleOrder.t -> bool) :
  SaleOrderPayment.is_pay_success p ≠ Some true →
  pay_success_groups (add_payment db p) keep = pay_success_groups db keep.
Proof.
  intros Hp. unfold pay_success_groups.
  assert (E : pay_success_rows (add_payment db p) keep = pay_success_rows db keep).
  { unfold pay_success_rows. simpl. apply flat_map_ext. intros o.
    rewrite (success_payments_add db p o Hp). reflexivity. }
  rewrite E. reflexivity.
Qed.

(** X18: a payment row that did not succeed, whether it failed or is
    still open, changes neither the orders that a list of conditions
    selects, nor the received amount of an order, nor the total count of
    the list query, nor the totals of the PC list query. *)
Theorem unsuccessful_payment_is_ignored
    (env : environment) (db : database) (p : SaleOrderPayment.t)
    (Hp : SaleOrderPayment.is_pay_success p ≠ Some true) :
  (∀ cs o, where_ (add_payment db p) cs o = where_ db cs o)
  ∧ (∀ keep o, joined_amount (pay_success_groups (add_payment db p) keep) o
               = joined_amount (pay_success_groups db keep) o)
  ∧ (∀ q, list_count env (add_payment db p) q = list_count env db q)
  ∧ (∀ cs, amount_data (add_payment db p) cs = amount_data db cs).
Proof.
  assert (Hbase : ∀ cs, filter (fun o => where_ (add_payment db p) cs o = true) (orders db)
                        = filter (fun o => where_ db cs o = true) (orders db)).
  { intros cs. apply filter_iff_in. intros o _. rewrite (where_add db p cs o Hp).
    reflexivity. }
  split; [intros cs o; apply where_add, Hp|].
  split; [intros keep o; rewrite (pay_success_groups_add db p keep Hp); reflexivity|].
  split.
  - intros q. unfold list_count, list_base_ids. cbn [add_payment orders].
    rewrite Hbase. reflexivity.
  - intros cs. unfold amount_data. cbn [add_payment orders].
    rewrite Hbase, pay_success_groups_add by exact Hp. reflexivity.
Qed.

Lemma unsuccessful_payment_is_ignored_witness :
  amount_data
    (add_payment Sample.db (Sample.payment 103 (Dec.mkDec 900 0) (Some false)))
    [StateIn [4; 5]]
  = amount_data Sample.db [StateIn [4; 5]].
Proof.
  apply (unsuccessful_payment_is_ignored Sample.env Sample.db
           (Sample.payment 103 (Dec.mkDec 900 0) (Some false))).
  simpl. discriminate.
Defined.

Lemma sql_sum_some (l : list (option Dec.dec)) (x : Dec.dec) :
  sql_sum l = Some x → ∃ d, Some d ∈ l.
Proof.
  unfold sql_sum.
  assert (Hgen : ∀ acc,
             fold_left
               (fun acc x =>
                  match acc, x with
                  | _, None => acc
                  | None, Some d => Some d
                  | Some a, Some d => Some (Dec.add_exact a d)
                  end) l acc = Some x →
             is_Some acc ∨ ∃ d, Some d ∈ l).
  { induction l as [|a l IH]; intros acc; simpl.
    - intros ->. left. eexists. reflexivity.
    - intros H. destruct (IH _ H) as [Hs|(d & Hd)].
      + destruct a as [d|]; [right; exists d; set_solver|].
        left. destruct acc; exact Hs.
      + right. exists d. set_solver. }
  intros H. destruct (Hgen None H) as [[? Hn]|Hd]; [discriminate Hn | exact Hd].
Qed.

Lemma amount_conditions_elem (l : list AmountFilter.t) (cs : list condition)
    (f : AmountFilter.t) (c : condition) :
  amount_conditions l = Return cs → f ∈ l →
  get_amount_condition f = Return (Some c) → c ∈ cs.
Proof.
  revert cs. induction l as [|g l IH]; intros cs Hcs Hf Hc; [set_solver|].
  simpl in Hcs.
  destruct (get_amount_condition g) as [cg|e] eqn:Eg; [|discriminate].
  simpl in Hcs. destruct (amount_conditions l) as [cl|e] eqn:El; [|discriminate].
  simpl in Hcs. injection Hcs as <-.
  apply elem_of_cons in Hf as [->|Hf].
  - rewrite Hc in Eg. injection Eg as <-. set_solver.
  - specialize (IH cl eq_refl Hf Hc). destruct cg; set_solver.
Qed.

Lemma pc_amount_conditions (env : environment) (q : QueryParamPCIn.t)
    (l : list AmountFilter.t) (cs : list condition) :
  pc_conditions env q = Return cs →
  nonempty_list (QueryParamPCIn.amount_filter q) = Some l →
  ∃ amounts, amount_conditions l = Return amounts ∧ ∀ c, c ∈ amounts → c ∈ cs.
Proof.
  unfold pc_conditions. intros Hc Hl. rewrite Hl in Hc.
  destruct (amount_conditions l) as [amounts|e]; [|discriminate].
  simpl in Hc. injection Hc as <-. exists amounts. split; [reflexivity|].
  intros c Hin. repeat (rewrite ?elem_of_cons, ?elem_of_app). tauto.
Qed.

Lemma get_amount_condition_known (f : AmountFilter.t) (r : option condition) :
  AmountFilter.amount_type f ∈ amount_types →
  get_amount_condition f = Return r →
  ∃ op,
    AmountFilter.operator f = Member op
    ∧ r = Some (AmountCompare
                  (if String.eqb (AmountFilter.amount_type f) "total_price"
                   then total_origin_price_field
                   else if String.eqb (AmountFilter.amount_type f) "discount_price"
                        then discount_price_field
                        else success_payment_sum_subquery)
                  op (AmountFilter.value f)).
Proof.
  intros Ht. unfold get_amount_condition, amount_types in *.
  set_unfold. destruct Ht as [E | [E | [E | []]]]; rewrite E;
    (destruct (AmountFilter.operator f) as [op|code]; [|discriminate]);
    intros [= <-]; exists op; split; reflexivity.
Qed.

(** X19: an amount filter of the PC list query with a recognised target
    selects an order only when the amount is there and compares as the
    operator asks with the value of the filter.  The amount is the original
    price, the discount, or for the received amount the sum, before it is
    rounded, of the successful payments: whatever the operator, an order
    without a discount passes no discount filter and an order without a
    successful payment passes no filter on the received amount. *)
Theorem amount_filter_selects
    (env : environment) (db : database) (q : QueryParamPCIn.t)
    (l : list AmountFilter.t) (f : AmountFilter.t) (cs : list condition) (o : SaleOrder.t)
    (Hl : nonempty_list (QueryParamPCIn.amount_filter q) = Some l)
    (Hf : f ∈ l)
    (Ht : AmountFilter.amount_type f ∈ amount_types)
    (Hc : pc_conditions env q = Return cs)
    (Hw : where_ db cs o = true) :
  ∃ op x,
    AmountFilter.operator f = Member op
    ∧ (if String.eqb (AmountFilter.amount_type f) "total_price"
       then SaleOrder.total_origin_price o
       else if String.eqb (AmountFilter.amount_type f) "discount_price"
            then SaleOrder.discount_price o
            else sql_sum (map SaleOrderPayment.payment_amount (success_payments db o)))
      = Some x
    ∧ compare_with op (dec_compare x (AmountFilter.value f)) = true
    ∧ (AmountFilter.amount_type f = "receive_price" →
       ∃ p, p ∈ success_payments db o ∧ is_Some (SaleOrderPayment.payment_amount p)).
Proof.
  destruct (pc_amount_conditions env q l cs Hc Hl) as (amounts & Ha & Hsub).
  destruct (get_amount_condition f) as [r|e] eqn:Er.
  - destruct (get_amount_condition_known f r Ht Er) as (op & Hop & ->).
    pose proof (where_elem db _ cs o Hw
                  (Hsub _ (amount_conditions_elem l amounts f _ Ha Hf Er))) as He.
    simpl in He. exists op.
    destruct (String.eqb (AmountFilter.amount_type f) "total_price") eqn:E1;
      [|destruct (String.eqb (AmountFilter.amount_type f) "discount_price") eqn:E2];
      simpl in He.
    + destruct (SaleOrder.total_origin_price o) as [x|]; [|discriminate].
      exists x. injection He as He. split; [exact Hop|]. split; [reflexivity|].
      split; [exact He|]. intros E. rewrite E in E1. discriminate E1.
    + destruct (SaleOrder.discount_price o) as [x|]; [|discriminate].
      exists x. injection He as He. split; [exact Hop|]. split; [reflexivity|].
      split; [exact He|]. intros E. rewrite E in E2. discriminate E2.
    + destruct (sql_sum _) as [x|] eqn:Es; [|discriminate].
      exists x. injection He as He. split; [exact Hop|]. split; [reflexivity|].
      split; [exact He|]. intros _.
      apply sql_sum_some in Es as (d & Hd).
      apply list_elem_of_fmap in Hd as (p & Hp & Hin).
      exists p. split; [exact Hin|]. exists d. symmetry. exact Hp.
  - exfalso. assert (e = KeyError).
    { unfold get_amount_condition in Er.
      destruct (amount_field_mapping !! _); [|discriminate].
      destruct (AmountFilter.operator f); [discriminate|]. congruence. }
    subst e. rewrite (amount_conditions_raise_elem l f Hf Er) in Ha. discriminate Ha.
Qed.

Lemma amount_filter_selects_witness :
  ∃ op x,
    Member LT = Member op
    ∧ sql_sum (map SaleOrderPayment.payment_amount
                 (success_payments Sample.db (Sample.order 2 4 "Li"))) = Some x
    ∧ compare_with op (dec_compare x (Dec.mkDec 100 0)) = true
    ∧ ∃ p, p ∈ success_payments Sample.db (Sample.order 2 4 "Li")
           ∧ is_Some (SaleOrderPayment.payment_amount p).
Proof.
  destruct (amount_filter_selects Sample.env Sample.db
              (Sample.pc_query None
                 (Some [AmountFilter.mk "receive_price" (Member LT) (Dec.mkDec 100 0)]) 10 1)
              [AmountFilter.mk "receive_price" (Member LT) (Dec.mkDec 100 0)]
              (AmountFilter.mk "receive_price" (Member LT) (Dec.mkDec 100 0))
              [ DisabledIsFalse; CompanyIdEq 7; OrderSourceEq 1;
                StateIn [4; 5; 6; 8; 9; 10; 11];
                AmountCompare success_payment_sum_subquery LT (Dec.mkDec 100 0) ]
              (Sample.order 2 4 "Li"))
    as (op & x & H1 & H2 & H3 & H4).
  - reflexivity.
  - set_solver.
  - unfold amount_types. simpl. set_solver.
  - vm_compute. reflexivity.
  - vm_compute. reflexivity.
  - exists op, x. split; [exact H1|]. split; [exact H2|]. split; [exact H3|].
    apply H4. reflexivity.
Defined.

(** ** The discounts of one order *)

Lemma discount_join_rows (db : database) (lines : list SaleOrderDiscountPrice.t)
    (record_id company_id : Z) (test : option Z → option bool) :
  test None = None →
  omap id
    (filter (fun r => is_true (test (r ≫= SaleOrderDiscountPrice.discount_source)) = true)
       (discount_outer_join db lines record_id company_id))
  = filter (fun d => is_true (test (SaleOrderDiscountPrice.discount_source d)) = true)
      (discount_rows db lines record_id company_id).
Proof.
  intros Hnull. unfold discount_outer_join, discount_rows.
  induction (filter (fun o => detail_where record_id company_id o = true) (orders db))
    as [|o l IH]; [reflexivity|].
  cbn [flat_map]. rewrite !filter_app, omap_app, IH. f_equal. clear IH.
  assert (Hrows : ∀ ds : list SaleOrderDiscountPrice.t,
             omap id
               (filter (fun r => is_true (test (r ≫= SaleOrderDiscountPrice.discount_source))
                                 = true) (map Some ds))
             = filter (fun d => is_true (test (SaleOrderDiscountPrice.discount_source d))
                                = true) ds).
  { induction ds as [|d ds IHd]; [reflexivity|].
    cbn [map]. rewrite !filter_cons. cbn [mbind option_bind].
    destruct (decide (is_true (test (SaleOrderDiscountPrice.discount_source d)) = true));
      cbn; rewrite IHd; reflexivity. }
  destruct (filter (fun d => SaleOrderDiscountPrice.order_id d = SaleOrder.record_id o)
              lines) as [|d ds] eqn:E.
  - rewrite filter_cons_False; [reflexivity|]. cbn. rewrite Hnull. discriminate.
  - apply Hrows.
Qed.

Lemma filter_idemp {A : Type} (P : A → Prop) `{!∀ x, Decision (P x)} (l : list A) :
  filter P (filter P l) = filter P l.
Proof.
  rewrite list_filter_filter. apply filter_iff_in. intros x _. tauto.
Qed.

Lemma system_discount_rows (rows : list SaleOrderDiscountPrice.t) :
  system_discount
    (filter (fun d => is_true (source_eq_1 (SaleOrderDiscountPrice.discount_source d)) = true)
       rows)
  = system_discount rows.
Proof. unfold system_discount. rewrite filter_idemp. reflexivity. Qed.

Lemma other_discount_rows (rows : list SaleOrderDiscountPrice.t) :
  other_discount
    (filter (fun d => is_true (source_ne_1 (SaleOrderDiscountPrice.discount_source d)) = true)
       rows)
  = other_discount rows.
Proof. unfold other_discount. cbv zeta. rewrite filter_idemp. reflexivity. Qed.

(** X20: the discount query of the PC detail page gives the groups of
    the discount query of the detail page, group for group: its outer join
    adds no group, its amounts are numbers where the other query gives
    their text, and it shows the name 单品改价 as 单品让价. *)
Theorem discount_queries_agree
    (db : database) (lines : list SaleOrderDiscountPrice.t) (record_id company_id : Z) :
  ∃ groups,
    do_get_order_discount_detail_price db lines record_id company_id
    = map (fun g => VDict [ ("name", opt_str (fst g));
                            ("amount", opt_str (numeric_to_string <$> snd g)) ]) groups
    ∧ do_get_order_discount_price_info db lines record_id company_id
      = map (fun g => VDict [ ("name", opt_str (discount_display_name (fst g)));
                              ("amount",
                               match snd g with
                               | Some a => VDecimal (Dec.Finite a)
                               | None => VNone
                               end) ]) groups.
Proof.
  exists (system_discount (discount_rows db lines record_id company_id)
          ++ other_discount (discount_rows db lines record_id company_id)).
  split; [reflexivity|].
  unfold do_get_order_discount_price_info. cbv zeta.
  rewrite (discount_join_rows db lines record_id company_id source_eq_1 eq_refl).
  rewrite (discount_join_rows db lines record_id company_id source_ne_1 eq_refl).
  rewrite system_discount_rows, other_discount_rows.
  rewrite !map_app, !map_map. f_equal.
  unfold system_discount. destruct (filter _ _); reflexivity.
Qed.

Lemma filter_discount_rows_add (db : database) (lines : list SaleOrderDiscountPrice.t)
    (d : SaleOrderDiscountPrice.t) (record_id company_id : Z)
    (P : SaleOrderDiscountPrice.t → Prop) `{!∀ x, Decision (P x)} :
  ¬ P d →
  filter P (discount_rows db (lines ++ [d]) record_id company_id)
  = filter P (discount_rows db lines record_id company_id).
Proof.
  intros Hd. unfold discount_rows. rewrite !filter_flat_map. apply flat_map_ext. intros o.
  rewrite filter_app, filter_app.
  assert (E : filter P (filter (fun d => SaleOrderDiscountPrice.order_id d
                                          = SaleOrder.record_id o) [d]) = []).
  { apply filter_none. intros x Hx. apply list_elem_of_filter in Hx as [_ Hx].
    apply list_elem_of_singleton in Hx. subst x. exact Hd. }
  rewrite E. apply app_nil_r.
Qed.

(** X21: a discount row without a source is in no group of either
    discount query: it compares neither equal to the system source nor
    different from it, so its amount is in no record. *)
Theorem discount_without_source_is_dropped
    (db : database) (lines : list SaleOrderDiscountPrice.t)
    (d : SaleOrderDiscountPrice.t) (record_id company_id : Z)
    (Hd : SaleOrderDiscountPrice.discount_source d = None) :
  do_get_order_discount_detail_price db (lines ++ [d]) record_id company_id
  = do_get_order_discount_detail_price db lines record_id company_id
  ∧ do_get_order_discount_price_info db (lines ++ [d]) record_id company_id
    = do_get_order_discount_price_info db lines record_id company_id.
Proof.
  assert (H1 : system_discount (discount_rows db (lines ++ [d]) record_id company_id)
               = system_discount (discount_rows db lines record_id company_id)).
  { unfold system_discount. rewrite filter_discount_rows_add; [reflexivity|].
    rewrite Hd. discriminate. }
  assert (H2 : other_discount (discount_rows db (lines ++ [d]) record_id company_id)
               = other_discount (discount_rows db lines record_id company_id)).
  { unfold other_discount. cbv zeta. rewrite filter_discount_rows_add; [reflexivity|].
    rewrite Hd. discriminate. }
  split.
  - unfold do_get_order_discount_detail_price. cbv zeta. rewrite H1, H2. reflexivity.
  - unfold do_get_order_discount_price_info. cbv zeta.
    rewrite !(discount_join_rows db _ record_id company_id source_eq_1 eq_refl).
    rewrite !(discount_join_rows db _ record_id company_id source_ne_1 eq_refl).
    rewrite !system_discount_rows, !other_discount_rows, H1, H2. reflexivity.
Qed.

Lemma discount_without_source_is_dropped_witness :
  do_get_order_discount_detail_price Sample.db
    ([ SaleOrderDiscountPrice.mk 102 (Some 1) (Some "round") (Some (Dec.mkDec 5 (-2)));
       SaleOrderDiscountPrice.mk 102 (Some 2) (Some "单品改价") (Some (Dec.mkDec 150 (-2))) ]
     ++ [ SaleOrderDiscountPrice.mk 102 None (Some "gift") (Some (Dec.mkDec 900 (-2))) ])
    2 7
  = [ VDict [ ("name", VStr "系统抹零"); ("amount", VStr "0.05") ];
      VDict [ ("name", VStr "单品改价"); ("amount", VStr "1.50") ] ]
  ∧ do_get_order_discount_price_info Sample.db
      ([ SaleOrderDiscountPrice.mk 102 (Some 1) (Some "round") (Some (Dec.mkDec 5 (-2)));
         SaleOrderDiscountPrice.mk 102 (Some 2) (Some "单品改价") (Some (Dec.mkDec 150 (-2))) ]
       ++ [ SaleOrderDiscountPrice.mk 102 None (Some "gift") (Some (Dec.mkDec 900 (-2))) ])
      2 7
    = [ VDict [ ("name", VStr "系统抹零");
                ("amount", VDecimal (Dec.Finite (Dec.mkDec 5 (-2)))) ];
        VDict [ ("name", VStr "单品让价");
                ("amount", VDecimal (Dec.Finite (Dec.mkDec 150 (-2)))) ] ].
Proof.
  destruct (discount_without_source_is_dropped Sample.db
              [ SaleOrderDiscountPrice.mk 102 (Some 1) (Some "round")
                  (Some (Dec.mkDec 5 (-2)));
                SaleOrderDiscountPrice.mk 102 (Some 2) (Some "单品改价")
                  (Some (Dec.mkDec 150 (-2))) ]
              (SaleOrderDiscountPrice.mk 102 None (Some "gift") (Some (Dec.mkDec 900 (-2))))
              2 7 eq_refl) as [H1 H2].
  rewrite H1, H2. split; vm_compute; reflexivity.
Defined.

(** X22: with the id the primary key of the order table, the totals of the
    PC list query are taken over the orders that the conditions select,
    each once: the count is their number, the price and the discount are
    the rounded sums of their columns, and the received total is the
    rounded sum of their received amounts, each rounded before it is
    added; a total without a value to add is zero. *)
Theorem amount_data_totals
    (db : database) (conditions : list condition)
    (Hkey : NoDup (map SaleOrder.id (orders db))) :
  amount_data db conditions
  = let rows := filter (fun o => where_ db conditions o = true) (orders db) in
    VDict
      [ ("total_price",
         coalesce0 (sql_round2 <$> sql_sum (map SaleOrder.total_origin_price rows)));
        ("total_discount_price",
         coalesce0 (sql_round2 <$> sql_sum (map SaleOrder.discount_price rows)));
        ("total_receive_price",
         coalesce0 (sql_round2 <$> sql_sum (map (received_amount db) rows)));
        ("total_count", VInt (Z.of_nat (length rows))) ].
Proof.
  unfold amount_data. cbv zeta.
  set (P := fun o => where_ db conditions o = true).
  assert (Hrows : filter (fun o => bool_decide
                                     (SaleOrder.id o ∈ map SaleOrder.id (filter P (orders db)))
                                   = true) (orders db)
                  = filter P (orders db)).
  { etransitivity; [|apply (filter_by_key (orders db) P Hkey)].
    apply filter_iff_in. intros o _. apply bool_decide_eq_true. }
  rewrite Hrows.
  rewrite (map_ext_in
             (joined_amount
                (pay_success_groups db
                   (fun o => bool_decide
                               (SaleOrder.id o ∈ map SaleOrder.id (filter P (orders db))))))
             (received_amount db)); [reflexivity|].
  intros o Ho. apply list_elem_of_In, list_elem_of_filter in Ho as [HP Ho].
  apply joined_amount_received; [exact Hkey | exact Ho |].
  apply bool_decide_eq_true, list_elem_of_fmap. exists o. split; [reflexivity|].
  apply list_elem_of_filter. split; assumption.
Qed.

Lemma amount_data_totals_witness :
  amount_data Sample.db [StateIn [2; 4; 5]]
  = VDict [ ("total_price", VDecimal (Dec.Finite (Dec.mkDec 15000 (-2))));
            ("total_discount_price", VDecimal (Dec.Finite (Dec.mkDec 0 0)));
            ("total_receive_price", VDecimal (Dec.Finite (Dec.mkDec 7000 (-2))));
            ("total_count", VInt 3) ].
Proof.
  rewrite (amount_data_totals Sample.db [StateIn [2; 4; 5]]).
  - vm_compute. reflexivity.
  - vm_compute. repeat constructor; set_solver.
Defined.
